(** * go-fiber-starter: account service and its persistence adapter

    A shallow embedding of the account life cycle of the repository
    (packages [hashing], [auth] and [user]) together with the properties
    its specification states about it.

    Conventions of the embedding.
    - A Go [string] is a sequence of bytes: [string] of the standard
      library; [len(s)] is [String.length s].
    - Go [int] and [int64] are [Z]; the one place where the program does
      arithmetic on them ([(Page - 1) * PerPage]) writes the 64-bit
      wrap-around out.
    - [uuid.UUID] is a 128-bit value, [Z], with [uuid.Nil] = 0.
    - [time.Time] is an instant counted from the zero time, [Z]; the zero
      value [time.Time{}] is 0.
    - A Go function returning a pointer together with an [error] returns
      [Result T]; the repositories of the program return exactly one of
      the two.
    - Code that talks to the store runs in a state monad over the store.
    - A handler of the HTTP boundary returns its error together with the
      responses it has written, in the order it wrote them. *)

From Stdlib Require Import ZArith List String Ascii Bool Lia Permutation.
From Stdlib Require Import SpecFloat.
From Stdlib Require Import Sorted.
Import ListNotations.

Local Open Scope string_scope.
Local Open Scope Z_scope.

(** ** Values of the Go runtime *)

Definition UUID := Z.
Definition uuid_Nil : UUID := 0.

Definition Time := Z.
Definition zeroTime : Time := 0.

(** Error values.  [ErrRecordNotFound] is the sentinel [gorm.ErrRecordNotFound];
    [New] is [errors.New] (and [fmt.Errorf] without a wrapping verb);
    [Wrap] is [fmt.Errorf(prefix + "%w", cause)]; [External] is an error
    produced by a library or by the database driver. *)
Inductive error : Type :=
| ErrRecordNotFound
| New (msg : string)
| Wrap (prefix : string) (cause : error)
| External (msg : string).

(** [err.Error()] *)
Fixpoint Error (e : error) : string :=
  match e with
  | ErrRecordNotFound => "record not found"
  | New msg => msg
  | Wrap prefix cause => prefix ++ Error cause
  | External msg => msg
  end.

(** [errors.Is(err, gorm.ErrRecordNotFound)]: follows the chain of wrapped
    errors. *)
Fixpoint Is_ErrRecordNotFound (e : error) : bool :=
  match e with
  | ErrRecordNotFound => true
  | Wrap _ cause => Is_ErrRecordNotFound cause
  | _ => false
  end.

Inductive Result (A : Type) : Type :=
| Ok (a : A)
| Err (e : error).
Arguments Ok {A} a.
Arguments Err {A} e.

(** [strings.Contains] *)
Fixpoint strings_Contains (s substr : string) : bool :=
  String.prefix substr s ||
  match s with
  | EmptyString => false
  | String _ rest => strings_Contains rest substr
  end.

(** Wrap-around of a mathematical integer into Go's 64-bit [int]. *)
Definition wrap64 (z : Z) : Z := (z + 2 ^ 63) mod 2 ^ 64 - 2 ^ 63.

(** ** Capabilities outside the repository

    The Go standard library, [google/uuid], [x/crypto/bcrypt] and the
    database's operators are not part of the repository.  The program is
    stated over any implementation of them. *)
Class Runtime : Type := {
  (** [uuid.Parse]; the database is taken to cast a text parameter to a
      [uuid] column the same way *)
  uuid_Parse : string -> option UUID;
  strings_ToLower : string -> string;
  strings_TrimSpace : string -> string;
  (** [bcrypt.GenerateFromPassword(password, cost)], given the random salt *)
  bcrypt_GenerateFromPassword : string -> string -> Z -> Result string;
  (** [bcrypt.CompareHashAndPassword(hash, password)]: [None] is [nil] *)
  bcrypt_CompareHashAndPassword : string -> string -> option error;
  base64_URLEncoding_EncodeToString : string -> string;
  (** the database's [value ILIKE pattern] *)
  sql_ILIKE : string -> string -> bool;
  (** the order the database gives two rows that the sort key of a
      statement does not tell apart: for a statement with this offset and
      this limit, whether the row of the first key comes before the row of
      the second.  The database is free in it, from one statement to the
      next. *)
  sql_tie_break : Z -> Z -> UUID -> UUID -> bool
}.

(** ** The state monad of code that talks to a store *)

Definition M (S A : Type) : Type := S -> A * S.

Definition ret {S A : Type} (a : A) : M S A := fun s => (a, s).

Definition bind {S A B : Type} (m : M S A) (k : A -> M S B) : M S B :=
  fun s => let (a, s') := m s in k a s'.

Declare Scope go_scope.
Delimit Scope go_scope with go.
Notation "x <- m ;; k" := (bind m (fun x => k))
  (at level 61, m at next level, right associativity) : go_scope.
Notation "' pat <- m ;; k" := (bind m (fun x => match x with pat => k end))
  (at level 61, pat pattern, m at next level, right associativity) : go_scope.

(** ** Entities (user_entity.go, auth_entity.go, the user DTOs) *)

Record User : Type := {
  ID : UUID;
  Name : string;
  Email : string;
  Password : string;
  Role : string;
  Provider : string;
  Photo : string;
  Verified : bool;
  CreatedAt : Time;
  UpdatedAt : Time;
  DeletedAt : option Time
}.

Record CreateUserData : Type := {
  cd_Name : string;
  cd_Email : string;
  cd_Password : string;
  cd_Role : string;
  cd_Provider : string;
  cd_Photo : string;
  cd_Verified : bool
}.

Record UpdateUserData : Type := {
  ud_Name : string;
  ud_Email : string;
  ud_Role : string;
  ud_Photo : string;
  ud_Verified : bool
}.

(** [UserModel]: the row type with its nullable primary key. *)
Record UserModel : Type := {
  m_ID : option UUID;
  m_Name : string;
  m_Email : string;
  m_Password : string;
  m_Role : string;
  m_Provider : string;
  m_Photo : string;
  m_Verified : bool;
  m_CreatedAt : Time;
  m_UpdatedAt : Time;
  m_DeletedAt : option Time
}.

Record UserResponse : Type := {
  r_ID : UUID;
  r_Name : string;
  r_Email : string;
  r_Role : string;
  r_Provider : string;
  r_Photo : string;
  r_Verified : bool;
  r_CreatedAt : Time;
  r_UpdatedAt : Time;
  r_DeletedAt : option Time
}.

Record ListUsersQuery : Type := {
  Page : Z;
  PerPage : Z;
  Search : string;
  SearchBy : string;
  q_Role : string;
  q_Provider : string;
  q_Verified : option bool;
  ShowDeleted : bool
}.

Definition set_Page (p : Z) (q : ListUsersQuery) : ListUsersQuery :=
  {| Page := p; PerPage := PerPage q; Search := Search q; SearchBy := SearchBy q;
     q_Role := q_Role q; q_Provider := q_Provider q; q_Verified := q_Verified q;
     ShowDeleted := ShowDeleted q |}.

Definition set_PerPage (p : Z) (q : ListUsersQuery) : ListUsersQuery :=
  {| Page := Page q; PerPage := p; Search := Search q; SearchBy := SearchBy q;
     q_Role := q_Role q; q_Provider := q_Provider q; q_Verified := q_Verified q;
     ShowDeleted := ShowDeleted q |}.

Definition set_Search (t : string) (q : ListUsersQuery) : ListUsersQuery :=
  {| Page := Page q; PerPage := PerPage q; Search := t; SearchBy := SearchBy q;
     q_Role := q_Role q; q_Provider := q_Provider q; q_Verified := q_Verified q;
     ShowDeleted := ShowDeleted q |}.

Record SignUpData : Type := {
  su_Name : string;
  su_Email : string;
  su_Password : string;
  su_PasswordConfirm : string;
  su_Photo : string
}.

(** ** Package hashing *)
Module hashing.
Section Hashing.
Context {rt : Runtime}.

Definition DefaultCost : Z := 10.

(** [HashPassword]; [salt] is the randomness bcrypt draws. *)
Definition HashPassword (salt password : string) : string * option error :=
  match bcrypt_GenerateFromPassword salt password DefaultCost with
  | Err err => ("", Some err)
  | Ok hashedBytes => (hashedBytes, None)
  end.

Definition VerifyPassword (hashedPassword password : string) : option error :=
  bcrypt_CompareHashAndPassword hashedPassword password.

(** [GenerateToken]; [read] is the outcome of [rand.Read] on the 32-byte
    buffer. *)
Definition GenerateToken (read : Result string) : string * option error :=
  match read with
  | Err err => ("", Some err)
  | Ok b => (base64_URLEncoding_EncodeToString b, None)
  end.

End Hashing.
End hashing.

(** ** The object-relational mapper and the relation [users]

    Modelled from the spec: the mapper [gorm.io/gorm] and the database
    behind it, which the repositories call and which are not among the
    sources.  The specification describes the persistence adapter as one
    relational table with a uniqueness constraint on the email, filtered
    and paginated queries ordered by creation time, and deletion and
    restoration of rows.  Accordingly: the store is the relation [users],
    with a primary key on [id] and a unique index on [email]; a statement
    is the list of [Where] clauses, kept as the SQL text and the bound
    argument the program passes.  The connection is healthy: the database
    fails only on a statement it cannot run or on a constraint violation.

    Where the description of the specification meets the declarations of
    the program, three rules of the mapper and of SQL decide.
    - A statement addresses the table of the struct it is about: the
      struct given to [Model], or else the destination of its final call.
      [UserModel] names [users] through [TableName]; [User] has the name
      the mapper derives from the name of a struct, [users] as well;
      [UserResponse] has the derived name [user_responses]; a map of
      column values has none.  The database holds [users] and no other
      relation of these names.
    - The mapper's soft delete belongs to fields of its own type
      [gorm.DeletedAt].  The structs of the program declare [DeletedAt] as
      [*time.Time], an ordinary nullable column: [Delete] removes the
      rows it selects, and no statement leaves out rows by that column,
      [Unscoped] or not.
    - [ORDER BY created_at DESC] says nothing about rows created at the
      same time: their order is the database's, statement by
      statement. *)
Module gorm.
Section Gorm.
Context {rt : Runtime}.

Definition DB : Type := list User.

Inductive Arg : Type :=
| AText (s : string)
| ABool (b : bool).

(** Modelled from the spec: the structs a statement of the program can be
    about, and a map of column values. *)
Inductive Struct : Type :=
| OfUserModel
| OfUser
| OfUserResponse
| OfValues.

(** Modelled from the spec: the table of a struct. *)
Definition TableName (s : Struct) : option string :=
  match s with
  | OfUserModel => Some "users"
  | OfUser => Some "users"
  | OfUserResponse => Some "user_responses"
  | OfValues => None
  end.

Record Statement : Type := {
  model : option Struct;
  unscoped : bool;
  clauses : list (string * Arg)
}.

(** Modelled from the spec: the handle [r.db], a statement without a
    clause yet. *)
Definition Session : Statement :=
  {| model := None; unscoped := false; clauses := [] |}.

Definition Model (s : Struct) (st : Statement) : Statement :=
  {| model := Some s; unscoped := unscoped st; clauses := clauses st |}.

Definition Unscoped (st : Statement) : Statement :=
  {| model := model st; unscoped := true; clauses := clauses st |}.

Definition Where (sql : string) (arg : Arg) (st : Statement) : Statement :=
  {| model := model st; unscoped := unscoped st;
     clauses := (clauses st ++ [(sql, arg)])%list |}.

Definition quote : string := String (ascii_of_nat 34) EmptyString.

(** Modelled from the spec: the database's error for a relation it does
    not hold, and the mapper's error for a statement without a table. *)
Definition no_such_table (name : string) : error :=
  External ("ERROR: relation " ++ quote ++ name ++ quote
            ++ " does not exist (SQLSTATE 42P01)").

Definition table_not_set : error :=
  External ("unsupported data type: Table not set, please set it like: "
            ++ "db.Model(&user) or db.Table(" ++ quote ++ "users" ++ quote ++ ")").

(** Modelled from the spec: whether a statement with the destination
    [dest] can be run, [None], or the error it ends with. *)
Definition addressed (dest : Struct) (st : Statement) : option error :=
  match TableName (match model st with Some m => m | None => dest end) with
  | None => Some table_not_set
  | Some table =>
      if (table =? "users")%string then None else Some (no_such_table table)
  end.

(** Modelled from the spec: what the database understands of a clause. *)
Inductive Pred : Type :=
| IdEq (i : UUID)
| EmailEq (s : string)
| RoleEq (s : string)
| ProviderEq (s : string)
| VerifiedEq (b : bool)
| NameILike (pattern : string)
| EmailILike (pattern : string).

Definition plan (c : string * Arg) : Result Pred :=
  match c with
  | (sql, AText s) =>
      if (sql =? "id = ?")%string then
        match uuid_Parse s with
        | Some i => Ok (IdEq i)
        | None => Err (External "ERROR: invalid input syntax for type uuid (SQLSTATE 22P02)")
        end
      else if (sql =? "email = ?")%string then Ok (EmailEq s)
      else if (sql =? "role = ?")%string then Ok (RoleEq s)
      else if (sql =? "provider = ?")%string then Ok (ProviderEq s)
      else if (sql =? "name ILIKE ?")%string then Ok (NameILike s)
      else if (sql =? "email ILIKE ?")%string then Ok (EmailILike s)
      else Err (External "ERROR: statement rejected (SQLSTATE 42601)")
  | (sql, ABool b) =>
      if (sql =? "verified = ?")%string then Ok (VerifiedEq b)
      else Err (External "ERROR: statement rejected (SQLSTATE 42601)")
  end.

Fixpoint plan_all (cs : list (string * Arg)) : Result (list Pred) :=
  match cs with
  | [] => Ok []
  | c :: rest =>
      match plan c with
      | Err e => Err e
      | Ok p =>
          match plan_all rest with
          | Err e => Err e
          | Ok ps => Ok (p :: ps)
          end
      end
  end.

Definition holds (u : User) (p : Pred) : bool :=
  match p with
  | IdEq i => ID u =? i
  | EmailEq s => (Email u =? s)%string
  | RoleEq s => (Role u =? s)%string
  | ProviderEq s => (Provider u =? s)%string
  | VerifiedEq b => Bool.eqb (Verified u) b
  | NameILike pattern => sql_ILIKE (Name u) pattern
  | EmailILike pattern => sql_ILIKE (Email u) pattern
  end.

(** Modelled from the spec: a row is selected by a statement when it
    satisfies every clause. *)
Definition selected (ps : list Pred) (u : User) : bool :=
  forallb (holds u) ps.

(** Modelled from the spec: [ORDER BY id LIMIT 1]. *)
Fixpoint least_id (rows : list User) : option User :=
  match rows with
  | [] => None
  | u :: rest =>
      match least_id rest with
      | None => Some u
      | Some v => if ID u <=? ID v then Some u else Some v
      end
  end.

(** Modelled from the spec: [st.First(&row)], for a destination of the
    struct [dest]. *)
Definition First (dest : Struct) (st : Statement) : M DB (Result User) :=
  fun db =>
    match addressed dest st with
    | Some e => (Err e, db)
    | None =>
        match plan_all (clauses st) with
        | Err e => (Err e, db)
        | Ok ps =>
            match least_id (filter (selected ps) db) with
            | Some u => (Ok u, db)
            | None => (Err ErrRecordNotFound, db)
            end
        end
    end.

(** Modelled from the spec: [st.Count(&total)]; a number is no struct. *)
Definition Count (st : Statement) : M DB (Result Z) :=
  fun db =>
    match addressed OfValues st with
    | Some e => (Err e, db)
    | None =>
        match plan_all (clauses st) with
        | Err e => (Err e, db)
        | Ok ps => (Ok (Z.of_nat (List.length (filter (selected ps) db))), db)
        end
    end.

(** Modelled from the spec: [ORDER BY created_at DESC], as an insertion
    sort in which [before] settles the rows created at the same time. *)
Fixpoint insert_desc (before : UUID -> UUID -> bool) (u : User) (sorted : list User)
  : list User :=
  match sorted with
  | [] => [u]
  | v :: rest =>
      if (CreatedAt v <? CreatedAt u)
         || ((CreatedAt v =? CreatedAt u) && before (ID u) (ID v))
      then u :: v :: rest
      else v :: insert_desc before u rest
  end.

Definition order_created_at_desc (offset limit : Z) (rows : list User) : list User :=
  fold_right (insert_desc (sql_tie_break offset limit)) [] rows.

(** Modelled from the spec: [OFFSET] is emitted for a positive offset,
    [LIMIT] for a non-negative limit. *)
Definition page_of (offset limit : Z) (rows : list User) : list User :=
  let rows := if 0 <? offset then skipn (Z.to_nat offset) rows else rows in
  if 0 <=? limit then firstn (Z.to_nat limit) rows else rows.

(** Modelled from the spec:
    [st.Offset(offset).Limit(limit).Order("created_at DESC").Find(&rows)],
    for a destination of the struct [dest]. *)
Definition Find (dest : Struct) (st : Statement) (offset limit : Z)
  : M DB (Result (list User)) :=
  fun db =>
    match addressed dest st with
    | Some e => (Err e, db)
    | None =>
        match plan_all (clauses st) with
        | Err e => (Err e, db)
        | Ok ps =>
            (Ok (page_of offset limit
                   (order_created_at_desc offset limit (filter (selected ps) db))), db)
        end
    end.

Definition duplicate_key : error :=
  External "ERROR: duplicate key value violates unique constraint (SQLSTATE 23505)".

(** Modelled from the spec: [INSERT] into [users]; the primary key and the
    unique index on [email] range over every row of the relation. *)
Definition insert (row : User) : M DB (option error) :=
  fun db =>
    if existsb (fun u => (ID u =? ID row) || (Email u =? Email row)%string) db
    then (Some duplicate_key, db)
    else (None, (db ++ [row])%list).

(** Modelled from the spec: [db.Create(user)] on the entity [User], whose
    table is [users]; the time-tracking columns are filled in when they
    are zero, and the entity is updated with what was stored. *)
Definition Create (now : Time) (u : User) : M DB (User * option error) :=
  let row :=
    {| ID := ID u; Name := Name u; Email := Email u; Password := Password u;
       Role := Role u; Provider := Provider u; Photo := Photo u;
       Verified := Verified u;
       CreatedAt := if CreatedAt u =? zeroTime then now else CreatedAt u;
       UpdatedAt := if UpdatedAt u =? zeroTime then now else UpdatedAt u;
       DeletedAt := DeletedAt u |} in
  (err <- insert row ;;
   match err with
   | Some e => ret (u, Some e)
   | None => ret (row, None)
   end)%go.

Definition default_string (d s : string) : string :=
  if (s =? "")%string then d else s.

(** Modelled from the spec: [db.Create(&model)] on a [UserModel], whose
    table is [users]; zero fields take the defaults of the column tags
    ([fresh] is what [gen_random_uuid()] draws), and the model is updated
    with what was stored. *)
Definition CreateModel (fresh : UUID) (now : Time) (m : UserModel)
  : M DB (UserModel * option error) :=
  let row :=
    {| ID := match m_ID m with Some i => i | None => fresh end;
       Name := m_Name m; Email := m_Email m; Password := m_Password m;
       Role := default_string "user" (m_Role m);
       Provider := default_string "local" (m_Provider m);
       Photo := default_string "default.png" (m_Photo m);
       Verified := m_Verified m;
       CreatedAt := if m_CreatedAt m =? zeroTime then now else m_CreatedAt m;
       UpdatedAt := if m_UpdatedAt m =? zeroTime then now else m_UpdatedAt m;
       DeletedAt := m_DeletedAt m |} in
  (err <- insert row ;;
   match err with
   | Some e => ret (m, Some e)
   | None =>
       ret ({| m_ID := Some (ID row); m_Name := Name row; m_Email := Email row;
               m_Password := Password row; m_Role := Role row;
               m_Provider := Provider row; m_Photo := Photo row;
               m_Verified := Verified row; m_CreatedAt := CreatedAt row;
               m_UpdatedAt := UpdatedAt row; m_DeletedAt := DeletedAt row |}, None)
   end)%go.

(** Modelled from the spec: an [UPDATE] of the selected rows, with their
    number ([RowsAffected]). *)
Definition rewrite (ps : list Pred) (f : User -> User) (db : DB) : Z * DB :=
  (Z.of_nat (List.length (filter (selected ps) db)),
   map (fun u => if selected ps u then f u else u) db).

Definition set_DeletedAt (d : option Time) (u : User) : User :=
  {| ID := ID u; Name := Name u; Email := Email u; Password := Password u;
     Role := Role u; Provider := Provider u; Photo := Photo u;
     Verified := Verified u; CreatedAt := CreatedAt u; UpdatedAt := UpdatedAt u;
     DeletedAt := d |}.

(** Modelled from the spec: [st.Delete(&UserModel{})], a [DELETE] of the
    selected rows, with their number. *)
Definition Delete (dest : Struct) (st : Statement) : M DB (Result Z) :=
  fun db =>
    match addressed dest st with
    | Some e => (Err e, db)
    | None =>
        match plan_all (clauses st) with
        | Err e => (Err e, db)
        | Ok ps =>
            (Ok (Z.of_nat (List.length (filter (selected ps) db))),
             filter (fun u => negb (selected ps u)) db)
        end
    end.

(** Modelled from the spec: [st.Update("deleted_at", nil)]; the column and
    its value make a map of values. *)
Definition Update_deleted_at_nil (st : Statement) : M DB (Result Z) :=
  fun db =>
    match addressed OfValues st with
    | Some e => (Err e, db)
    | None =>
        match plan_all (clauses st) with
        | Err e => (Err e, db)
        | Ok ps =>
            let (n, db') := rewrite ps (set_DeletedAt None) db in
            (Ok n, db')
        end
    end.

(** Modelled from the spec: the assignments of [Updates(&model)]; a struct
    updates its non-zero fields only. *)
Definition assign (m : UserModel) (u : User) : User :=
  {| ID := match m_ID m with Some i => i | None => ID u end;
     Name := if (m_Name m =? "")%string then Name u else m_Name m;
     Email := if (m_Email m =? "")%string then Email u else m_Email m;
     Password := if (m_Password m =? "")%string then Password u else m_Password m;
     Role := if (m_Role m =? "")%string then Role u else m_Role m;
     Provider := if (m_Provider m =? "")%string then Provider u else m_Provider m;
     Photo := if (m_Photo m =? "")%string then Photo u else m_Photo m;
     Verified := if m_Verified m then true else Verified u;
     CreatedAt := if m_CreatedAt m =? zeroTime then CreatedAt u else m_CreatedAt m;
     UpdatedAt := if m_UpdatedAt m =? zeroTime then UpdatedAt u else m_UpdatedAt m;
     DeletedAt := match m_DeletedAt m with Some d => Some d | None => DeletedAt u end |}.

(** Modelled from the spec: [st.Updates(&model)] for a [UserModel]. *)
Definition Updates (m : UserModel) (st : Statement) : M DB (Result Z) :=
  fun db =>
    match addressed OfUserModel st with
    | Some e => (Err e, db)
    | None =>
        match plan_all (clauses st) with
        | Err e => (Err e, db)
        | Ok ps =>
            let (n, db') := rewrite ps (assign m) db in
            (Ok n, db')
        end
    end.

End Gorm.
End gorm.

(** ** float64

    Go's [float64] is IEEE 754 binary64.  Its values and operations are
    those of the standard library's specification of binary floating
    point, at precision 53 and maximal exponent 1024. *)
Module float64.

Definition prec : Z := 53.
Definition emax : Z := 1024.

(** [float64(n)] for an integer [n]: the nearest value, ties to even. *)
Definition of_int (n : Z) : spec_float := binary_normalize prec emax n 0 false.

(** [x / y] *)
Definition div (x y : spec_float) : spec_float := SFdiv prec emax x y.

(** [math.Ceil]: the least integral value not below [x]; zeros, infinities
    and NaN are returned as they are. *)
Definition Ceil (x : spec_float) : spec_float :=
  match x with
  | S754_finite s m e =>
      if 0 <=? e then x
      else
        let n := if s then - (Zpos m / 2 ^ (- e)) else - ((- Zpos m) / 2 ^ (- e)) in
        binary_normalize prec emax n 0 s
  | _ => x
  end.

(** [int(x)]: the fraction is discarded.  The language leaves the result
    open when the value does not fit the integer type: [None]. *)
Definition to_int (x : spec_float) : option Z :=
  match x with
  | S754_zero _ => Some 0
  | S754_finite s m e =>
      let a := if 0 <=? e then Zpos m * 2 ^ e else Zpos m / 2 ^ (- e) in
      let n := if s then - a else a in
      if (- 2 ^ 63 <=? n) && (n <? 2 ^ 63) then Some n else None
  | _ => None
  end.

End float64.

(** ** Package user: repository (user_repository.go) and service *)
Module user.

(** [AllowedSearchFields]: the fields a list query may search. *)
Definition AllowedSearchFields (field : string) : bool :=
  (field =? "name")%string || (field =? "email")%string.

(** The interface [Repository].  The entity handed to [CreateUser] and
    [UpdateUser] is passed by pointer: the methods return it as they leave
    it. *)
Record Repository (S : Type) : Type := {
  repo_GetUsers : ListUsersQuery -> M S (list UserResponse * Z * option error);
  repo_GetUserByID : string -> bool -> M S (Result UserResponse);
  repo_GetUserByEmail : string -> M S (Result UserResponse);
  repo_CreateUser : User -> M S (User * option error);
  repo_UpdateUser : string -> User -> M S (User * option error);
  repo_DeleteUser : string -> M S (option error);
  repo_RestoreUser : string -> M S (option error);
  repo_HardDeleteUser : string -> M S (option error)
}.
Arguments repo_GetUsers {S} _ _ _.
Arguments repo_GetUserByID {S} _ _ _ _.
Arguments repo_GetUserByEmail {S} _ _ _.
Arguments repo_CreateUser {S} _ _ _.
Arguments repo_UpdateUser {S} _ _ _ _.
Arguments repo_DeleteUser {S} _ _ _.
Arguments repo_RestoreUser {S} _ _ _.
Arguments repo_HardDeleteUser {S} _ _ _.

Section UserRepository.
Context {rt : Runtime}.

(** [toDomain] *)
Definition toDomain (model : UserResponse) : UserResponse :=
  {| r_ID := r_ID model; r_Name := r_Name model; r_Email := r_Email model;
     r_Role := r_Role model; r_Provider := r_Provider model;
     r_Photo := r_Photo model; r_Verified := r_Verified model;
     r_CreatedAt := r_CreatedAt model; r_UpdatedAt := r_UpdatedAt model;
     r_DeletedAt := match r_DeletedAt model with
                    | Some d => Some d
                    | None => None
                    end |}.

(** [toModel] *)
Definition toModel (user : User) : UserModel :=
  {| m_ID := if ID user =? uuid_Nil then None else Some (ID user);
     m_Name := Name user; m_Email := Email user; m_Password := Password user;
     m_Role := Role user; m_Provider := Provider user; m_Photo := Photo user;
     m_Verified := Verified user; m_CreatedAt := CreatedAt user;
     m_UpdatedAt := UpdatedAt user; m_DeletedAt := DeletedAt user |}.

(** Scanning a row of [users] into a [UserResponse]: every column the
    struct has. *)
Definition scan (row : User) : UserResponse :=
  {| r_ID := ID row; r_Name := Name row; r_Email := Email row;
     r_Role := Role row; r_Provider := Provider row; r_Photo := Photo row;
     r_Verified := Verified row; r_CreatedAt := CreatedAt row;
     r_UpdatedAt := UpdatedAt row; r_DeletedAt := DeletedAt row |}.

(** Scanning under [Select("id, name, email, role, photo, created_at")]:
    the other fields keep their zero value. *)
Definition scan_listed (row : User) : UserResponse :=
  {| r_ID := ID row; r_Name := Name row; r_Email := Email row;
     r_Role := Role row; r_Provider := ""; r_Photo := Photo row;
     r_Verified := false; r_CreatedAt := CreatedAt row;
     r_UpdatedAt := zeroTime; r_DeletedAt := None |}.

(** The statement [GetUsers] builds before it counts and pages. *)
Definition userRepository_GetUsers_statement (query : ListUsersQuery) : gorm.Statement :=
  let db := gorm.Model gorm.OfUserModel gorm.Session in
  let db := if ShowDeleted query then gorm.Unscoped db else db in
  let db :=
    if negb (Search query =? "")%string && negb (SearchBy query =? "")%string then
      if AllowedSearchFields (SearchBy query) then
        let searchTerm := "%" ++ Search query ++ "%" in
        gorm.Where (SearchBy query ++ " ILIKE ?") (gorm.AText searchTerm) db
      else db
    else db in
  let db :=
    if negb (q_Role query =? "")%string
    then gorm.Where "role = ?" (gorm.AText (q_Role query)) db else db in
  let db :=
    if negb (q_Provider query =? "")%string
    then gorm.Where "provider = ?" (gorm.AText (q_Provider query)) db else db in
  match q_Verified query with
  | Some v => gorm.Where "verified = ?" (gorm.ABool v) db
  | None => db
  end.

(** [userRepository.GetUsers] *)
Definition userRepository_GetUsers (query : ListUsersQuery)
  : M gorm.DB (list UserResponse * Z * option error) :=
  let query := if Page query <=? 0 then set_Page 1 query else query in
  let query := if PerPage query <=? 0 then set_PerPage 10 query else query in
  let db := userRepository_GetUsers_statement query in
  (counted <- gorm.Count db ;;
   match counted with
   | Err err => ret ([], 0, Some err)
   | Ok total =>
       let offset := wrap64 ((Page query - 1) * PerPage query) in
       found <- gorm.Find gorm.OfUserResponse db offset (PerPage query) ;;
       match found with
       | Err err => ret ([], 0, Some err)
       | Ok models => ret (map (fun row => toDomain (scan_listed row)) models, total, None)
       end
   end)%go.

(** [userRepository.GetUserByID]: the statement has no model, and its
    destination is a [UserResponse]. *)
Definition userRepository_GetUserByID (id : string) (includeDeleted : bool)
  : M gorm.DB (Result UserResponse) :=
  let db := gorm.Session in
  let db := if includeDeleted then gorm.Unscoped db else db in
  (result <- gorm.First gorm.OfUserResponse (gorm.Where "id = ?" (gorm.AText id) db) ;;
   match result with
   | Err err => ret (Err err)
   | Ok row => ret (Ok (toDomain (scan row)))
   end)%go.

(** [userRepository.GetUserByEmail]: no model, a [UserResponse] as the
    destination. *)
Definition userRepository_GetUserByEmail (email : string)
  : M gorm.DB (Result UserResponse) :=
  (result <- gorm.First gorm.OfUserResponse
               (gorm.Where "email = ?" (gorm.AText email) gorm.Session) ;;
   match result with
   | Err err => ret (Err err)
   | Ok row => ret (Ok (toDomain (scan row)))
   end)%go.

Definition set_ID_times (i : UUID) (created updated : Time) (u : User) : User :=
  {| ID := i; Name := Name u; Email := Email u; Password := Password u;
     Role := Role u; Provider := Provider u; Photo := Photo u;
     Verified := Verified u; CreatedAt := created; UpdatedAt := updated;
     DeletedAt := DeletedAt u |}.

(** [userRepository.CreateUser]; [fresh] and [now] are what the database
    would draw for a missing key and for missing time stamps. *)
Definition userRepository_CreateUser (fresh : UUID) (now : Time) (user : User)
  : M gorm.DB (User * option error) :=
  let model := toModel user in
  ('(model, err) <- gorm.CreateModel fresh now model ;;
   match err with
   | Some e => ret (user, Some e)
   | None =>
       let i := match m_ID model with Some i => i | None => ID user end in
       ret (set_ID_times i (m_CreatedAt model) (m_UpdatedAt model) user, None)
   end)%go.

Definition set_m_UpdatedAt (t : Time) (m : UserModel) : UserModel :=
  {| m_ID := m_ID m; m_Name := m_Name m; m_Email := m_Email m;
     m_Password := m_Password m; m_Role := m_Role m; m_Provider := m_Provider m;
     m_Photo := m_Photo m; m_Verified := m_Verified m;
     m_CreatedAt := m_CreatedAt m; m_UpdatedAt := t; m_DeletedAt := m_DeletedAt m |}.

(** [userRepository.UpdateUser]; [now] is the repository's [time.Now()]. *)
Definition userRepository_UpdateUser (now : Time) (id : string) (user : User)
  : M gorm.DB (User * option error) :=
  let model := set_m_UpdatedAt now (toModel user) in
  (result <- gorm.Updates model (gorm.Where "id = ?" (gorm.AText id) gorm.Session) ;;
   match result with
   | Err err => ret (user, Some err)
   | Ok rowsAffected =>
       if rowsAffected =? 0 then ret (user, Some ErrRecordNotFound)
       else ret (set_ID_times (ID user) (CreatedAt user) (m_UpdatedAt model) user, None)
   end)%go.

(** [userRepository.DeleteUser] *)
Definition userRepository_DeleteUser (id : string) : M gorm.DB (option error) :=
  (result <- gorm.Delete gorm.OfUserModel
               (gorm.Where "id = ?" (gorm.AText id) gorm.Session) ;;
   match result with
   | Err err => ret (Some err)
   | Ok rowsAffected =>
       if rowsAffected =? 0 then ret (Some ErrRecordNotFound) else ret None
   end)%go.

(** [userRepository.RestoreUser]: the statement has no model, and a column
    with its value is no struct. *)
Definition userRepository_RestoreUser (id : string) : M gorm.DB (option error) :=
  (result <- gorm.Update_deleted_at_nil
               (gorm.Where "id = ?" (gorm.AText id) (gorm.Unscoped gorm.Session)) ;;
   match result with
   | Err err => ret (Some err)
   | Ok rowsAffected =>
       if rowsAffected =? 0 then ret (Some ErrRecordNotFound) else ret None
   end)%go.

(** [userRepository.HardDeleteUser] *)
Definition userRepository_HardDeleteUser (id : string) : M gorm.DB (option error) :=
  (result <- gorm.Delete gorm.OfUserModel
               (gorm.Where "id = ?" (gorm.AText id) (gorm.Unscoped gorm.Session)) ;;
   match result with
   | Err err => ret (Some err)
   | Ok rowsAffected =>
       if rowsAffected =? 0 then ret (Some ErrRecordNotFound) else ret None
   end)%go.

(** [NewUserRepository(db)], at a moment where the clock reads [now] and
    the database would draw [fresh]. *)
Definition userRepository (fresh : UUID) (now : Time) : Repository gorm.DB :=
  {| repo_GetUsers := userRepository_GetUsers;
     repo_GetUserByID := userRepository_GetUserByID;
     repo_GetUserByEmail := userRepository_GetUserByEmail;
     repo_CreateUser := userRepository_CreateUser fresh now;
     repo_UpdateUser := userRepository_UpdateUser now;
     repo_DeleteUser := userRepository_DeleteUser;
     repo_RestoreUser := userRepository_RestoreUser;
     repo_HardDeleteUser := userRepository_HardDeleteUser |}.

End UserRepository.

Section UserService.
Context {rt : Runtime}.
Context {S : Type}.
Variable repo : Repository S.

(** [service.GetUsers] *)
Definition GetUsers (query : ListUsersQuery) : M S (list UserResponse * Z * option error) :=
  let query := if Page query <=? 0 then set_Page 1 query else query in
  let query :=
    if (PerPage query <=? 0) || (100 <? PerPage query)
    then set_PerPage 10 query else query in
  repo_GetUsers repo query.

(** [service.GetUserByID] *)
Definition GetUserByID (id : string) : M S (Result UserResponse) :=
  match uuid_Parse id with
  | None => ret (Err (New "invalid user ID format"))
  | Some _ =>
      (found <- repo_GetUserByID repo id false ;;
       match found with
       | Err err =>
           if Is_ErrRecordNotFound err then ret (Err (New "user not found"))
           else ret (Err err)
       | Ok user => ret (Ok user)
       end)%go
  end.

(** [service.CreateUser]; [id] is what [uuid.New()] draws, [now1] and
    [now2] are the two readings of [time.Now()]. *)
Definition CreateUser (id : UUID) (now1 now2 : Time) (data : CreateUserData)
  : M S (option error) :=
  if (cd_Name data =? "")%string then ret (Some (New "name is required"))
  else if (cd_Email data =? "")%string then ret (Some (New "email is required"))
  else if (cd_Password data =? "")%string then ret (Some (New "password is required"))
  else if Z.of_nat (String.length (cd_Password data)) <? 8
       then ret (Some (New "password must be at least 8 characters"))
  else
    (existing <- repo_GetUserByEmail repo (cd_Email data) ;;
     let create :=
       let role := if (cd_Role data =? "")%string then "user" else cd_Role data in
       let provider := if (cd_Provider data =? "")%string then "local" else cd_Provider data in
       let photo := if (cd_Photo data =? "")%string then "default.png" else cd_Photo data in
       let user :=
         {| ID := id; Name := cd_Name data; Email := cd_Email data;
            Password := cd_Password data; Role := role; Provider := provider;
            Photo := photo; Verified := cd_Verified data;
            CreatedAt := now1; UpdatedAt := now2; DeletedAt := None |} in
       '(_, err) <- repo_CreateUser repo user ;;
       match err with
       | Some e => ret (Some e)
       | None => ret None
       end in
     match existing with
     | Err err => if negb (Is_ErrRecordNotFound err) then ret (Some err) else create
     | Ok _ => ret (Some (New "user with that email already exists"))
     end)%go.

(** [service.UpdateUser]; [now] is the service's reading of [time.Now()]. *)
Definition UpdateUser (now : Time) (id : string) (data : UpdateUserData)
  : M S (option error) :=
  match uuid_Parse id with
  | None => ret (Some (New "invalid user ID format"))
  | Some _ =>
      if (ud_Name data =? "")%string then ret (Some (New "name is required"))
      else if (ud_Email data =? "")%string then ret (Some (New "email is required"))
      else
        (found <- repo_GetUserByID repo id false ;;
         match found with
         | Err err =>
             if Is_ErrRecordNotFound err then ret (Some (New "user not found"))
             else ret (Some err)
         | Ok existingUser =>
             let update :=
               let role := if (ud_Role data =? "")%string then "user" else ud_Role data in
               let photo := if (ud_Photo data =? "")%string then "default.png" else ud_Photo data in
               let updatedUser :=
                 {| ID := uuid_Nil; Name := ud_Name data; Email := ""; Password := "";
                    Role := role; Provider := ""; Photo := photo; Verified := false;
                    CreatedAt := zeroTime; UpdatedAt := now; DeletedAt := None |} in
               '(_, err) <- repo_UpdateUser repo id updatedUser ;;
               match err with
               | Some e =>
                   if Is_ErrRecordNotFound e then ret (Some (New "user not found"))
                   else ret (Some e)
               | None => ret None
               end in
             if negb (ud_Email data =? r_Email existingUser)%string then
               emailUser <- repo_GetUserByEmail repo (ud_Email data) ;;
               match emailUser with
               | Err err => if negb (Is_ErrRecordNotFound err) then ret (Some err) else update
               | Ok other =>
                   if negb (r_ID other =? r_ID existingUser)
                   then ret (Some (New "email is already taken by another user"))
                   else update
               end
             else update
         end)%go
  end.

(** [service.DeleteUser] *)
Definition DeleteUser (id : string) : M S (option error) :=
  match uuid_Parse id with
  | None => ret (Some (New "invalid user ID format"))
  | Some _ =>
      (found <- repo_GetUserByID repo id false ;;
       match found with
       | Err err =>
           if Is_ErrRecordNotFound err then ret (Some (New "user not found"))
           else ret (Some err)
       | Ok _ =>
           deleted <- repo_DeleteUser repo id ;;
           match deleted with
           | Some err =>
               if Is_ErrRecordNotFound err then ret (Some (New "user not found"))
               else ret (Some err)
           | None => ret None
           end
       end)%go
  end.

(** [service.RestoreUser] *)
Definition RestoreUser (id : string) : M S (Result UserResponse) :=
  match uuid_Parse id with
  | None => ret (Err (New "invalid user ID format"))
  | Some _ =>
      (found <- repo_GetUserByID repo id true ;;
       match found with
       | Err err =>
           if Is_ErrRecordNotFound err then ret (Err (New "user not found"))
           else ret (Err err)
       | Ok user =>
           match r_DeletedAt user with
           | None => ret (Err (New "user is not deleted"))
           | Some _ =>
               restored <- repo_RestoreUser repo id ;;
               match restored with
               | Some err =>
                   if Is_ErrRecordNotFound err then ret (Err (New "user not found"))
                   else ret (Err err)
               | None =>
                   restoredUser <- repo_GetUserByID repo id false ;;
                   match restoredUser with
                   | Err err => ret (Err err)
                   | Ok u => ret (Ok u)
                   end
               end
           end
       end)%go
  end.

(** [service.CalculatePagination] *)
Definition CalculatePagination (total page perPage : Z) : option Z :=
  let perPage := if perPage <=? 0 then 10 else perPage in
  float64.to_int
    (float64.Ceil (float64.div (float64.of_int total) (float64.of_int perPage))).

End UserService.
Arguments CalculatePagination total page perPage : clear implicits.
End user.

(** ** Package auth: repository (auth_repository.go) and service *)
Module auth.

(** The interface [Repository]; [CreateUser] receives the entity by
    pointer and returns it as it leaves it. *)
Record Repository (S : Type) : Type := {
  repo_GetUserByEmail : string -> M S (Result User);
  repo_CreateUser : User -> M S (User * option error);
  repo_GetUserByID : string -> M S (Result User)
}.
Arguments repo_GetUserByEmail {S} _ _ _.
Arguments repo_CreateUser {S} _ _ _.
Arguments repo_GetUserByID {S} _ _ _.

Section AuthRepository.
Context {rt : Runtime}.

(** [authRepository.GetUserByEmail]: the destination is a [User]. *)
Definition authRepository_GetUserByEmail (email : string) : M gorm.DB (Result User) :=
  gorm.First gorm.OfUser (gorm.Where "email = ?" (gorm.AText email) gorm.Session).

(** [authRepository.CreateUser]; [now] is the clock of the mapper. *)
Definition authRepository_CreateUser (now : Time) (user : User)
  : M gorm.DB (User * option error) :=
  gorm.Create now user.

(** [authRepository.GetUserByID] *)
Definition authRepository_GetUserByID (id : string) : M gorm.DB (Result User) :=
  gorm.First gorm.OfUser (gorm.Where "id = ?" (gorm.AText id) gorm.Session).

(** [NewAuthRepository(db)] at a moment where the clock reads [now]. *)
Definition authRepository (now : Time) : Repository gorm.DB :=
  {| repo_GetUserByEmail := authRepository_GetUserByEmail;
     repo_CreateUser := authRepository_CreateUser now;
     repo_GetUserByID := authRepository_GetUserByID |}.

End AuthRepository.

Section AuthService.
Context {rt : Runtime}.
Context {S : Type}.
Variable repo : Repository S.

(** [service.validateSignUpData]: [None] is [nil]. *)
Definition validateSignUpData (data : SignUpData) : option error :=
  if (su_Name data =? "")%string then Some (New "name is required")
  else if (su_Email data =? "")%string then Some (New "email is required")
  else if (su_Password data =? "")%string then Some (New "password is required")
  else if Z.of_nat (String.length (su_Password data)) <? 8
       then Some (New "password must be at least 8 characters")
  else None.

(** [service.getPhotoOrDefault] *)
Definition getPhotoOrDefault (photo : string) : string :=
  if (photo =? "")%string then "default.png" else photo.

(** [service.SignUp]; [salt] is the randomness of the hash, [now] the
    reading of [time.Now()], [id] what [uuid.New()] draws. *)
Definition SignUp (salt : string) (now : Time) (id : UUID) (data : SignUpData)
  : M S (option User * option error) :=
  match validateSignUpData data with
  | Some err => ret (None, Some err)
  | None =>
      if negb (su_Password data =? su_PasswordConfirm data)%string
      then ret (None, Some (New "passwords do not match"))
      else
        match hashing.HashPassword salt (su_Password data) with
        | (_, Some err) => ret (None, Some (Wrap "failed to hash password: " err))
        | (hashedPassword, None) =>
            let user :=
              {| ID := id; Name := su_Name data;
                 Email := strings_ToLower (strings_TrimSpace (su_Email data));
                 Password := hashedPassword; Role := "user"; Provider := "local";
                 Photo := getPhotoOrDefault (su_Photo data); Verified := false;
                 CreatedAt := now; UpdatedAt := now; DeletedAt := None |} in
            ('(user, err) <- repo_CreateUser repo user ;;
             match err with
             | Some e =>
                 if strings_Contains (Error e) "duplicate"
                    || strings_Contains (Error e) "unique"
                 then ret (None, Some (New "user with that email already exists"))
                 else ret (None, Some (Wrap "failed to create user: " e))
             | None => ret (Some user, None)
             end)%go
        end
  end.

(** [service.SignIn]; [read] is the outcome of the token's [rand.Read]. *)
Definition SignIn (read : Result string) (email password : string)
  : M S (string * option User * option error) :=
  (found <- repo_GetUserByEmail repo (strings_ToLower (strings_TrimSpace email)) ;;
   match found with
   | Err _ => ret ("", None, Some (New "invalid email or password"))
   | Ok user =>
       match hashing.VerifyPassword (Password user) password with
       | Some _ => ret ("", None, Some (New "invalid email or password"))
       | None =>
           match hashing.GenerateToken read with
           | (_, Some err) => ret ("", None, Some (Wrap "failed to generate token: " err))
           | (token, None) => ret (token, Some user, None)
           end
       end
   end)%go.

(** [service.GetUserByID] *)
Definition GetUserByID (id : string) : M S (Result User) :=
  repo_GetUserByID repo id.

End AuthService.
End auth.

(** ** The HTTP boundary

    The response helpers (pkg/response), the request helpers
    (pkg/handler) and the handlers of the two domains (user_handler.go,
    auth_handler.go). *)

(** [user.UserListResponse]: [Items] is the page of accounts the service
    returned, [TotalPages] what [CalculatePagination] returned. *)
Record UserListResponse : Type := {
  Items : list UserResponse;
  Total : Z;
  l_Page : Z;
  l_PerPage : Z;
  TotalPages : option Z
}.

(** The map [stats] of [GetUserStats], by its five keys. *)
Record Stats : Type := {
  total_users : Z;
  verified_users : Z;
  admin_users : Z;
  regular_users : Z;
  unverified_users : Z
}.

(** [auth.UserResponse] (auth_dto.go) *)
Record AuthUserResponse : Type := {
  a_ID : UUID;
  a_Name : string;
  a_Email : string;
  a_Role : string;
  a_Photo : string;
  a_Provider : string;
  a_CreatedAt : Time;
  a_UpdatedAt : Time
}.

(** [user.CreateUserRequest], [user.UpdateUserRequest] and
    [auth.SignUpRequest]. *)
Record CreateUserRequest : Type := {
  cr_Name : string;
  cr_Email : string;
  cr_Password : string;
  cr_Role : string;
  cr_Provider : string;
  cr_Photo : string;
  cr_Verified : bool
}.

Record UpdateUserRequest : Type := {
  ur_Name : string;
  ur_Email : string;
  ur_Role : string;
  ur_Photo : string;
  ur_Verified : bool
}.

Record SignUpRequest : Type := {
  sr_Name : string;
  sr_Email : string;
  sr_Password : string;
  sr_PasswordConfirm : string;
  sr_Photo : string
}.

(** The values the handlers put into the [interface{}] fields of a
    response: [UserData] is [user.UserDataResponse], [AuthUserData] is
    [auth.UserDataResponse]; [Foreign] is a value made outside the
    repository, such as the field errors of the validator. *)
Inductive Any : Type :=
| UserListData (l : UserListResponse)
| UserData (u : UserResponse)
| AuthUserData (u : AuthUserResponse)
| StatsData (s : Stats)
| Foreign (description : string).

(** [response.APIResponse]; [None] is a [nil] interface value. *)
Record APIResponse : Type := {
  Status : string;
  Message : string;
  Data : option Any;
  Errors : option Any
}.

(** [strconv] of the Go standard library, a capability outside the
    repository like those of [Runtime]. *)
Class Strconv : Type := {
  strconv_Atoi : string -> Result Z;
  strconv_ParseBool : string -> Result bool
}.

(** The web framework, as far as the handlers use it.  The status codes
    are those of HTTP under the names the framework gives them. *)
Module fiber.

Definition StatusOK : Z := 200.
Definition StatusCreated : Z := 201.
Definition StatusBadRequest : Z := 400.
Definition StatusUnauthorized : Z := 401.
Definition StatusForbidden : Z := 403.
Definition StatusNotFound : Z := 404.
Definition StatusConflict : Z := 409.
Definition StatusInternalServerError : Z := 500.
Definition StatusBadGateway : Z := 502.

(** [fiber.ErrBadRequest] *)
Definition ErrBadRequest : error := External "Bad Request".

(** The request context [c]: what the framework answers when a handler
    reads the route parameters, the query string and the values stored by
    the middleware, and what [c.Status(code).JSON(body)] returns, which is
    for the framework's encoder to decide. *)
Record Ctx : Type := {
  Params : string -> string;
  Query : string -> string;
  Locals : string -> option string;
  JSON : Z -> APIResponse -> option error
}.

(** One call of [c.Status(code).JSON(body)].  What a handler does to the
    response is the sequence of these calls, in the order it makes them. *)
Record Sent : Type := {
  code : Z;
  body : APIResponse
}.

End fiber.

(** ** Package response (pkg/response/response.go)

    Each helper makes one call [c.Status(code).JSON(body)] and returns what
    that call returns. *)
Module response.

Definition write (c : fiber.Ctx) (statusCode : Z) (b : APIResponse)
  : option error * list fiber.Sent :=
  (fiber.JSON c statusCode b, [{| fiber.code := statusCode; fiber.body := b |}]).

Definition Success (c : fiber.Ctx) (statusCode : Z) (data : option Any) :=
  write c statusCode
    {| Status := "success"; Message := ""; Data := data; Errors := None |}.

Definition SuccessWithMessage (c : fiber.Ctx) (statusCode : Z) (message : string) :=
  write c statusCode
    {| Status := "success"; Message := message; Data := None; Errors := None |}.

Definition Error (c : fiber.Ctx) (statusCode : Z) (message : string) :=
  write c statusCode
    {| Status := "fail"; Message := message; Data := None; Errors := None |}.

Definition ValidationError (c : fiber.Ctx) (errors : option Any) :=
  write c fiber.StatusBadRequest
    {| Status := "fail"; Message := ""; Data := None; Errors := errors |}.

Definition InternalError (c : fiber.Ctx) (message : string) :=
  write c fiber.StatusInternalServerError
    {| Status := "error"; Message := message; Data := None; Errors := None |}.

Definition Unauthorized (c : fiber.Ctx) (message : string) :=
  let message := if (message =? "")%string then "Unauthorized" else message in
  write c fiber.StatusUnauthorized
    {| Status := "fail"; Message := message; Data := None; Errors := None |}.

Definition NotFound (c : fiber.Ctx) (message : string) :=
  let message := if (message =? "")%string then "Resource not found" else message in
  write c fiber.StatusNotFound
    {| Status := "fail"; Message := message; Data := None; Errors := None |}.

Definition BadRequest (c : fiber.Ctx) (message : string) :=
  write c fiber.StatusBadRequest
    {| Status := "fail"; Message := message; Data := None; Errors := None |}.

Definition Conflict (c : fiber.Ctx) (message : string) :=
  write c fiber.StatusConflict
    {| Status := "fail"; Message := message; Data := None; Errors := None |}.

Definition Created (c : fiber.Ctx) (data : option Any) :=
  write c fiber.StatusCreated
    {| Status := "success"; Message := ""; Data := data; Errors := None |}.

Definition OK (c : fiber.Ctx) (data : option Any) :=
  write c fiber.StatusOK
    {| Status := "success"; Message := ""; Data := data; Errors := None |}.

Definition Forbidden (c : fiber.Ctx) (message : string) :=
  let message := if (message =? "")%string then "Forbidden" else message in
  write c fiber.StatusForbidden
    {| Status := "fail"; Message := message; Data := None; Errors := None |}.

End response.

(** ** Package handler (pkg/handler/handler.go)

    [body] is what [c.BodyParser] leaves: the request struct and its
    error; [ValidateStruct] is the validator of the repository's package
    [validator], [AutoMap] the mapper of package [mapper], both taken as
    they are given. *)
Module handler.
Section Handler.
Context {Req Domain : Type}.

(** [ParseAndValidate]: the error it returns is the one the response
    helper returns. *)
Definition ParseAndValidate (c : fiber.Ctx) (body : Req * option error)
  (ValidateStruct : Req -> option Any) : option error * list fiber.Sent :=
  let (req, parsed) := body in
  match parsed with
  | Some err => response.BadRequest c (Error err)
  | None =>
      match ValidateStruct req with
      | Some errors => response.ValidationError c (Some errors)
      | None => (None, [])
      end
  end.

(** [ParseValidateAndMap] *)
Definition ParseValidateAndMap (c : fiber.Ctx) (body : Req * option error)
  (ValidateStruct : Req -> option Any) (AutoMap : Req -> Result Domain)
  : Result Domain * list fiber.Sent :=
  let (req, parsed) := body in
  match parsed with
  | Some err => (Err err, snd (response.BadRequest c (Error err)))
  | None =>
      match ValidateStruct req with
      | Some errors =>
          (Err fiber.ErrBadRequest, snd (response.ValidationError c (Some errors)))
      | None =>
          match AutoMap req with
          | Err err =>
              (Err err, snd (response.InternalError c "Failed to process request"))
          | Ok domain => (Ok domain, [])
          end
      end
  end.

End Handler.
End handler.

(** ** The handlers of package user (user_handler.go)

    A handler returns its error together with the responses it has
    written.  Its service is the one the container builds,
    [NewUserService(repo)]. *)
Module UserHandler.
Section Handlers.
Context {rt : Runtime} {sc : Strconv}.
Context {S : Type}.
Variable repo : user.Repository S.

(** [handleServiceError] *)
Definition handleServiceError (c : fiber.Ctx) (err : error)
  : option error * list fiber.Sent :=
  let errorMessage := Error err in
  if (errorMessage =? "user with that email already exists")%string
     || (errorMessage =? "email is already taken by another user")%string
  then response.Conflict c errorMessage
  else if (errorMessage =? "name is required")%string
          || (errorMessage =? "email is required")%string
          || (errorMessage =? "password is required")%string
          || (errorMessage =? "password must be at least 8 characters")%string
  then response.BadRequest c errorMessage
  else if (errorMessage =? "invalid user ID format")%string
  then response.BadRequest c errorMessage
  else if (errorMessage =? "user not found")%string
  then response.NotFound c errorMessage
  else if (errorMessage =? "user is not deleted")%string
  then response.BadRequest c errorMessage
  else response.InternalError c "Internal server error".

(** [userToResponse] *)
Definition userToResponse (user : UserResponse) : UserResponse :=
  {| r_ID := r_ID user; r_Name := r_Name user; r_Email := r_Email user;
     r_Role := r_Role user; r_Provider := r_Provider user;
     r_Photo := r_Photo user; r_Verified := r_Verified user;
     r_CreatedAt := r_CreatedAt user; r_UpdatedAt := r_UpdatedAt user;
     r_DeletedAt := r_DeletedAt user |}.

(** The query [ListUsers] reads off the request. *)
Definition ListUsers_query (c : fiber.Ctx) : ListUsersQuery :=
  let page :=
    let pageStr := fiber.Query c "page" in
    if negb (pageStr =? "")%string then
      match strconv_Atoi pageStr with
      | Ok page => if 0 <? page then page else 1
      | Err _ => 1
      end
    else 1 in
  let perPage :=
    let perPageStr := fiber.Query c "per_page" in
    if negb (perPageStr =? "")%string then
      match strconv_Atoi perPageStr with
      | Ok perPage => if (0 <? perPage) && (perPage <=? 100) then perPage else 10
      | Err _ => 10
      end
    else 10 in
  let showDeleted :=
    let showDeletedStr := fiber.Query c "show_deleted" in
    if negb (showDeletedStr =? "")%string then
      match strconv_ParseBool showDeletedStr with
      | Ok showDeleted => showDeleted
      | Err _ => false
      end
    else false in
  {| Page := page; PerPage := perPage; Search := fiber.Query c "search";
     SearchBy := ""; q_Role := ""; q_Provider := ""; q_Verified := None;
     ShowDeleted := showDeleted |}.

(** [ListUsers].  The goroutine sends one result, which the handler waits
    for: the two run one after the other. *)
Definition ListUsers (c : fiber.Ctx) : M S (option error * list fiber.Sent) :=
  let query := ListUsers_query c in
  ('(users, total, err) <- user.GetUsers repo query ;;
   match err with
   | Some e => ret (handleServiceError c e)
   | None =>
       let totalPages := user.CalculatePagination total (Page query) (PerPage query) in
       ret (response.OK c
              (Some (UserListData
                       {| Items := users; Total := total; l_Page := Page query;
                          l_PerPage := PerPage query; TotalPages := totalPages |})))
   end)%go.

(** [GetUserByID] *)
Definition GetUserByID (c : fiber.Ctx) : M S (option error * list fiber.Sent) :=
  let id := fiber.Params c "id" in
  if (id =? "")%string then ret (response.BadRequest c "user ID is required")
  else
    (found <- user.GetUserByID repo id ;;
     match found with
     | Err err => ret (handleServiceError c err)
     | Ok user => ret (response.OK c (Some (UserData (userToResponse user))))
     end)%go.

(** [CreateUser]; [id], [now1] and [now2] are what the service draws. *)
Definition CreateUser (id : UUID) (now1 now2 : Time) (c : fiber.Ctx)
  (body : CreateUserRequest * option error)
  (ValidateStruct : CreateUserRequest -> option Any)
  : M S (option error * list fiber.Sent) :=
  match handler.ParseAndValidate c body ValidateStruct with
  | (Some err, written) => ret (Some err, written)
  | (None, written) =>
      let req := fst body in
      let createData :=
        {| cd_Name := cr_Name req; cd_Email := cr_Email req;
           cd_Password := cr_Password req; cd_Role := cr_Role req;
           cd_Provider := cr_Provider req; cd_Photo := cr_Photo req;
           cd_Verified := cr_Verified req |} in
      (err <- user.CreateUser repo id now1 now2 createData ;;
       let (returned, answer) :=
         match err with
         | Some e => handleServiceError c e
         | None => response.Created c None
         end in
       ret (returned, (written ++ answer)%list))%go
  end.

(** [UpdateUser]; [now] is the service's reading of the clock. *)
Definition UpdateUser (now : Time) (c : fiber.Ctx)
  (body : UpdateUserRequest * option error)
  (ValidateStruct : UpdateUserRequest -> option Any)
  : M S (option error * list fiber.Sent) :=
  let id := fiber.Params c "id" in
  if (id =? "")%string then ret (response.BadRequest c "user ID is required")
  else
    match handler.ParseAndValidate c body ValidateStruct with
    | (Some err, written) => ret (Some err, written)
    | (None, written) =>
        let req := fst body in
        let updateData :=
          {| ud_Name := ur_Name req; ud_Email := ur_Email req;
             ud_Role := ur_Role req; ud_Photo := ur_Photo req;
             ud_Verified := ur_Verified req |} in
        (err <- user.UpdateUser repo now id updateData ;;
         let (returned, answer) :=
           match err with
           | Some e => handleServiceError c e
           | None => response.OK c None
           end in
         ret (returned, (written ++ answer)%list))%go
    end.

(** [DeleteUser] *)
Definition DeleteUser (c : fiber.Ctx) : M S (option error * list fiber.Sent) :=
  let id := fiber.Params c "id" in
  if (id =? "")%string then ret (response.BadRequest c "user ID is required")
  else
    (err <- user.DeleteUser repo id ;;
     match err with
     | Some e => ret (handleServiceError c e)
     | None =>
         ret (response.SuccessWithMessage c fiber.StatusOK "User deleted successfully")
     end)%go.

(** [RestoreUser] *)
Definition RestoreUser (c : fiber.Ctx) : M S (option error * list fiber.Sent) :=
  let id := fiber.Params c "id" in
  if (id =? "")%string then ret (response.BadRequest c "user ID is required")
  else
    (restored <- user.RestoreUser repo id ;;
     match restored with
     | Err err => ret (handleServiceError c err)
     | Ok user => ret (response.OK c (Some (UserData (userToResponse user))))
     end)%go.

Definition count_query (verified : option bool) (role : string) : ListUsersQuery :=
  {| Page := 1; PerPage := 1; Search := ""; SearchBy := ""; q_Role := role;
     q_Provider := ""; q_Verified := verified; ShowDeleted := false |}.

(** [GetUserStats]; the differences are taken in [int64]. *)
Definition GetUserStats (c : fiber.Ctx) : M S (option error * list fiber.Sent) :=
  ('(_, total, err) <- user.GetUsers repo (count_query None "") ;;
   match err with
   | Some e => ret (handleServiceError c e)
   | None =>
       '(_, totalVerified, err) <- user.GetUsers repo (count_query (Some true) "") ;;
       match err with
       | Some e => ret (handleServiceError c e)
       | None =>
           '(_, totalAdmins, err) <- user.GetUsers repo (count_query None "admin") ;;
           match err with
           | Some e => ret (handleServiceError c e)
           | None =>
               let stats :=
                 {| total_users := total; verified_users := totalVerified;
                    admin_users := totalAdmins;
                    regular_users := wrap64 (total - totalAdmins);
                    unverified_users := wrap64 (total - totalVerified) |} in
               ret (response.OK c (Some (StatsData stats)))
           end
       end
   end)%go.

End Handlers.
End UserHandler.

(** ** The handlers of package auth (auth_handler.go)

    The service is the one the container builds, [NewAuthService(repo)]. *)
Module AuthHandler.
Section Handlers.
Context {rt : Runtime}.
Context {S : Type}.
Variable repo : auth.Repository S.

(** [handleServiceError] *)
Definition handleServiceError (c : fiber.Ctx) (err : error)
  : option error * list fiber.Sent :=
  let errorMessage := Error err in
  if (errorMessage =? "user with that email already exists")%string
  then response.Conflict c errorMessage
  else if (errorMessage =? "passwords do not match")%string
          || (errorMessage =? "name is required")%string
          || (errorMessage =? "email is required")%string
          || (errorMessage =? "password is required")%string
          || (errorMessage =? "password must be at least 8 characters")%string
  then response.BadRequest c errorMessage
  else if (errorMessage =? "invalid email or password")%string
  then response.BadRequest c errorMessage
  else if (errorMessage =? "user not found")%string
  then response.NotFound c errorMessage
  else response.Error c fiber.StatusBadGateway errorMessage.

(** [userToResponse] *)
Definition userToResponse (user : User) : AuthUserResponse :=
  {| a_ID := ID user; a_Name := Name user; a_Email := Email user;
     a_Role := Role user; a_Photo := Photo user; a_Provider := Provider user;
     a_CreatedAt := CreatedAt user; a_UpdatedAt := UpdatedAt user |}.

(** [SignUpUser]; [salt], [now] and [id] are what the service draws.  The
    service returns an account whenever it returns no error; the handler
    dereferences it without a check, and the last case stands for the
    panic this would be otherwise. *)
Definition SignUpUser (salt : string) (now : Time) (id : UUID) (c : fiber.Ctx)
  (body : SignUpRequest * option error)
  (ValidateStruct : SignUpRequest -> option Any)
  (AutoMap : SignUpRequest -> Result SignUpData)
  : M S (option error * list fiber.Sent) :=
  match handler.ParseValidateAndMap c body ValidateStruct AutoMap with
  | (Err _, written) => ret (None, written)
  | (Ok signUpData, written) =>
      ('(user, err) <- auth.SignUp repo salt now id signUpData ;;
       let (returned, answer) :=
         match err, user with
         | Some e, _ => handleServiceError c e
         | None, Some user =>
             response.Created c (Some (AuthUserData (userToResponse user)))
         | None, None =>
             (Some (New "invalid memory address or nil pointer dereference"), [])
         end in
       ret (returned, (written ++ answer)%list))%go
  end.

(** [GetMe]; the middleware stores the caller's id as a string. *)
Definition GetMe (c : fiber.Ctx) : M S (option error * list fiber.Sent) :=
  match fiber.Locals c "userId" with
  | None => ret (response.Unauthorized c "Unauthorized")
  | Some userID =>
      (found <- auth.GetUserByID repo userID ;;
       match found with
       | Err err => ret (handleServiceError c err)
       | Ok user => ret (response.OK c (Some (AuthUserData (userToResponse user))))
       end)%go
  end.

End Handlers.
End AuthHandler.

(** ** Notions of the statements and proofs about the page count *)

(** The page count as the specification states it: the exact integer
    ceiling of [total / perPage], for a positive [perPage]. *)
Definition exact_ceiling (total perPage : Z) : Z := - ((- total) / perPage).

(** Dropping the [k] low digits of a mantissa, one at a time. *)
Definition shr_by (k : Z) (r : shr_record) : shr_record :=
  match k with
  | Zpos p => iter_pos shr_1 p r
  | _ => r
  end.

(** The quotient [n / d] rounded to the nearest integer, ties to even. *)
Definition nearest_even (n d : Z) : Z :=
  let q := n / d in
  let r := n mod d in
  if r =? 0 then q
  else match 2 * r ?= d with
       | Lt => q
       | Gt => q + 1
       | Eq => if Z.even q then q else q + 1
       end.

(** ** Notions of the statements about the relation and its listing *)

(** The conditions a list query puts on a row, as the database understands
    the clauses [GetUsers] writes for it. *)
Definition conditions_of (query : ListUsersQuery) : list gorm.Pred :=
  ((if negb (Search query =? "")%string && negb (SearchBy query =? "")%string then
      if (SearchBy query =? "name")%string
      then [gorm.NameILike ("%" ++ Search query ++ "%")]
      else if (SearchBy query =? "email")%string
      then [gorm.EmailILike ("%" ++ Search query ++ "%")]
      else []
    else [])
   ++ (if negb (q_Role query =? "")%string then [gorm.RoleEq (q_Role query)] else [])
   ++ (if negb (q_Provider query =? "")%string then [gorm.ProviderEq (q_Provider query)] else [])
   ++ match q_Verified query with
      | Some v => [gorm.VerifiedEq v]
      | None => []
      end)%list.

(** ** A reference runtime

    An implementation of the outside capabilities on which the program can
    be run: ASCII letters and blanks for [strings], the canonical textual
    form for [uuid.Parse], and stand-ins for [bcrypt], [base64] and
    [ILIKE].  The theorems below hold for every runtime; this one
    exercises them on concrete inputs. *)
Module reference.

Definition code (c : ascii) : Z := Z.of_N (N_of_ascii c).

Definition lower (c : ascii) : ascii :=
  if (65 <=? code c) && (code c <=? 90)
  then ascii_of_N (N_of_ascii c + 32) else c.

Fixpoint ToLower (s : string) : string :=
  match s with
  | EmptyString => EmptyString
  | String c rest => String (lower c) (ToLower rest)
  end.

Definition is_space (c : ascii) : bool :=
  (code c =? 32) || ((9 <=? code c) && (code c <=? 13)).

Fixpoint TrimLeft (s : string) : string :=
  match s with
  | EmptyString => EmptyString
  | String c rest => if is_space c then TrimLeft rest else s
  end.

Fixpoint TrimRight (s : string) : string :=
  match s with
  | EmptyString => EmptyString
  | String c rest =>
      match TrimRight rest with
      | EmptyString => if is_space c then EmptyString else String c EmptyString
      | kept => String c kept
      end
  end.

Definition TrimSpace (s : string) : string := TrimRight (TrimLeft s).

Definition hex (c : ascii) : option Z :=
  let n := code c in
  if (48 <=? n) && (n <=? 57) then Some (n - 48)
  else if (97 <=? n) && (n <=? 102) then Some (n - 87)
  else if (65 <=? n) && (n <=? 70) then Some (n - 55)
  else None.

(** The form [xxxxxxxx-xxxx-xxxx-xxxx-xxxxxxxxxxxx]. *)
Fixpoint parse_canonical (s : string) (pos : nat) (acc : Z) : option UUID :=
  match s with
  | EmptyString => if Nat.eqb pos 36 then Some acc else None
  | String c rest =>
      if Nat.eqb pos 8 || Nat.eqb pos 13 || Nat.eqb pos 18 || Nat.eqb pos 23
      then if (code c =? 45) then parse_canonical rest (S pos) acc else None
      else match hex c with
           | Some d => parse_canonical rest (S pos) (16 * acc + d)
           | None => None
           end
  end.

Definition Parse (s : string) : option UUID := parse_canonical s 0 0.

Definition GenerateFromPassword (salt password : string) (cost : Z) : Result string :=
  if (72 <? Z.of_nat (String.length password))
  then Err (External "bcrypt: password length exceeds 72 bytes")
  else Ok ("$2a$10$" ++ salt ++ password).

Definition CompareHashAndPassword (hash password : string) : option error :=
  let n := (String.length hash - String.length password)%nat in
  if ((String.length password <=? String.length hash)%nat
      && (substring n (String.length password) hash =? password)%string)%bool
  then None
  else Some (External "crypto/bcrypt: hashedPassword is not the hash of the given password").

(** [value ILIKE pattern] for the patterns the repository builds: a term
    between two percent signs. *)
Definition ILIKE (value pattern : string) : bool :=
  match pattern with
  | String _ rest =>
      strings_Contains (ToLower value)
        (ToLower (substring 0 (String.length rest - 1)%nat rest))
  | EmptyString => (value =? "")%string
  end.

#[export] Instance runtime : Runtime := {|
  uuid_Parse := Parse;
  strings_ToLower := ToLower;
  strings_TrimSpace := TrimSpace;
  bcrypt_GenerateFromPassword := GenerateFromPassword;
  bcrypt_CompareHashAndPassword := CompareHashAndPassword;
  base64_URLEncoding_EncodeToString := fun b => b;
  sql_ILIKE := ILIKE;
  sql_tie_break := fun _ _ _ _ => false
|}.

Definition ann : SignUpData :=
  {| su_Name := "Ann"; su_Email := " ANN@Example.com "; su_Password := "longpass1";
     su_PasswordConfirm := "longpass1"; su_Photo := "" |}.

Definition id1 : string := "00000000-0000-4000-8000-000000000001".
Definition id2 : string := "00000000-0000-4000-8000-000000000002".

Definition uuid1 : UUID := Eval vm_compute in
  match Parse id1 with Some i => i | None => 0 end.
Definition uuid2 : UUID := Eval vm_compute in
  match Parse id2 with Some i => i | None => 0 end.

(** The repositories at a moment where the mapper's clock reads 50 and the
    database would draw the key 77. *)
Definition authRepo : auth.Repository gorm.DB := auth.authRepository 50.
Definition userRepo : user.Repository gorm.DB := user.userRepository 77 50.

(** The store after Ann has signed up, and her account. *)
Definition ann_registered : gorm.DB :=
  snd (auth.SignUp authRepo "salt" 100 uuid1 ann []).

Definition ann_account : User :=
  {| ID := uuid1; Name := "Ann"; Email := "ann@example.com";
     Password := "$2a$10$saltlongpass1"; Role := "user"; Provider := "local";
     Photo := "default.png"; Verified := false; CreatedAt := 100;
     UpdatedAt := 100; DeletedAt := None |}.

(** An administrative creation of Ann under the given email. *)
Definition new_ann (email : string) : CreateUserData :=
  {| cd_Name := "Ann"; cd_Email := email; cd_Password := "longpass1";
     cd_Role := ""; cd_Provider := ""; cd_Photo := ""; cd_Verified := false |}.

(** An update of Ann's account. *)
Definition rename_ann : UpdateUserData :=
  {| ud_Name := "Ann B."; ud_Email := "ann@example.com"; ud_Role := "";
     ud_Photo := "ann.png"; ud_Verified := true |}.

(** A repository kept in memory, as a test double of the interface
    [user.Repository] would be: the accounts in a list, lookups among the
    accounts that are not marked deleted unless asked otherwise, a creation
    refused for a taken id or email. *)
Definition found (p : User -> bool) (includeDeleted : bool) (s : list User)
  : Result UserResponse :=
  match find (fun u => p u && (includeDeleted
                               || match DeletedAt u with
                                  | None => true
                                  | Some _ => false
                                  end)) s with
  | Some u => Ok (user.scan u)
  | None => Err ErrRecordNotFound
  end.

Definition touch (i : UUID) (f : User -> User) (s : list User)
  : option error * list User :=
  if existsb (fun v => ID v =? i) s
  then (None, map (fun v => if ID v =? i then f v else v) s)
  else (Some ErrRecordNotFound, s).

Definition malformed : error := External "invalid input syntax for type uuid".

Definition memoryRepo (clock : Time) : user.Repository (list User) :=
  {| user.repo_GetUsers := fun _ s => (map user.scan s, Z.of_nat (List.length s), None, s);
     user.repo_GetUserByID := fun id includeDeleted s =>
       (match Parse id with
        | Some i => found (fun u => ID u =? i) includeDeleted s
        | None => Err malformed
        end, s);
     user.repo_GetUserByEmail := fun email s =>
       (found (fun u => (Email u =? email)%string) false s, s);
     user.repo_CreateUser := fun u s =>
       if existsb (fun v => (ID v =? ID u) || (Email v =? Email u)%string) s
       then (u, Some gorm.duplicate_key, s)
       else (u, None, (s ++ [u])%list);
     user.repo_UpdateUser := fun id u s =>
       match Parse id with
       | Some i =>
           let (err, s') :=
             touch i (gorm.assign (user.set_m_UpdatedAt clock (user.toModel u))) s in
           (u, err, s')
       | None => (u, Some malformed, s)
       end;
     user.repo_DeleteUser := fun id s =>
       match Parse id with
       | Some i => touch i (gorm.set_DeletedAt (Some clock)) s
       | None => (Some malformed, s)
       end;
     user.repo_RestoreUser := fun id s =>
       match Parse id with
       | Some i => touch i (gorm.set_DeletedAt None) s
       | None => (Some malformed, s)
       end;
     user.repo_HardDeleteUser := fun id s =>
       match Parse id with
       | Some i =>
           if existsb (fun v => ID v =? i) s
           then (None, filter (fun v => negb (ID v =? i)) s)
           else (Some ErrRecordNotFound, s)
       | None => (Some malformed, s)
       end |}.

(** The query of the specification: search "admin" in the field "role". *)
Definition admin_by_role : ListUsersQuery :=
  {| Page := 1; PerPage := 10; Search := "admin"; SearchBy := "role";
     q_Role := ""; q_Provider := ""; q_Verified := None; ShowDeleted := false |}.

End reference.

(** ** Sample requests

    An implementation of [strconv] for decimal numerals and the boolean
    spellings of the Go library, a validator that accepts every request,
    a mapper that copies the fields of the same name, and requests built
    from them, on which the statements below are exercised. *)
Module sample.

Fixpoint digits (s : string) (acc : Z) : option Z :=
  match s with
  | EmptyString => Some acc
  | String c rest =>
      let n := reference.code c in
      if (48 <=? n) && (n <=? 57) then digits rest (10 * acc + (n - 48)) else None
  end.

Definition syntax_error : error := External "strconv: invalid syntax".
Definition range_error : error := External "strconv: value out of range".

Definition Atoi (s : string) : Result Z :=
  let (negative, numeral) :=
    match s with
    | String "-" rest => (true, rest)
    | String "+" rest => (false, rest)
    | _ => (false, s)
    end in
  match numeral with
  | EmptyString => Err syntax_error
  | _ =>
      match digits numeral 0 with
      | None => Err syntax_error
      | Some n =>
          let v := if negative then - n else n in
          if (- 2 ^ 63 <=? v) && (v <? 2 ^ 63) then Ok v else Err range_error
      end
  end.

Definition ParseBool (s : string) : Result bool :=
  if existsb (String.eqb s) ["1"; "t"; "T"; "TRUE"; "true"; "True"] then Ok true
  else if existsb (String.eqb s) ["0"; "f"; "F"; "FALSE"; "false"; "False"] then Ok false
  else Err syntax_error.

#[export] Instance strconv : Strconv := {|
  strconv_Atoi := Atoi;
  strconv_ParseBool := ParseBool
|}.

(** A request with the route parameter [id], the query string given as
    pairs, and the caller [userId] the middleware found; writing the
    response succeeds. *)
Definition request (id : string) (query : list (string * string))
  (userId : option string) : fiber.Ctx :=
  {| fiber.Params := fun key => if (key =? "id")%string then id else "";
     fiber.Query := fun key =>
       match find (fun kv => (fst kv =? key)%string) query with
       | Some kv => snd kv
       | None => ""
       end;
     fiber.Locals := fun key => if (key =? "userId")%string then userId else None;
     fiber.JSON := fun _ _ => None |}.

Definition accept_all {Req : Type} (req : Req) : option Any := None.

Definition reject_all {Req : Type} (req : Req) : option Any :=
  Some (Foreign "email must be a valid email address").

Definition AutoMap (req : SignUpRequest) : Result SignUpData :=
  Ok {| su_Name := sr_Name req; su_Email := sr_Email req;
        su_Password := sr_Password req;
        su_PasswordConfirm := sr_PasswordConfirm req; su_Photo := sr_Photo req |}.

(** Ann's account as a row of the relation, and Bob's, who is an
    administrator and whose row carries a deletion time. *)
Definition bob_account : User :=
  {| ID := reference.uuid2; Name := "Bob"; Email := "bob@example.com";
     Password := "$2a$10$saltbobspassword"; Role := "admin"; Provider := "local";
     Photo := "bob.png"; Verified := true; CreatedAt := 120;
     UpdatedAt := 130; DeletedAt := Some 200 |}.

Definition two_accounts : gorm.DB := [reference.ann_account; bob_account].

(** The administrators, the rows that carry a deletion time included. *)
Definition deleted_admins : ListUsersQuery :=
  {| Page := 1; PerPage := 10; Search := ""; SearchBy := ""; q_Role := "admin";
     q_Provider := "local"; q_Verified := Some true; ShowDeleted := true |}.

(** The administrators, without the flag for deleted rows. *)
Definition admins : ListUsersQuery :=
  {| Page := 1; PerPage := 10; Search := ""; SearchBy := ""; q_Role := "admin";
     q_Provider := "local"; q_Verified := Some true; ShowDeleted := false |}.

(** The second page of the accounts, deleted ones included, one to a
    page. *)
Definition second_of_one : ListUsersQuery :=
  {| Page := 2; PerPage := 1; Search := ""; SearchBy := ""; q_Role := "";
     q_Provider := ""; q_Verified := None; ShowDeleted := true |}.

(** A request to create an account whose email is not an address. *)
Definition create_carl : CreateUserRequest :=
  {| cr_Name := "Carl"; cr_Email := "not-an-address"; cr_Password := "longpass3";
     cr_Role := ""; cr_Provider := ""; cr_Photo := ""; cr_Verified := false |}.

(** A request to create an account with a password of five bytes. *)
Definition create_short : CreateUserRequest :=
  {| cr_Name := "Dan"; cr_Email := "dan@example.com"; cr_Password := "short";
     cr_Role := ""; cr_Provider := ""; cr_Photo := ""; cr_Verified := false |}.

(** A registration whose confirmation differs from the password. *)
Definition mismatched : SignUpData :=
  {| su_Name := "Eve"; su_Email := "eve@example.com"; su_Password := "longpass5";
     su_PasswordConfirm := "longpass6"; su_Photo := "" |}.

(** Carl's account, the relation that holds Ann's and his, and an update
    of Ann's account that asks for his email. *)
Definition carl_account : User :=
  {| ID := reference.uuid2; Name := "Carl"; Email := "carl@example.com";
     Password := "$2a$10$saltcarlspassword"; Role := "user"; Provider := "local";
     Photo := "default.png"; Verified := false; CreatedAt := 110;
     UpdatedAt := 110; DeletedAt := None |}.

Definition ann_and_carl : gorm.DB := [reference.ann_account; carl_account].

Definition take_carls_email : UpdateUserData :=
  {| ud_Name := "Ann"; ud_Email := "carl@example.com"; ud_Role := "";
     ud_Photo := ""; ud_Verified := false |}.

(** A second registration of Ann's address, written differently. *)
Definition sign_up_ann_again : SignUpRequest :=
  {| sr_Name := "Ann"; sr_Email := "Ann@EXAMPLE.com"; sr_Password := "longpass2";
     sr_PasswordConfirm := "longpass2"; sr_Photo := "" |}.

Definition ann_again : SignUpData :=
  {| su_Name := "Ann"; su_Email := "Ann@EXAMPLE.com"; su_Password := "longpass2";
     su_PasswordConfirm := "longpass2"; su_Photo := "" |}.

Definition sign_up_nobody : SignUpRequest :=
  {| sr_Name := ""; sr_Email := ""; sr_Password := ""; sr_PasswordConfirm := "";
     sr_Photo := "" |}.

End sample.

(** * Properties *)

(** ** Sign-in *)

(** C3. [SignIn] answers an unknown email and a password that fails
    verification against the stored digest with the same result: an empty
    token, no account, and the error "invalid email or password". *)
Theorem SignIn_invalid_credentials :
  forall (rt : Runtime) (S : Type) (repo : auth.Repository S)
         (read : Result string) (email password : string) (s : S),
    match fst (auth.repo_GetUserByEmail repo
                 (strings_ToLower (strings_TrimSpace email)) s) with
    | Err _ => True
    | Ok user => hashing.VerifyPassword (Password user) password <> None
    end ->
    fst (auth.SignIn repo read email password s)
    = ("", None, Some (New "invalid email or password")).
Proof.
  intros rt S repo read email password s H.
  unfold auth.SignIn, bind.
  destruct (auth.repo_GetUserByEmail repo _ s) as [found s'].
  simpl in H.
  destruct found as [user | e]; [ | reflexivity ].
  destruct (hashing.VerifyPassword (Password user) password); [ reflexivity | ].
  now elim H.
Qed.

Lemma SignIn_invalid_credentials_witness :
  (match fst (auth.repo_GetUserByEmail reference.authRepo
                (reference.ToLower (reference.TrimSpace "bob@example.com"))
                reference.ann_registered) with
   | Err _ => True
   | Ok user =>
       hashing.VerifyPassword (rt := reference.runtime) (Password user) "longpass1" <> None
   end
   /\ fst (auth.SignIn (rt := reference.runtime) reference.authRepo (Ok "r")
             "bob@example.com" "longpass1" reference.ann_registered)
      = ("", None, Some (New "invalid email or password")))
  /\
  (match fst (auth.repo_GetUserByEmail reference.authRepo
                (reference.ToLower (reference.TrimSpace "ann@example.com"))
                reference.ann_registered) with
   | Err _ => True
   | Ok user =>
       hashing.VerifyPassword (rt := reference.runtime) (Password user) "wrongpass" <> None
   end
   /\ fst (auth.SignIn (rt := reference.runtime) reference.authRepo (Ok "r")
             "ann@example.com" "wrongpass" reference.ann_registered)
      = ("", None, Some (New "invalid email or password"))).
Proof.
  split.
  - split.
    + vm_compute. exact I.
    + apply (SignIn_invalid_credentials reference.runtime).
      vm_compute. exact I.
  - split.
    + vm_compute. discriminate.
    + apply (SignIn_invalid_credentials reference.runtime).
      vm_compute. discriminate.
Defined.

(** With the right password the same account signs in. *)
Example SignIn_ann :
  fst (auth.SignIn (rt := reference.runtime) reference.authRepo (Ok "r")
         "ANN@example.com " "longpass1" reference.ann_registered)
  = ("r", nth_error reference.ann_registered 0, None).
Proof. vm_compute. reflexivity. Qed.

(** ** Sign-up *)

(** C4. When the input of [SignUp] passes validation and the account is
    created, the account handed to the repository has the trimmed and
    lowercased email, role "user", provider "local", verified false, the
    supplied photo or "default.png", and both time stamps equal to the
    time of creation; the account returned is the repository's answer for
    it. *)
Theorem SignUp_created_account :
  forall (rt : Runtime) (S : Type) (repo : auth.Repository S)
         (salt : string) (now : Time) (id : UUID) (data : SignUpData)
         (s s' : S) (user : User),
    su_Name data <> "" -> su_Email data <> "" -> su_Password data <> "" ->
    (8 <= String.length (su_Password data))%nat ->
    su_Password data = su_PasswordConfirm data ->
    auth.SignUp repo salt now id data s = ((Some user, None), s') ->
    exists entity : User,
      auth.repo_CreateUser repo entity s = ((user, None), s')
      /\ Email entity = strings_ToLower (strings_TrimSpace (su_Email data))
      /\ Role entity = "user"
      /\ Provider entity = "local"
      /\ Verified entity = false
      /\ Photo entity = (if (su_Photo data =? "")%string then "default.png" else su_Photo data)
      /\ CreatedAt entity = now
      /\ UpdatedAt entity = now
      /\ Name entity = su_Name data
      /\ ID entity = id
      /\ DeletedAt entity = None.
Proof.
  intros rt S repo salt now id data s s' user _ _ _ _ _ H.
  unfold auth.SignUp in H.
  destruct (auth.validateSignUpData data); [ discriminate | ].
  destruct (negb (su_Password data =? su_PasswordConfirm data)%string); [ discriminate | ].
  destruct (hashing.HashPassword salt (su_Password data)) as [hashed [e | ]];
    [ discriminate | ].
  unfold bind in H.
  match type of H with
  | context [auth.repo_CreateUser repo ?u s] => exists u
  end.
  destruct (auth.repo_CreateUser repo _ s) as [[u err] s1].
  destruct err as [e | ].
  - destruct (strings_Contains (Error e) "duplicate" || strings_Contains (Error e) "unique");
      discriminate.
  - injection H as -> ->. repeat split; reflexivity.
Qed.

Lemma SignUp_created_account_witness :
  su_Name reference.ann <> ""
  /\ su_Email reference.ann <> ""
  /\ su_Password reference.ann <> ""
  /\ (8 <= String.length (su_Password reference.ann))%nat
  /\ su_Password reference.ann = su_PasswordConfirm reference.ann
  /\ auth.SignUp (rt := reference.runtime) reference.authRepo "salt" 100
       reference.uuid1 reference.ann []
     = ((Some reference.ann_account, None), reference.ann_registered)
  /\ exists entity : User,
       auth.repo_CreateUser reference.authRepo entity []
       = ((reference.ann_account, None), reference.ann_registered)
       /\ Email entity = "ann@example.com"
       /\ Role entity = "user"
       /\ Provider entity = "local"
       /\ Verified entity = false
       /\ Photo entity = "default.png"
       /\ CreatedAt entity = 100
       /\ UpdatedAt entity = 100
       /\ Name entity = "Ann"
       /\ ID entity = reference.uuid1
       /\ DeletedAt entity = None.
Proof.
  assert (H1 : su_Name reference.ann <> "") by (vm_compute; discriminate).
  assert (H2 : su_Email reference.ann <> "") by (vm_compute; discriminate).
  assert (H3 : su_Password reference.ann <> "") by (vm_compute; discriminate).
  assert (H4 : (8 <= String.length (su_Password reference.ann))%nat)
    by (vm_compute; repeat constructor).
  assert (H5 : su_Password reference.ann = su_PasswordConfirm reference.ann)
    by reflexivity.
  assert (H6 : auth.SignUp (rt := reference.runtime) reference.authRepo "salt" 100
                 reference.uuid1 reference.ann []
               = ((Some reference.ann_account, None), reference.ann_registered))
    by (vm_compute; reflexivity).
  repeat (split; [ assumption | ]).
  exact (SignUp_created_account reference.runtime gorm.DB reference.authRepo
           "salt" 100 reference.uuid1 reference.ann [] reference.ann_registered
           reference.ann_account H1 H2 H3 H4 H5 H6).
Defined.

(** The account of a successful sign-up carries the digest the hash
    returned, whatever the repository. *)
Lemma SignUp_entity_password :
  forall (rt : Runtime) (S : Type) (repo : auth.Repository S)
         (salt : string) (now : Time) (id : UUID) (data : SignUpData)
         (s s' : S) (user : User),
    auth.SignUp repo salt now id data s = ((Some user, None), s') ->
    exists entity : User,
      auth.repo_CreateUser repo entity s = ((user, None), s')
      /\ bcrypt_GenerateFromPassword salt (su_Password data) hashing.DefaultCost
         = Ok (Password entity).
Proof.
  intros rt S repo salt now id data s s' user H.
  unfold auth.SignUp in H.
  destruct (auth.validateSignUpData data); [ discriminate | ].
  destruct (negb (su_Password data =? su_PasswordConfirm data)%string); [ discriminate | ].
  unfold hashing.HashPassword in H.
  destruct (bcrypt_GenerateFromPassword salt (su_Password data) hashing.DefaultCost)
    as [hashed | e] eqn:Hh; [ | discriminate ].
  unfold bind in H.
  match type of H with
  | context [auth.repo_CreateUser repo ?u s] => exists u
  end.
  destruct (auth.repo_CreateUser repo _ s) as [[u err] s1].
  destruct err as [e | ].
  - destruct (strings_Contains (Error e) "duplicate" || strings_Contains (Error e) "unique");
      discriminate.
  - injection H as -> ->. split; reflexivity.
Qed.

(** When the hash never returns its input, as is expected of bcrypt, the
    account a successful sign-up hands to the repository does not carry the
    submitted password. *)
Lemma SignUp_entity_password_differs :
  forall (rt : Runtime) (S : Type) (repo : auth.Repository S)
         (salt : string) (now : Time) (id : UUID) (data : SignUpData)
         (s s' : S) (user : User),
    (forall (st pw h : string),
        bcrypt_GenerateFromPassword st pw hashing.DefaultCost = Ok h -> h <> pw) ->
    auth.SignUp repo salt now id data s = ((Some user, None), s') ->
    exists entity : User,
      auth.repo_CreateUser repo entity s = ((user, None), s')
      /\ Password entity <> su_Password data.
Proof.
  intros rt S repo salt now id data s s' user Hhash H.
  destruct (SignUp_entity_password rt S repo salt now id data s s' user H)
    as [entity [Hrepo Hpw]].
  exists entity. split; [ exact Hrepo | ].
  exact (Hhash salt (su_Password data) (Password entity) Hpw).
Qed.

(** With the repository of the program, at any time but the zero time, the
    account returned by a successful sign-up is the row appended to the
    relation, and it carries the normalized email, the defaults and the
    time of creation. *)
Lemma SignUp_stores_account :
  forall (rt : Runtime) (clock : Time) (salt : string) (now : Time) (id : UUID)
         (data : SignUpData) (db db' : gorm.DB) (user : User),
    now <> zeroTime ->
    auth.SignUp (auth.authRepository clock) salt now id data db
    = ((Some user, None), db') ->
    db' = (db ++ [user])%list
    /\ Email user = strings_ToLower (strings_TrimSpace (su_Email data))
    /\ Role user = "user"
    /\ Provider user = "local"
    /\ Verified user = false
    /\ Photo user = auth.getPhotoOrDefault (su_Photo data)
    /\ CreatedAt user = now
    /\ UpdatedAt user = now.
Proof.
  intros rt clock salt now id data db db' user Hnow H.
  unfold auth.SignUp in H.
  destruct (auth.validateSignUpData data); [ discriminate | ].
  destruct (negb (su_Password data =? su_PasswordConfirm data)%string); [ discriminate | ].
  destruct (hashing.HashPassword salt (su_Password data)) as [hashed [e | ]];
    [ discriminate | ].
  cbn [auth.authRepository auth.repo_CreateUser] in H.
  unfold bind, auth.authRepository_CreateUser, gorm.Create, bind, gorm.insert in H.
  cbn [ID Email CreatedAt UpdatedAt] in H.
  apply Z.eqb_neq in Hnow. rewrite Hnow in H.
  destruct (existsb _ db) in H; cbn in H; [ discriminate | ].
  injection H as <- <-. repeat split; reflexivity.
Qed.

(** ** Administrative creation *)

(** Whatever the repository, the entity [CreateUser] of the user service
    hands to it carries the submitted password as it is. *)
Lemma CreateUser_entity_password :
  forall (S : Type) (repo : user.Repository S)
         (id : UUID) (now1 now2 : Time) (data : CreateUserData) (s s' : S),
    user.CreateUser repo id now1 now2 data s = (None, s') ->
    exists (entity : User) (s1 : S),
      snd (user.repo_CreateUser repo entity s1) = s'
      /\ snd (fst (user.repo_CreateUser repo entity s1)) = None
      /\ Password entity = cd_Password data.
Proof.
  intros S repo id now1 now2 data s s' H.
  unfold user.CreateUser in H.
  destruct (cd_Name data =? "")%string; [ discriminate | ].
  destruct (cd_Email data =? "")%string; [ discriminate | ].
  destruct (cd_Password data =? "")%string; [ discriminate | ].
  destruct (Z.of_nat (String.length (cd_Password data)) <? 8); [ discriminate | ].
  unfold bind in H.
  destruct (user.repo_GetUserByEmail repo (cd_Email data) s) as [existing s1].
  destruct existing as [u | e]; [ discriminate | ].
  destruct (negb (Is_ErrRecordNotFound e)); [ discriminate | ].
  match type of H with
  | context [user.repo_CreateUser repo ?u s1] => exists u, s1
  end.
  destruct (user.repo_CreateUser repo _ s1) as [[u err] s2].
  destruct err; [ discriminate | ].
  injection H as <-. repeat split; reflexivity.
Qed.

(** For data the user service accepts and an email the lookup does not
    find, [CreateUser] answers what the repository answers to the creation
    of this account. *)
Lemma CreateUser_reaches_the_repository :
  forall (S : Type) (repo : user.Repository S)
         (id : UUID) (now1 now2 : Time) (data : CreateUserData)
         (s s1 : S) (err : error),
    cd_Name data <> "" -> cd_Email data <> "" ->
    8 <= Z.of_nat (String.length (cd_Password data)) ->
    user.repo_GetUserByEmail repo (cd_Email data) s = (Err err, s1) ->
    Is_ErrRecordNotFound err = true ->
    user.CreateUser repo id now1 now2 data s
    = (let entity :=
         {| ID := id; Name := cd_Name data; Email := cd_Email data;
            Password := cd_Password data;
            Role := if (cd_Role data =? "")%string then "user" else cd_Role data;
            Provider := if (cd_Provider data =? "")%string then "local"
                        else cd_Provider data;
            Photo := if (cd_Photo data =? "")%string then "default.png"
                     else cd_Photo data;
            Verified := cd_Verified data;
            CreatedAt := now1; UpdatedAt := now2; DeletedAt := None |} in
       (snd (fst (user.repo_CreateUser repo entity s1)),
        snd (user.repo_CreateUser repo entity s1))).
Proof.
  intros S repo id now1 now2 data s s1 err Hn He Hp Hf Hnf.
  unfold user.CreateUser.
  apply String.eqb_neq in Hn, He. rewrite Hn, He.
  destruct (cd_Password data) as [ | c rest] eqn:Hpw; [ cbn in Hp; lia | ].
  replace (String c rest =? "")%string with false by reflexivity.
  replace (Z.of_nat (String.length (String c rest)) <? 8) with false
    by (symmetry; apply Z.ltb_ge; lia).
  unfold bind. rewrite Hf, Hnf. cbn [negb]. cbv zeta.
  destruct (user.repo_CreateUser repo _ s1) as [[u e] s2].
  destruct e; reflexivity.
Qed.

(** C1. The administrative creation path hands the password over as it
    was submitted: whatever the repository, for data the user service
    accepts and an email the lookup does not find, [CreateUser] calls the
    repository's [CreateUser] with an account whose password is the
    submitted plaintext, and answers what that call answers. *)
Theorem CreateUser_stores_plaintext :
  forall (S : Type) (repo : user.Repository S)
         (id : UUID) (now1 now2 : Time) (data : CreateUserData)
         (s s1 : S) (err : error),
    cd_Name data <> "" -> cd_Email data <> "" ->
    8 <= Z.of_nat (String.length (cd_Password data)) ->
    user.repo_GetUserByEmail repo (cd_Email data) s = (Err err, s1) ->
    Is_ErrRecordNotFound err = true ->
    exists entity : User,
      Password entity = cd_Password data
      /\ user.CreateUser repo id now1 now2 data s
         = (snd (fst (user.repo_CreateUser repo entity s1)),
            snd (user.repo_CreateUser repo entity s1)).
Proof.
  intros S repo id now1 now2 data s s1 err Hn He Hp Hf Hnf.
  eexists. split.
  2: { exact (CreateUser_reaches_the_repository S repo id now1 now2 data s s1 err
                Hn He Hp Hf Hnf). }
  reflexivity.
Qed.

Lemma CreateUser_stores_plaintext_witness :
  cd_Name (reference.new_ann "ann@example.com") <> ""
  /\ cd_Email (reference.new_ann "ann@example.com") <> ""
  /\ 8 <= Z.of_nat (String.length (cd_Password (reference.new_ann "ann@example.com")))
  /\ user.repo_GetUserByEmail (reference.memoryRepo 50)
       (cd_Email (reference.new_ann "ann@example.com")) []
     = (Err ErrRecordNotFound, [])
  /\ Is_ErrRecordNotFound ErrRecordNotFound = true
  /\ exists entity : User,
       Password entity = "longpass1"
       /\ user.CreateUser (reference.memoryRepo 50) reference.uuid1 100 101
            (reference.new_ann "ann@example.com") []
          = (snd (fst (user.repo_CreateUser (reference.memoryRepo 50) entity [])),
             snd (user.repo_CreateUser (reference.memoryRepo 50) entity [])).
Proof.
  assert (H1 : cd_Name (reference.new_ann "ann@example.com") <> "") by discriminate.
  assert (H2 : cd_Email (reference.new_ann "ann@example.com") <> "") by discriminate.
  assert (H3 : 8 <= Z.of_nat (String.length
                                (cd_Password (reference.new_ann "ann@example.com"))))
    by (vm_compute; discriminate).
  assert (H4 : user.repo_GetUserByEmail (reference.memoryRepo 50)
                 (cd_Email (reference.new_ann "ann@example.com")) []
               = (Err ErrRecordNotFound, [])) by reflexivity.
  assert (H5 : Is_ErrRecordNotFound ErrRecordNotFound = true) by reflexivity.
  split; [ exact H1 | ]. split; [ exact H2 | ]. split; [ exact H3 | ].
  split; [ exact H4 | ]. split; [ exact H5 | ].
  exact (CreateUser_stores_plaintext (list User) (reference.memoryRepo 50)
           reference.uuid1 100 101 (reference.new_ann "ann@example.com") [] []
           ErrRecordNotFound H1 H2 H3 H4 H5).
Defined.

(** On a repository kept in memory, the account stored for Ann carries
    her password as she typed it. *)
Example CreateUser_in_memory :
  let '(err, store) :=
    user.CreateUser (reference.memoryRepo 50) reference.uuid1 100 101
      (reference.new_ann "ann@example.com") [] in
  err = None /\ map Password store = ["longpass1"].
Proof. vm_compute. split; reflexivity. Qed.

(** ** Duplicate emails *)

(** [SignUp] reports a repository error whose text mentions "duplicate" or
    "unique" as the conflict on the email. *)
Lemma SignUp_translates_unique_violation :
  forall (rt : Runtime) (S : Type) (repo : auth.Repository S)
         (salt : string) (now : Time) (id : UUID) (data : SignUpData)
         (s s' : S) (hashed : string) (u : User) (e : error),
    auth.validateSignUpData data = None ->
    su_Password data = su_PasswordConfirm data ->
    hashing.HashPassword salt (su_Password data) = (hashed, None) ->
    auth.repo_CreateUser repo
      {| ID := id; Name := su_Name data;
         Email := strings_ToLower (strings_TrimSpace (su_Email data));
         Password := hashed; Role := "user"; Provider := "local";
         Photo := auth.getPhotoOrDefault (su_Photo data); Verified := false;
         CreatedAt := now; UpdatedAt := now; DeletedAt := None |} s
    = ((u, Some e), s') ->
    strings_Contains (Error e) "duplicate" || strings_Contains (Error e) "unique" = true ->
    auth.SignUp repo salt now id data s
    = ((None, Some (New "user with that email already exists")), s').
Proof.
  intros rt S repo salt now id data s s' hashed u e Hv Hc Hh Hr Ht.
  unfold auth.SignUp. rewrite Hv, <- Hc, String.eqb_refl, Hh. simpl.
  unfold bind. rewrite Hr, Ht. reflexivity.
Qed.

Lemma existsb_app_last :
  forall (A : Type) (f : A -> bool) (l : list A) (a : A),
    f a = true -> existsb f (l ++ [a]) = true.
Proof.
  intros A f l a H. rewrite existsb_app. simpl. rewrite H.
  now rewrite orb_true_r.
Qed.

(** Against the relation [users], a second [SignUp] under an email with the
    same normal form as the one just registered fails with the conflict
    error and leaves the store as it is. *)
Lemma SignUp_twice_conflict :
  forall (rt : Runtime) (clock1 clock2 : Time)
         (salt1 salt2 : string) (now1 now2 : Time) (id1 id2 : UUID)
         (first second : SignUpData) (db db1 : gorm.DB) (u : User) (hashed : string),
    auth.SignUp (auth.authRepository clock1) salt1 now1 id1 first db
    = ((Some u, None), db1) ->
    strings_ToLower (strings_TrimSpace (su_Email second))
    = strings_ToLower (strings_TrimSpace (su_Email first)) ->
    auth.validateSignUpData second = None ->
    su_Password second = su_PasswordConfirm second ->
    hashing.HashPassword salt2 (su_Password second) = (hashed, None) ->
    auth.SignUp (auth.authRepository clock2) salt2 now2 id2 second db1
    = ((None, Some (New "user with that email already exists")), db1).
Proof.
  intros rt clock1 clock2 salt1 salt2 now1 now2 id1 id2 first second db db1 u hashed
         H1 Hn Hv Hc Hh.
  unfold auth.SignUp in H1.
  destruct (auth.validateSignUpData first); [ discriminate | ].
  destruct (negb (su_Password first =? su_PasswordConfirm first)%string); [ discriminate | ].
  destruct (hashing.HashPassword salt1 (su_Password first)) as [h1 [e | ]];
    [ discriminate | ].
  cbn [auth.authRepository auth.repo_CreateUser] in H1.
  unfold bind, auth.authRepository_CreateUser, gorm.Create, bind, gorm.insert in H1.
  cbn [ID Email] in H1.
  destruct (existsb _ db) in H1.
  - cbn in H1. discriminate.
  - cbn in H1. injection H1 as _ Hdb.
    eapply SignUp_translates_unique_violation with (e := gorm.duplicate_key);
      try eassumption; [ | reflexivity ].
    cbn [auth.authRepository auth.repo_CreateUser].
    unfold auth.authRepository_CreateUser, gorm.Create, bind, gorm.insert.
    cbn [ID Email]. rewrite <- Hdb.
    rewrite existsb_app_last.
    + reflexivity.
    + cbn [ID Email]. rewrite Hn, String.eqb_refl. apply orb_true_r.
Qed.

(** The advisory check of the user service: when the lookup by email finds
    an account, [CreateUser] reports the conflict and creates nothing. *)
Lemma CreateUser_precheck_conflict :
  forall (S : Type) (repo : user.Repository S)
         (id : UUID) (now1 now2 : Time) (data : CreateUserData)
         (s s' : S) (found : UserResponse),
    cd_Name data <> "" -> cd_Email data <> "" ->
    (8 <= String.length (cd_Password data))%nat ->
    user.repo_GetUserByEmail repo (cd_Email data) s = (Ok found, s') ->
    user.CreateUser repo id now1 now2 data s
    = (Some (New "user with that email already exists"), s').
Proof.
  intros S repo id now1 now2 data s s' found Hn He Hp Hf.
  unfold user.CreateUser.
  apply String.eqb_neq in Hn, He. rewrite Hn, He.
  destruct (cd_Password data) as [ | c rest] eqn:Hpw; [ simpl in Hp; lia | ].
  replace (String c rest =? "")%string with false by reflexivity.
  replace (Z.of_nat (String.length (String c rest)) <? 8) with false
    by (symmetry; apply Z.ltb_ge; lia).
  unfold bind. rewrite Hf. reflexivity.
Qed.

(** C2. The user service neither normalises the email nor translates the
    error of the repository: for data it accepts it asks the lookup for
    the email as submitted and, when the lookup does not find it, hands
    the repository an account with the email as submitted and returns the
    error of that call as it is, a violation of the unique index
    included, which is not the conflict error. *)
Theorem CreateUser_neither_normalizes_nor_translates :
  forall (S : Type) (repo : user.Repository S)
         (id : UUID) (now1 now2 : Time) (data : CreateUserData)
         (s s1 : S) (err : error),
    cd_Name data <> "" -> cd_Email data <> "" ->
    8 <= Z.of_nat (String.length (cd_Password data)) ->
    user.repo_GetUserByEmail repo (cd_Email data) s = (Err err, s1) ->
    Is_ErrRecordNotFound err = true ->
    exists entity : User,
      Email entity = cd_Email data
      /\ user.CreateUser repo id now1 now2 data s
         = (snd (fst (user.repo_CreateUser repo entity s1)),
            snd (user.repo_CreateUser repo entity s1))
      /\ (snd (fst (user.repo_CreateUser repo entity s1)) = Some gorm.duplicate_key ->
          fst (user.CreateUser repo id now1 now2 data s) = Some gorm.duplicate_key
          /\ fst (user.CreateUser repo id now1 now2 data s)
             <> Some (New "user with that email already exists")).
Proof.
  intros S repo id now1 now2 data s s1 err Hn He Hp Hf Hnf.
  pose proof (CreateUser_reaches_the_repository S repo id now1 now2 data s s1 err
                Hn He Hp Hf Hnf) as Hrun.
  cbv zeta in Hrun.
  eexists. split; [ | split; [ exact Hrun | ] ].
  - reflexivity.
  - intros Hdup. rewrite Hrun. cbn [fst]. rewrite Hdup.
    split; [ reflexivity | discriminate ].
Qed.

Lemma CreateUser_neither_normalizes_nor_translates_witness :
  cd_Name (reference.new_ann " ANN@Example.com ") <> ""
  /\ cd_Email (reference.new_ann " ANN@Example.com ") <> ""
  /\ 8 <= Z.of_nat (String.length (cd_Password (reference.new_ann " ANN@Example.com ")))
  /\ user.repo_GetUserByEmail (reference.memoryRepo 50)
       (cd_Email (reference.new_ann " ANN@Example.com ")) [reference.ann_account]
     = (Err ErrRecordNotFound, [reference.ann_account])
  /\ Is_ErrRecordNotFound ErrRecordNotFound = true
  /\ exists entity : User,
       Email entity = " ANN@Example.com "
       /\ user.CreateUser (reference.memoryRepo 50) reference.uuid1 200 201
            (reference.new_ann " ANN@Example.com ") [reference.ann_account]
          = (snd (fst (user.repo_CreateUser (reference.memoryRepo 50) entity
                         [reference.ann_account])),
             snd (user.repo_CreateUser (reference.memoryRepo 50) entity
                    [reference.ann_account]))
       /\ (snd (fst (user.repo_CreateUser (reference.memoryRepo 50) entity
                       [reference.ann_account])) = Some gorm.duplicate_key ->
           fst (user.CreateUser (reference.memoryRepo 50) reference.uuid1 200 201
                  (reference.new_ann " ANN@Example.com ") [reference.ann_account])
           = Some gorm.duplicate_key
           /\ fst (user.CreateUser (reference.memoryRepo 50) reference.uuid1 200 201
                     (reference.new_ann " ANN@Example.com ") [reference.ann_account])
              <> Some (New "user with that email already exists")).
Proof.
  assert (H1 : cd_Name (reference.new_ann " ANN@Example.com ") <> "") by discriminate.
  assert (H2 : cd_Email (reference.new_ann " ANN@Example.com ") <> "") by discriminate.
  assert (H3 : 8 <= Z.of_nat (String.length
                                (cd_Password (reference.new_ann " ANN@Example.com "))))
    by (vm_compute; discriminate).
  assert (H4 : user.repo_GetUserByEmail (reference.memoryRepo 50)
                 (cd_Email (reference.new_ann " ANN@Example.com "))
                 [reference.ann_account]
               = (Err ErrRecordNotFound, [reference.ann_account]))
    by (vm_compute; reflexivity).
  assert (H5 : Is_ErrRecordNotFound ErrRecordNotFound = true) by reflexivity.
  split; [ exact H1 | ]. split; [ exact H2 | ]. split; [ exact H3 | ].
  split; [ exact H4 | ]. split; [ exact H5 | ].
  exact (CreateUser_neither_normalizes_nor_translates (list User)
           (reference.memoryRepo 50) reference.uuid1 200 201
           (reference.new_ann " ANN@Example.com ") [reference.ann_account]
           [reference.ann_account] ErrRecordNotFound H1 H2 H3 H4 H5).
Defined.

(** On a repository kept in memory that holds Ann's account: the same
    address in another spelling is stored as a second account, and a
    creation that the store refuses for a constraint, here the key of
    Ann's account, comes back with the driver's error. *)
Example CreateUser_twice_in_memory :
  reference.ToLower (reference.TrimSpace " ANN@Example.com ") = Email reference.ann_account
  /\ (let '(err, store) :=
        user.CreateUser (reference.memoryRepo 50) reference.uuid2 200 201
          (reference.new_ann " ANN@Example.com ") [reference.ann_account] in
      err = None /\ map Email store = ["ann@example.com"; " ANN@Example.com "])
  /\ user.CreateUser (reference.memoryRepo 50) reference.uuid1 200 201
       (reference.new_ann " ANN@Example.com ") [reference.ann_account]
     = (Some gorm.duplicate_key, [reference.ann_account]).
Proof. vm_compute. repeat split; reflexivity. Qed.

(** ** Listing *)

(** C8. [GetUsers] of the user service hands the repository the query with
    page 1 when the requested page is at most 0, with 10 per page when the
    requested number is at most 0 or above 100, and with the requested
    values otherwise; its answer is the repository's answer, so that a
    value out of range is never turned into an error. *)
Theorem GetUsers_clamps_pagination :
  forall (S : Type) (repo : user.Repository S) (query : ListUsersQuery) (s : S),
    exists effective : ListUsersQuery,
      user.GetUsers repo query s = user.repo_GetUsers repo effective s
      /\ (Page query <= 0 -> Page effective = 1)
      /\ (0 < Page query -> Page effective = Page query)
      /\ (PerPage query <= 0 \/ 100 < PerPage query -> PerPage effective = 10)
      /\ (0 < PerPage query <= 100 -> PerPage effective = PerPage query)
      /\ Search effective = Search query
      /\ SearchBy effective = SearchBy query
      /\ q_Role effective = q_Role query
      /\ q_Provider effective = q_Provider query
      /\ q_Verified effective = q_Verified query
      /\ ShowDeleted effective = ShowDeleted query.
Proof.
  intros S repo query s. unfold user.GetUsers.
  eexists. split; [ reflexivity | ].
  destruct query as [page perPage search searchBy role provider verified showDeleted].
  cbn [Page PerPage].
  destruct (Z.leb_spec page 0) as [Hp | Hp]; cbn [set_Page Page PerPage];
    destruct (Z.leb_spec perPage 0) as [Hq | Hq];
    destruct (Z.ltb_spec 100 perPage) as [Hr | Hr];
    cbn; repeat split; try reflexivity; intros; lia.
Qed.

Example GetUsers_clamps_big_page_size :
  forall db : gorm.DB,
    user.GetUsers (user.userRepository (rt := reference.runtime) 77 50)
      {| Page := -3; PerPage := 1000; Search := ""; SearchBy := ""; q_Role := "";
         q_Provider := ""; q_Verified := None; ShowDeleted := false |} db
    = user.userRepository_GetUsers (rt := reference.runtime)
        {| Page := 1; PerPage := 10; Search := ""; SearchBy := ""; q_Role := "";
           q_Provider := ""; q_Verified := None; ShowDeleted := false |} db.
Proof. intro db. reflexivity. Qed.

(** Unfolds the construction of a statement down to its clauses. *)
Ltac run_statement :=
  cbv [gorm.Model gorm.Where gorm.Unscoped gorm.Session gorm.clauses
       gorm.unscoped gorm.model app gorm.addressed gorm.TableName gorm.plan_all].

(** What the database understands of the clauses the repositories write. *)
Lemma plan_role :
  forall (rt : Runtime) (s : string),
    gorm.plan ("role = ?", gorm.AText s) = Ok (gorm.RoleEq s).
Proof. reflexivity. Qed.

Lemma plan_provider :
  forall (rt : Runtime) (s : string),
    gorm.plan ("provider = ?", gorm.AText s) = Ok (gorm.ProviderEq s).
Proof. reflexivity. Qed.

Lemma plan_verified :
  forall (rt : Runtime) (b : bool),
    gorm.plan ("verified = ?", gorm.ABool b) = Ok (gorm.VerifiedEq b).
Proof. reflexivity. Qed.

Lemma plan_email :
  forall (rt : Runtime) (s : string),
    gorm.plan ("email = ?", gorm.AText s) = Ok (gorm.EmailEq s).
Proof. reflexivity. Qed.

Lemma plan_id :
  forall (rt : Runtime) (s : string) (i : UUID),
    uuid_Parse s = Some i ->
    gorm.plan ("id = ?", gorm.AText s) = Ok (gorm.IdEq i).
Proof.
  intros rt s i H. cbv [gorm.plan]. cbn [String.eqb Ascii.eqb Bool.eqb].
  now rewrite H.
Qed.

(** [GetUsers] of the repository: its defaults leave the statement as it
    is. *)
Lemma userRepository_GetUsers_unfold :
  forall (rt : Runtime) (query : ListUsersQuery) (db : gorm.DB),
    user.userRepository_GetUsers query db
    = (let page := if Page query <=? 0 then 1 else Page query in
       let perPage := if PerPage query <=? 0 then 10 else PerPage query in
       let st := user.userRepository_GetUsers_statement query in
       (counted <- gorm.Count st ;;
        match counted with
        | Err err => ret ([], 0, Some err)
        | Ok total =>
            found <- gorm.Find gorm.OfUserResponse st
                       (wrap64 ((page - 1) * perPage)) perPage ;;
            match found with
            | Err err => ret ([], 0, Some err)
            | Ok models =>
                ret (map (fun row => user.toDomain (user.scan_listed row)) models,
                     total, None)
            end
        end)%go db).
Proof.
  intros rt query db. unfold user.userRepository_GetUsers.
  destruct query as [page perPage search searchBy role provider verified showDeleted].
  cbn [Page PerPage].
  destruct (page <=? 0); cbn [set_Page Page PerPage];
    destruct (perPage <=? 0); reflexivity.
Qed.

(** The statement of [GetUsers] is about [UserModel], whose table is
    [users], whatever the destination of its final call. *)
Lemma GetUsers_statement_model :
  forall (rt : Runtime) (query : ListUsersQuery),
    gorm.model (user.userRepository_GetUsers_statement query) = Some gorm.OfUserModel.
Proof.
  intros rt query.
  destruct query as [page perPage search searchBy role provider verified showDeleted].
  unfold user.userRepository_GetUsers_statement.
  cbn [Search SearchBy ShowDeleted q_Role q_Provider q_Verified].
  destruct (negb (search =? "")%string && negb (searchBy =? "")%string);
    destruct (user.AllowedSearchFields searchBy);
    destruct showDeleted; destruct (negb (role =? "")%string);
    destruct (negb (provider =? "")%string); destruct verified as [v | ];
    reflexivity.
Qed.

Lemma addressed_of_UserModel :
  forall (dest : gorm.Struct) (st : gorm.Statement),
    gorm.model st = Some gorm.OfUserModel -> gorm.addressed dest st = None.
Proof. intros dest st H. unfold gorm.addressed. rewrite H. reflexivity. Qed.

Lemma GetUsers_statement_addressed :
  forall (rt : Runtime) (dest : gorm.Struct) (query : ListUsersQuery),
    gorm.addressed dest (user.userRepository_GetUsers_statement query) = None.
Proof.
  intros rt dest query. apply addressed_of_UserModel.
  exact (GetUsers_statement_model rt query).
Qed.

(** C10. When the search field of a list query is not in the allow-list
    {name, email}, the statement [GetUsers] of the repository builds is the
    statement of the same query without a search term: no clause is made
    from the field name, every clause has one of the fixed texts, the
    answer does not depend on the term, and the database accepts the
    statement. *)
Theorem GetUsers_ignores_unlisted_search_field :
  forall (rt : Runtime) (query : ListUsersQuery),
    user.AllowedSearchFields (SearchBy query) = false ->
    user.userRepository_GetUsers_statement query
    = user.userRepository_GetUsers_statement (set_Search "" query)
    /\ Forall (fun c => In (fst c) ["role = ?"; "provider = ?"; "verified = ?"])
         (gorm.clauses (user.userRepository_GetUsers_statement query))
    /\ (forall (term : string) (db : gorm.DB),
          user.userRepository_GetUsers (set_Search term query) db
          = user.userRepository_GetUsers query db)
    /\ (forall db : gorm.DB,
          snd (fst (user.userRepository_GetUsers query db)) = None).
Proof.
  intros rt query H.
  assert (Hst : forall term,
             user.userRepository_GetUsers_statement (set_Search term query)
             = user.userRepository_GetUsers_statement query).
  { intro term. destruct query as [page perPage search searchBy role provider verified showDeleted].
    cbn [SearchBy] in H. unfold user.userRepository_GetUsers_statement.
    cbn [set_Search Search SearchBy ShowDeleted q_Role q_Provider q_Verified].
    rewrite H.
    destruct (negb (term =? "")%string && negb (searchBy =? "")%string);
      destruct (negb (search =? "")%string && negb (searchBy =? "")%string);
      reflexivity. }
  assert (Hcl : exists ps,
             gorm.plan_all (gorm.clauses (user.userRepository_GetUsers_statement query)) = Ok ps
             /\ Forall (fun c => In (fst c) ["role = ?"; "provider = ?"; "verified = ?"])
                  (gorm.clauses (user.userRepository_GetUsers_statement query))).
  { destruct query as [page perPage search searchBy role provider verified showDeleted].
    cbn [SearchBy] in H. unfold user.userRepository_GetUsers_statement.
    cbn [Search SearchBy ShowDeleted q_Role q_Provider q_Verified].
    rewrite H.
    destruct (negb (search =? "")%string && negb (searchBy =? "")%string);
      destruct showDeleted; destruct (negb (role =? "")%string);
      destruct (negb (provider =? "")%string); destruct verified as [v | ];
      cbv [gorm.Model gorm.Where gorm.Unscoped gorm.Session gorm.clauses
           gorm.unscoped gorm.model app];
      cbv [gorm.plan_all]; rewrite ?plan_role, ?plan_provider, ?plan_verified;
      (eexists; split; [ reflexivity | ]);
      repeat (apply Forall_cons; [ cbv [In fst]; auto 10 | ]); apply Forall_nil. }
  split; [ symmetry; apply Hst | ].
  destruct Hcl as [ps [Hps Hfix]].
  split; [ exact Hfix | ].
  split.
  - intros term db. rewrite !userRepository_GetUsers_unfold, Hst.
    destruct query; reflexivity.
  - intro db. rewrite userRepository_GetUsers_unfold.
    unfold bind, gorm.Count, gorm.Find.
    rewrite !(GetUsers_statement_addressed rt), Hps. reflexivity.
Qed.

Lemma GetUsers_ignores_unlisted_search_field_witness :
  user.AllowedSearchFields (SearchBy reference.admin_by_role) = false
  /\ (user.userRepository_GetUsers_statement reference.admin_by_role
      = user.userRepository_GetUsers_statement (set_Search "" reference.admin_by_role)
      /\ Forall (fun c => In (fst c) ["role = ?"; "provider = ?"; "verified = ?"])
           (gorm.clauses (user.userRepository_GetUsers_statement reference.admin_by_role))
      /\ (forall (term : string) (db : gorm.DB),
            user.userRepository_GetUsers (rt := reference.runtime)
              (set_Search term reference.admin_by_role) db
            = user.userRepository_GetUsers (rt := reference.runtime)
                reference.admin_by_role db)
      /\ (forall db : gorm.DB,
            snd (fst (user.userRepository_GetUsers (rt := reference.runtime)
                        reference.admin_by_role db)) = None)).
Proof.
  split.
  - reflexivity.
  - apply (GetUsers_ignores_unlisted_search_field reference.runtime).
    reflexivity.
Defined.

(** On the store where Ann is registered, the search for "admin" in "role"
    lists her as the empty search does, while the search in "name" does not. *)
Example GetUsers_admin_by_role :
  fst (user.userRepository_GetUsers (rt := reference.runtime)
         reference.admin_by_role reference.ann_registered)
  = fst (user.userRepository_GetUsers (rt := reference.runtime)
           (set_Search "" reference.admin_by_role) reference.ann_registered)
  /\ snd (fst (fst (user.userRepository_GetUsers (rt := reference.runtime)
                      reference.admin_by_role reference.ann_registered))) = 1
  /\ snd (fst (fst (user.userRepository_GetUsers (rt := reference.runtime)
                      {| Page := 1; PerPage := 10; Search := "admin"; SearchBy := "name";
                         q_Role := ""; q_Provider := ""; q_Verified := None;
                         ShowDeleted := false |} reference.ann_registered))) = 0.
Proof. vm_compute. repeat split; reflexivity. Qed.

(** ** The relation [users] under the repository's statements *)

Lemma least_id_In :
  forall (rows : list User) (u : User),
    gorm.least_id rows = Some u -> In u rows.
Proof.
  induction rows as [ | v rows IH]; intros u H; [ discriminate | ].
  cbn in H. destruct (gorm.least_id rows) as [w | ].
  - destruct (ID v <=? ID w); injection H as <-.
    + now left.
    + right. now apply IH.
  - injection H as <-. now left.
Qed.

Lemma least_id_None :
  forall rows : list User, gorm.least_id rows = None -> rows = [].
Proof.
  intros [ | v rows] H; [ reflexivity | ].
  cbn in H. destruct (gorm.least_id rows) as [w | ];
    [ destruct (ID v <=? ID w) | ]; discriminate.
Qed.

Lemma toDomain_id : forall model : UserResponse, user.toDomain model = model.
Proof. intros [? ? ? ? ? ? ? ? ? [d | ]]; reflexivity. Qed.

(** The statement [Where("id = ?", id)] selects the rows whose key is the
    parsed [id], whatever their deletion time. *)
Lemma selected_by_id :
  forall (rt : Runtime) (i : UUID) (u : User),
    gorm.selected [gorm.IdEq i] u = (ID u =? i).
Proof.
  intros. unfold gorm.selected. cbn. now rewrite andb_true_r.
Qed.

(** The lookups of the user repository scan into a [UserResponse] and name
    no model: they address the relation [user_responses], which the
    database does not hold. *)
Lemma userRepository_GetUserByID_run :
  forall (rt : Runtime) (id : string) (includeDeleted : bool) (db : gorm.DB),
    user.userRepository_GetUserByID id includeDeleted db
    = (Err (gorm.no_such_table "user_responses"), db).
Proof. intros rt id [ | ] db; reflexivity. Qed.

Lemma userRepository_GetUserByEmail_run :
  forall (rt : Runtime) (email : string) (db : gorm.DB),
    user.userRepository_GetUserByEmail email db
    = (Err (gorm.no_such_table "user_responses"), db).
Proof. intros rt email db; reflexivity. Qed.

Lemma no_such_table_is_no_sentinel :
  forall name : string, Is_ErrRecordNotFound (gorm.no_such_table name) = false.
Proof. reflexivity. Qed.

Lemma userRepository_DeleteUser_run :
  forall (rt : Runtime) (id : string) (i : UUID) (db : gorm.DB),
    uuid_Parse id = Some i ->
    user.userRepository_DeleteUser id db
    = (if Z.of_nat (List.length (filter (fun u => ID u =? i) db)) =? 0
       then Some ErrRecordNotFound else None,
       filter (fun u => negb (ID u =? i)) db).
Proof.
  intros rt id i db H.
  unfold user.userRepository_DeleteUser, bind, gorm.Delete.
  run_statement. cbn [String.eqb Ascii.eqb Bool.eqb].
  rewrite (plan_id rt id i H).
  rewrite (filter_ext (gorm.selected [gorm.IdEq i]) (fun u => ID u =? i))
    by (intro u; apply selected_by_id).
  rewrite (filter_ext (fun u => negb (gorm.selected [gorm.IdEq i] u))
             (fun u => negb (ID u =? i)))
    by (intro u; now rewrite selected_by_id).
  destruct (Z.of_nat _ =? 0); reflexivity.
Qed.

(** [Update("deleted_at", nil)] on a statement without a model has no
    table: the mapper refuses it before anything reaches the database. *)
Lemma userRepository_RestoreUser_run :
  forall (rt : Runtime) (id : string) (db : gorm.DB),
    user.userRepository_RestoreUser id db = (Some gorm.table_not_set, db).
Proof. intros rt id db; reflexivity. Qed.

Lemma filter_nil_iff :
  forall (A : Type) (f : A -> bool) (l : list A),
    filter f l = [] <-> forall x, In x l -> f x = false.
Proof.
  intros A f l. induction l as [ | a l IH]; cbn.
  - split; [ intros _ x [] | reflexivity ].
  - destruct (f a) eqn:Ha; split; intro H.
    + discriminate.
    + specialize (H a (or_introl eq_refl)). congruence.
    + intros x [<- | Hx]; [ exact Ha | now apply IH ].
    + apply IH. intros x Hx. apply H. now right.
Qed.

(** ** Soft delete *)

(** C5. [DeleteUser] does not reach a soft delete.  For an id that parses,
    - [DeleteUser] of the user service never succeeds over the program's
      repository: its lookup comes back with the database's error for
      the relation [user_responses], and the service returns that error
      and leaves the relation [users] as it is;
    - [DeleteUser] of the repository, which succeeds exactly when the
      relation holds a row of that id, removes the rows of that id: no
      row of that id is left, with or without a deletion time;
    - after it, [GetUserByID] of the repository answers neither not-found
      nor an account, with or without the flag for deleted rows, and
      [GetUserByID] of the service passes that error on. *)
Theorem DeleteUser_is_not_a_soft_delete :
  forall (rt : Runtime) (fresh : UUID) (clock : Time) (id : string) (i : UUID)
         (db : gorm.DB),
    uuid_Parse id = Some i ->
    user.DeleteUser (user.userRepository fresh clock) id db
    = (Some (gorm.no_such_table "user_responses"), db)
    /\ (fst (user.userRepository_DeleteUser id db) = None
        <-> exists row : User, In row db /\ ID row = i)
    /\ snd (user.userRepository_DeleteUser id db)
       = filter (fun u => negb (ID u =? i)) db
    /\ (forall row : User,
          In row (snd (user.userRepository_DeleteUser id db)) -> ID row <> i)
    /\ (forall includeDeleted : bool,
          user.userRepository_GetUserByID id includeDeleted
            (snd (user.userRepository_DeleteUser id db))
          = (Err (gorm.no_such_table "user_responses"),
             snd (user.userRepository_DeleteUser id db)))
    /\ user.GetUserByID (user.userRepository fresh clock) id
         (snd (user.userRepository_DeleteUser id db))
       = (Err (gorm.no_such_table "user_responses"),
          snd (user.userRepository_DeleteUser id db))
    /\ Error (gorm.no_such_table "user_responses") <> "user not found".
Proof.
  intros rt fresh clock id i db Hid.
  rewrite (userRepository_DeleteUser_run rt id i db Hid). cbn [fst snd].
  split.
  { unfold user.DeleteUser. rewrite Hid.
    cbn [user.userRepository user.repo_GetUserByID]. unfold bind.
    rewrite userRepository_GetUserByID_run. reflexivity. }
  split.
  { split.
    - intro H.
      destruct (filter (fun u => ID u =? i) db) as [ | row rest] eqn:Hf;
        [ discriminate H | ].
      assert (Hin : In row (filter (fun u => ID u =? i) db))
        by (rewrite Hf; now left).
      apply filter_In in Hin. destruct Hin as [Hin Hk].
      exists row. split; [ exact Hin | now apply Z.eqb_eq ].
    - intros [row [Hin Hk]].
      assert (Hf : In row (filter (fun u => ID u =? i) db))
        by (apply filter_In; split; [ exact Hin | now apply Z.eqb_eq ]).
      destruct (filter (fun u => ID u =? i) db) as [ | r rest];
        [ destruct Hf | ].
      cbn [List.length]. rewrite Nat2Z.inj_succ.
      replace (Z.succ (Z.of_nat (List.length rest)) =? 0) with false
        by (symmetry; apply Z.eqb_neq; lia).
      reflexivity. }
  split; [ reflexivity | ].
  split.
  { intros row Hin. apply filter_In in Hin. destruct Hin as [_ Hk].
    apply negb_true_iff in Hk. now apply Z.eqb_neq. }
  split.
  { intro incl. apply userRepository_GetUserByID_run. }
  split.
  { unfold user.GetUserByID. rewrite Hid.
    cbn [user.userRepository user.repo_GetUserByID]. unfold bind.
    rewrite userRepository_GetUserByID_run. reflexivity. }
  vm_compute. discriminate.
Qed.

Lemma DeleteUser_is_not_a_soft_delete_witness :
  reference.Parse reference.id1 = Some reference.uuid1
  /\ (user.DeleteUser (rt := reference.runtime) reference.userRepo reference.id1
        reference.ann_registered
      = (Some (gorm.no_such_table "user_responses"), reference.ann_registered)
      /\ (fst (user.userRepository_DeleteUser (rt := reference.runtime) reference.id1
                 reference.ann_registered) = None
          <-> exists row : User,
                In row reference.ann_registered /\ ID row = reference.uuid1)
      /\ snd (user.userRepository_DeleteUser (rt := reference.runtime) reference.id1
                reference.ann_registered)
         = filter (fun u => negb (ID u =? reference.uuid1)) reference.ann_registered
      /\ (forall row : User,
            In row (snd (user.userRepository_DeleteUser (rt := reference.runtime)
                           reference.id1 reference.ann_registered)) ->
            ID row <> reference.uuid1)
      /\ (forall includeDeleted : bool,
            user.userRepository_GetUserByID (rt := reference.runtime) reference.id1
              includeDeleted
              (snd (user.userRepository_DeleteUser (rt := reference.runtime)
                      reference.id1 reference.ann_registered))
            = (Err (gorm.no_such_table "user_responses"),
               snd (user.userRepository_DeleteUser (rt := reference.runtime)
                      reference.id1 reference.ann_registered)))
      /\ user.GetUserByID (rt := reference.runtime) reference.userRepo reference.id1
           (snd (user.userRepository_DeleteUser (rt := reference.runtime)
                   reference.id1 reference.ann_registered))
         = (Err (gorm.no_such_table "user_responses"),
            snd (user.userRepository_DeleteUser (rt := reference.runtime)
                   reference.id1 reference.ann_registered))
      /\ Error (gorm.no_such_table "user_responses") <> "user not found").
Proof.
  split.
  - reflexivity.
  - apply (DeleteUser_is_not_a_soft_delete reference.runtime 77 50 reference.id1
             reference.uuid1 reference.ann_registered).
    reflexivity.
Defined.

(** On the relation that holds Ann's row: the service refuses with the
    database's error and the row stays; the repository deletes, and the
    relation is empty. *)
Example DeleteUser_of_ann :
  user.DeleteUser (rt := reference.runtime) reference.userRepo reference.id1
    reference.ann_registered
  = (Some (gorm.no_such_table "user_responses"), [reference.ann_account])
  /\ user.userRepository_DeleteUser (rt := reference.runtime) reference.id1
       reference.ann_registered
     = (None, []).
Proof. vm_compute. split; reflexivity. Qed.

(** ** Restore *)

(** C6. [RestoreUser] reaches none of its three outcomes over the
    program's repository.  For an id that parses and any content of the
    relation, the service returns the error of its first lookup, the
    database's error for the relation [user_responses], which is neither
    the not-found error nor the not-deleted error, returns no account and
    changes nothing; and [RestoreUser] of the repository, whose statement
    names no table, is refused by the mapper and clears no deletion
    time. *)
Theorem RestoreUser_reaches_no_outcome :
  forall (rt : Runtime) (fresh : UUID) (clock : Time) (id : string) (i : UUID)
         (db : gorm.DB),
    uuid_Parse id = Some i ->
    user.RestoreUser (user.userRepository fresh clock) id db
    = (Err (gorm.no_such_table "user_responses"), db)
    /\ Error (gorm.no_such_table "user_responses") <> "user not found"
    /\ Error (gorm.no_such_table "user_responses") <> "user is not deleted"
    /\ user.userRepository_RestoreUser id db = (Some gorm.table_not_set, db).
Proof.
  intros rt fresh clock id i db Hid.
  split.
  { unfold user.RestoreUser. rewrite Hid.
    cbn [user.userRepository user.repo_GetUserByID]. unfold bind.
    rewrite userRepository_GetUserByID_run. reflexivity. }
  split; [ vm_compute; discriminate | ].
  split; [ vm_compute; discriminate | ].
  apply userRepository_RestoreUser_run.
Qed.

Lemma RestoreUser_reaches_no_outcome_witness :
  reference.Parse reference.id2 = Some reference.uuid2
  /\ (user.RestoreUser (rt := reference.runtime) reference.userRepo reference.id2
        sample.two_accounts
      = (Err (gorm.no_such_table "user_responses"), sample.two_accounts)
      /\ Error (gorm.no_such_table "user_responses") <> "user not found"
      /\ Error (gorm.no_such_table "user_responses") <> "user is not deleted"
      /\ user.userRepository_RestoreUser (rt := reference.runtime) reference.id2
           sample.two_accounts
         = (Some gorm.table_not_set, sample.two_accounts)).
Proof.
  split.
  - reflexivity.
  - apply (RestoreUser_reaches_no_outcome reference.runtime 77 50 reference.id2
             reference.uuid2 sample.two_accounts).
    reflexivity.
Defined.

(** The three situations of the claim, on the relation that holds Ann's
    row and Bob's, whose row carries a deletion time: an id without a
    row, the id of Ann's row and the id of Bob's row get the same
    answer, and Bob's row keeps its deletion time. *)
Example RestoreUser_runs :
  user.RestoreUser (rt := reference.runtime) reference.userRepo
    "00000000-0000-4000-8000-000000000003" sample.two_accounts
  = (Err (gorm.no_such_table "user_responses"), sample.two_accounts)
  /\ user.RestoreUser (rt := reference.runtime) reference.userRepo reference.id1
       sample.two_accounts
     = (Err (gorm.no_such_table "user_responses"), sample.two_accounts)
  /\ user.RestoreUser (rt := reference.runtime) reference.userRepo reference.id2
       sample.two_accounts
     = (Err (gorm.no_such_table "user_responses"), sample.two_accounts)
  /\ map DeletedAt
       (snd (user.userRepository_RestoreUser (rt := reference.runtime) reference.id2
               sample.two_accounts))
     = [None; Some 200].
Proof. vm_compute. repeat split; reflexivity. Qed.

(** ** Update *)







(** The update of Ann's account that asks for the name "Ann B.", the
    photo "ann.png" and a verified account.  Over a repository kept in
    memory the service succeeds and has handed over the account of the
    statement above; [UpdateUser] of the program's repository, given that
    account when its clock reads 300, stores the name and the photo, the
    default role and the time 300, and leaves the verified flag and the
    password as they were. *)
Example UpdateUser_of_ann :
  fst (user.UpdateUser (rt := reference.runtime) (reference.memoryRepo 300) 299
         reference.id1 reference.rename_ann [reference.ann_account]) = None
  /\ snd (user.userRepository_UpdateUser (rt := reference.runtime) 300 reference.id1
            {| ID := uuid_Nil; Name := "Ann B."; Email := ""; Password := "";
               Role := "user"; Provider := ""; Photo := "ann.png"; Verified := false;
               CreatedAt := zeroTime; UpdatedAt := 299; DeletedAt := None |}
            [reference.ann_account])
     = [ {| ID := reference.uuid1; Name := "Ann B."; Email := "ann@example.com";
            Password := "$2a$10$saltlongpass1"; Role := "user"; Provider := "local";
            Photo := "ann.png"; Verified := false; CreatedAt := 100;
            UpdatedAt := 300; DeletedAt := None |} ]
  /\ ud_Verified reference.rename_ann = true
  /\ user.UpdateUser (rt := reference.runtime) reference.userRepo 299 reference.id1
       reference.rename_ann [reference.ann_account]
     = (Some (gorm.no_such_table "user_responses"), [reference.ann_account]).
Proof. vm_compute. repeat split; reflexivity. Qed.

(** ** Page count

    [CalculatePagination] divides in [float64].  The lemmas below follow
    the conversion of the two integers, the division and its rounding, and
    the ceiling, on the mantissas and exponents of the values. *)

(** The number of binary digits of a positive number frames it between
    two powers of two. *)
Lemma digits2_pos_bounds :
  forall p : positive,
    2 ^ (Zpos (digits2_pos p) - 1) <= Zpos p < 2 ^ Zpos (digits2_pos p).
Proof.
  induction p as [p IH | p IH | ]; cbn [digits2_pos].
  - rewrite Pos2Z.inj_succ.
    replace (Z.succ (Zpos (digits2_pos p)) - 1) with (Z.succ (Zpos (digits2_pos p) - 1)) by lia.
    rewrite !Z.pow_succ_r by lia. lia.
  - rewrite Pos2Z.inj_succ.
    replace (Z.succ (Zpos (digits2_pos p)) - 1) with (Z.succ (Zpos (digits2_pos p) - 1)) by lia.
    rewrite !Z.pow_succ_r by lia. lia.
  - cbn. lia.
Qed.

Lemma digits2_pos_unique :
  forall (p : positive) (k : Z),
    2 ^ (k - 1) <= Zpos p < 2 ^ k -> Zpos (digits2_pos p) = k.
Proof.
  intros p k [Hlo Hhi].
  pose proof (digits2_pos_bounds p) as [Dlo Dhi].
  assert (Hk : 0 < k).
  { destruct (Z.ltb_spec 0 k) as [ | Hk0]; [ assumption | ].
    exfalso. rewrite Z.pow_neg_r in Hlo by lia.
    destruct (Z.eq_dec k 0) as [-> | ]; [ cbn in Hhi; lia | ].
    rewrite Z.pow_neg_r in Hhi by lia. lia. }
  set (d := Zpos (digits2_pos p)) in *.
  destruct (Z.lt_trichotomy d k) as [Hlt | [Heq | Hgt]]; [ | exact Heq | ].
  - exfalso. assert (2 ^ d <= 2 ^ (k - 1)) by (apply Z.pow_le_mono_r; lia). lia.
  - exfalso. assert (2 ^ k <= 2 ^ (d - 1)) by (apply Z.pow_le_mono_r; lia). lia.
Qed.

(** One step of [shr_1] on a non-negative mantissa: halving, with the
    dropped digit and the sticky bit recorded. *)
Lemma shr_1_m :
  forall r : shr_record, 0 <= shr_m r -> shr_m (shr_1 r) = shr_m r / 2.
Proof.
  intros [m r s] H. cbn in H. destruct m as [ | p | p ]; [ reflexivity | | lia ].
  destruct p as [p | p | ]; cbn [shr_1 shr_m].
  - rewrite Pos2Z.inj_xI. apply Z.div_unique with (r := 1); lia.
  - rewrite Pos2Z.inj_xO. apply Z.div_unique with (r := 0); lia.
  - reflexivity.
Qed.

Lemma shr_1_r :
  forall r : shr_record, 0 <= shr_m r -> shr_r (shr_1 r) = Z.odd (shr_m r).
Proof.
  intros [m r s] H. cbn in H. destruct m as [ | p | p ]; [ reflexivity | | lia ].
  destruct p as [p | p | ]; reflexivity.
Qed.

Lemma shr_1_s :
  forall r : shr_record, shr_s (shr_1 r) = shr_r r || shr_s r.
Proof.
  intros [m r s]. destruct m as [ | p | p ]; [ reflexivity | | ];
    destruct p as [p | p | ]; reflexivity.
Qed.

Lemma iter_pos_nat :
  forall (A : Type) (f : A -> A) (n : positive) (x : A),
    iter_pos f n x = Nat.iter (Pos.to_nat n) f x.
Proof.
  intros A f n. induction n as [n IH | n IH | ]; intro x; cbn [iter_pos].
  - rewrite !IH, Pos2Nat.inj_xI.
    replace (S (2 * Pos.to_nat n)) with (Pos.to_nat n + (Pos.to_nat n + 1))%nat by lia.
    rewrite !Nat.iter_add. reflexivity.
  - rewrite !IH, Pos2Nat.inj_xO.
    replace (2 * Pos.to_nat n)%nat with (Pos.to_nat n + Pos.to_nat n)%nat by lia.
    rewrite Nat.iter_add. reflexivity.
  - reflexivity.
Qed.

Lemma iter_shr_1_m :
  forall (k : nat) (r : shr_record),
    0 <= shr_m r ->
    shr_m (Nat.iter k shr_1 r) = shr_m r / 2 ^ Z.of_nat k
    /\ 0 <= shr_m (Nat.iter k shr_1 r).
Proof.
  induction k as [ | k IH]; intros r H.
  - cbn. rewrite Z.div_1_r. split; [ reflexivity | exact H ].
  - change (Nat.iter (S k) shr_1 r) with (shr_1 (Nat.iter k shr_1 r)).
    destruct (IH r H) as [Hm Hpos].
    rewrite shr_1_m by exact Hpos. rewrite Hm.
    rewrite Nat2Z.inj_succ, Z.pow_succ_r by lia.
    rewrite Z.div_div by lia.
    replace (2 ^ Z.of_nat k * 2) with (2 * 2 ^ Z.of_nat k) by lia.
    split; [ reflexivity | ].
    apply Z.div_pos; [ exact H | ]. 
    assert (0 < 2 ^ Z.of_nat k) by (apply Z.pow_pos_nonneg; lia). lia.
Qed.

Lemma fexp_normal :
  forall e : Z, -1021 <= e -> fexp 53 1024 e = e - 53.
Proof. intros e H. unfold fexp, emin. lia. Qed.


Lemma shr_by_m :
  forall (k : Z) (r : shr_record),
    0 <= k -> 0 <= shr_m r -> shr_m (shr_by k r) = shr_m r / 2 ^ k.
Proof.
  intros k r Hk Hr. destruct k as [ | p | p ]; cbn [shr_by].
  - now rewrite Z.div_1_r.
  - rewrite iter_pos_nat.
    destruct (iter_shr_1_m (Pos.to_nat p) r Hr) as [-> _].
    now rewrite positive_nat_Z.
  - lia.
Qed.

Lemma round_nearest_even_range :
  forall (m : Z) (l : location),
    m <= round_nearest_even m l <= m + 1.
Proof.
  intros m l. destruct l as [ | [ | | ]]; cbn; try lia.
  destruct (Z.even m); lia.
Qed.

Lemma loc_of_record_of :
  forall (m : Z) (l : location), loc_of_shr_record (shr_record_of_loc m l) = l.
Proof. intros m [ | [ | | ]]; reflexivity. Qed.

Lemma shr_m_record_of :
  forall (m : Z) (l : location), shr_m (shr_record_of_loc m l) = m.
Proof. intros m [ | [ | | ]]; reflexivity. Qed.

(** Rounding a positive mantissa of [53 + k] digits. *)
Lemma binary_round_aux_pos :
  forall (mx : positive) (ex : Z) (lx : location) (k : Z),
    Zpos (digits2_pos mx) = 53 + k -> 0 <= k -> -1074 <= ex -> ex + k + 1 <= 971 ->
    let r := shr_by k (shr_record_of_loc (Zpos mx) lx) in
    let m' := round_nearest_even (shr_m r) (loc_of_shr_record r) in
    2 ^ 52 <= shr_m r < 2 ^ 53
    /\ binary_round_aux 53 1024 false (Zpos mx) ex lx
       = if m' <? 2 ^ 53
         then S754_finite false (Z.to_pos m') (ex + k)
         else S754_finite false (2 ^ 52)%positive (ex + k + 1).
Proof.
  intros mx ex lx k Hd Hk Hex Hmax r m'.
  pose proof (digits2_pos_bounds mx) as Hb. rewrite Hd in Hb.
  assert (Hr : 2 ^ 52 <= shr_m r < 2 ^ 53).
  { unfold r. rewrite shr_by_m; [ | exact Hk | rewrite shr_m_record_of; lia ].
    rewrite shr_m_record_of.
    replace (53 + k - 1) with (52 + k) in Hb by lia.
    rewrite !Z.pow_add_r in Hb by lia.
    assert (0 < 2 ^ k) by (apply Z.pow_pos_nonneg; lia).
    split.
    - apply Z.div_le_lower_bound; lia.
    - apply Z.div_lt_upper_bound; lia. }
  split; [ exact Hr | ].
  unfold binary_round_aux.
  assert (Hfirst : shr_fexp 53 1024 (Zpos mx) ex lx = (r, ex + k)).
  { unfold shr_fexp. cbn [Zdigits2]. rewrite Hd.
    rewrite fexp_normal by lia.
    replace (53 + k + ex - 53 - ex) with k by lia.
    unfold shr, r, shr_by. destruct k as [ | p | p ]; try reflexivity.
    - now rewrite Z.add_0_r.
    - lia. }
  rewrite Hfirst. fold m'.
  pose proof (round_nearest_even_range (shr_m r) (loc_of_shr_record r)) as Hm'.
  fold m' in Hm'. clearbody m'.
  destruct m' as [ | q | q ]; [ lia | | lia ].
  destruct (Z.ltb_spec (Zpos q) (2 ^ 53)) as [Hlt | Hge].
  - assert (Hdq : Zpos (digits2_pos q) = 53).
    { apply digits2_pos_unique. change (53 - 1) with 52. lia. }
    unfold shr_fexp. cbn [Zdigits2]. rewrite Hdq.
    rewrite fexp_normal by lia.
    replace (53 + (ex + k) - 53 - (ex + k)) with 0 by lia.
    cbn [shr shr_record_of_loc shr_m].
    replace (ex + k <=? 1024 - 53) with true by (symmetry; apply Z.leb_le; lia).
    reflexivity.
  - assert (Heq : Zpos q = 2 ^ 53) by lia.
    injection Heq as ->.
    unfold shr_fexp. cbn [Zdigits2].
    match goal with
    | |- context [Zpos (digits2_pos ?p)] =>
        let d := eval vm_compute in (Zpos (digits2_pos p)) in
        change (Zpos (digits2_pos p)) with d
    end.
    rewrite fexp_normal by lia.
    replace (54 + (ex + k) - 53 - (ex + k)) with 1 by lia.
    cbn [shr shr_record_of_loc iter_pos shr_1 shr_m].
    replace (ex + k + 1 <=? 1024 - 53) with true by (symmetry; apply Z.leb_le; lia).
    reflexivity.
Qed.

Lemma iter_xO :
  forall (n p : positive), Zpos (Pos.iter xO p n) = Zpos p * 2 ^ Zpos n.
Proof.
  intros n p. induction n as [ | n IH] using Pos.peano_ind.
  - cbn. lia.
  - rewrite Pos.iter_succ, Pos2Z.inj_xO, IH, Pos2Z.inj_succ, Z.pow_succ_r by lia. lia.
Qed.

(** [float64(z)] for 0 < z < 2^53 is exact. *)
Lemma of_int_small :
  forall z : Z,
    0 < z < 2 ^ 53 ->
    exists (m : positive) (e : Z),
      float64.of_int z = S754_finite false m e
      /\ - 52 <= e <= 0
      /\ Zpos m = z * 2 ^ (- e)
      /\ 2 ^ 52 <= Zpos m < 2 ^ 53.
Proof.
  intros z [Hz Hhi]. destruct z as [ | p | p ]; [ lia | | lia ].
  unfold float64.of_int, binary_normalize, binary_round, float64.prec, float64.emax.
  pose proof (digits2_pos_bounds p) as Hb.
  set (d := Zpos (digits2_pos p)) in *.
  assert (Hd : 1 <= d <= 53).
  { split; [ unfold d; lia | ].
    destruct (Z.leb_spec d 53) as [ | Hgt]; [ assumption | exfalso ].
    assert (2 ^ 53 <= 2 ^ (d - 1)) by (apply Z.pow_le_mono_r; lia). lia. }
  rewrite Z.add_0_r, fexp_normal by lia.
  assert (Hal : exists mz : positive,
             shl_align p 0 (d - 53) = (mz, d - 53)
             /\ Zpos mz = Zpos p * 2 ^ (53 - d)).
  { unfold shl_align. rewrite Z.sub_0_r.
    destruct (d - 53) as [ | q | q ] eqn:Hq.
    - exists p. split; [ reflexivity | ].
      replace (53 - d) with 0 by lia. lia.
    - lia.
    - exists (Pos.iter xO p q). split; [ reflexivity | ].
      rewrite iter_xO. f_equal. f_equal. lia. }
  destruct Hal as [mz [-> Hmz]].
  assert (Hrange : 2 ^ 52 <= Zpos mz < 2 ^ 53).
  { rewrite Hmz.
    replace (2 ^ 52) with (2 ^ (d - 1) * 2 ^ (53 - d))
      by (rewrite <- Z.pow_add_r by lia; f_equal; lia).
    replace (2 ^ 53) with (2 ^ d * 2 ^ (53 - d))
      by (rewrite <- Z.pow_add_r by lia; f_equal; lia).
    assert (0 < 2 ^ (53 - d)) by (apply Z.pow_pos_nonneg; lia).
    nia. }
  assert (Hdz : Zpos (digits2_pos mz) = 53 + 0).
  { apply digits2_pos_unique. change (53 + 0 - 1) with 52. change (53 + 0) with 53. lia. }
  destruct (binary_round_aux_pos mz (d - 53) loc_Exact 0 Hdz) as [_ Heq]; try lia.
  rewrite Heq. cbn [shr_by shr_record_of_loc shr_m loc_of_shr_record round_nearest_even].
  replace (Zpos mz <? 2 ^ 53) with true by (symmetry; apply Z.ltb_lt; lia).
  exists mz, (d - 53). rewrite Z.add_0_r.
  split; [ reflexivity | ]. split; [ lia | ]. split; [ | exact Hrange ].
  rewrite Hmz. f_equal. f_equal. lia.
Qed.

(** [float64(z)] for 2^53 <= z < 2^63 is at least 2^53. *)
Lemma of_int_large :
  forall z : Z,
    2 ^ 53 <= z < 2 ^ 63 ->
    exists (m : positive) (e : Z),
      float64.of_int z = S754_finite false m e
      /\ 1 <= e <= 11
      /\ 2 ^ 52 <= Zpos m < 2 ^ 53.
Proof.
  intros z [Hlo Hhi]. destruct z as [ | p | p ]; [ lia | | lia ].
  unfold float64.of_int, binary_normalize, binary_round, float64.prec, float64.emax.
  pose proof (digits2_pos_bounds p) as Hb.
  set (d := Zpos (digits2_pos p)) in *.
  assert (Hd : 54 <= d <= 63).
  { split.
    - destruct (Z.leb_spec 54 d) as [ | Hlt]; [ assumption | exfalso ].
      assert (2 ^ d <= 2 ^ 53) by (apply Z.pow_le_mono_r; lia). lia.
    - destruct (Z.leb_spec d 63) as [ | Hgt]; [ assumption | exfalso ].
      assert (2 ^ 63 <= 2 ^ (d - 1)) by (apply Z.pow_le_mono_r; lia). lia. }
  rewrite Z.add_0_r, fexp_normal by lia.
  assert (Hal : shl_align p 0 (d - 53) = (p, 0)).
  { unfold shl_align. rewrite Z.sub_0_r.
    destruct (d - 53) as [ | q | q ] eqn:Hq; try reflexivity. lia. }
  rewrite Hal.
  assert (Hdz : Zpos (digits2_pos p) = 53 + (d - 53)) by (fold d; lia).
  destruct (binary_round_aux_pos p 0 loc_Exact (d - 53) Hdz) as [Hr Heq]; try lia.
  rewrite Heq.
  set (r := shr_by (d - 53) (shr_record_of_loc (Zpos p) loc_Exact)) in *.
  pose proof (round_nearest_even_range (shr_m r) (loc_of_shr_record r)) as Hm.
  set (m' := round_nearest_even (shr_m r) (loc_of_shr_record r)) in *.
  destruct (Z.ltb_spec m' (2 ^ 53)) as [Hlt | Hge].
  - exists (Z.to_pos m'), (0 + (d - 53)). split; [ reflexivity | ].
    split; [ lia | ]. rewrite Z2Pos.id by lia. lia.
  - exists (2 ^ 52)%positive, (0 + (d - 53) + 1). split; [ reflexivity | ].
    split; [ lia | ]. cbn. lia.
Qed.

Lemma new_location_spec :
  forall d r : Z,
    0 < d -> 0 <= r < d ->
    new_location d r
    = if r =? 0 then loc_Exact
      else loc_Inexact (match 2 * r ?= d with Lt => Lt | Eq => Eq | Gt => Gt end).
Proof.
  intros d r Hd Hr. unfold new_location.
  destruct (Z.even d) eqn:He.
  - unfold new_location_even. destruct (r =? 0); [ reflexivity | ].
    destruct (2 * r ?= d); reflexivity.
  - unfold new_location_odd. destruct (r =? 0); [ reflexivity | ].
    f_equal.
    assert (Hodd : Z.odd d = true) by (rewrite <- Z.negb_even, He; reflexivity).
    apply Z.odd_spec in Hodd. destruct Hodd as [c Hc].
    destruct (Z.compare_spec (2 * r + 1) d); destruct (Z.compare_spec (2 * r) d);
      try reflexivity; lia.
Qed.

(** The rounded mantissa when no digit is dropped. *)
Lemma round_unshifted :
  forall q d r : Z,
    0 < d -> 0 <= r < d -> 0 <= q ->
    round_nearest_even q (new_location d r) = nearest_even (q * d + r) d.
Proof.
  intros q d r Hd Hr Hq.
  rewrite new_location_spec by assumption.
  unfold nearest_even.
  assert (Hdiv : (q * d + r) / d = q).
  { symmetry. apply Z.div_unique with (r := r); lia. }
  assert (Hmod : (q * d + r) mod d = r).
  { symmetry. apply Z.mod_unique with (q := q); lia. }
  cbv zeta. rewrite Hdiv, Hmod.
  destruct (r =? 0); [ reflexivity | ].
  destruct (2 * r ?= d); reflexivity.
Qed.

(** The rounded mantissa when one digit is dropped. *)
Lemma round_shifted :
  forall q d r : Z,
    0 < d -> 0 <= r < d -> 0 <= q ->
    let rec := shr_1 (shr_record_of_loc q (new_location d r)) in
    round_nearest_even (shr_m rec) (loc_of_shr_record rec)
    = nearest_even (q * d + r) (2 * d).
Proof.
  intros q d r Hd Hr Hq rec.
  assert (Hm : shr_m rec = q / 2).
  { unfold rec. rewrite shr_1_m; rewrite shr_m_record_of; [ reflexivity | exact Hq ]. }
  assert (Hrb : shr_r rec = Z.odd q).
  { unfold rec. rewrite shr_1_r; rewrite shr_m_record_of; [ reflexivity | exact Hq ]. }
  assert (Hsb : shr_s rec = negb (r =? 0)).
  { unfold rec. rewrite shr_1_s. rewrite new_location_spec by assumption.
    destruct (r =? 0); [ reflexivity | ].
    destruct (2 * r ?= d); reflexivity. }
  destruct rec as [m rb sb]. cbn [shr_m shr_r shr_s] in Hm, Hrb, Hsb. subst m rb sb.
  unfold nearest_even. cbv zeta.
  pose proof (Z.div_mod q 2 ltac:(lia)) as Hq2.
  pose proof (Z.mod_pos_bound q 2 ltac:(lia)) as Hq2b.
  assert (Hdiv : (q * d + r) / (2 * d) = q / 2).
  { symmetry. apply Z.div_unique with (r := (q mod 2) * d + r); nia. }
  assert (Hmod : (q * d + r) mod (2 * d) = (q mod 2) * d + r).
  { symmetry. apply Z.mod_unique with (q := q / 2); nia. }
  rewrite Hdiv, Hmod.
  assert (Hodd : Z.odd q = (q mod 2 =? 1))
    by (rewrite Zmod_odd; destruct (Z.odd q); reflexivity).
  rewrite Hodd.
  destruct (Z.eq_dec (q mod 2) 0) as [H0 | H1].
  - rewrite H0. replace (0 * d + r) with r by lia. change (0 =? 1) with false.
    destruct (Z.eqb_spec r 0) as [-> | Hr0]; cbn [negb loc_of_shr_record round_nearest_even].
    + reflexivity.
    + replace (2 * r ?= 2 * d) with Lt by (symmetry; apply Z.compare_lt_iff; lia).
      reflexivity.
  - assert (Hone : q mod 2 = 1) by lia. rewrite Hone. change (1 =? 1) with true.
    replace (1 * d + r =? 0) with false by (symmetry; apply Z.eqb_neq; lia).
    destruct (Z.eqb_spec r 0) as [-> | Hr0]; cbn [negb loc_of_shr_record round_nearest_even].
    + replace (2 * (1 * d + 0) ?= 2 * d) with Eq by (symmetry; apply Z.compare_eq_iff; lia).
      reflexivity.
    + replace (2 * (1 * d + r) ?= 2 * d) with Gt by (symmetry; apply Z.compare_gt_iff; lia).
      reflexivity.
Qed.

(** The quotient of two positive floats with full mantissas. *)
Lemma div_normal :
  forall (m1 m2 : positive) (e1 e2 : Z),
    2 ^ 52 <= Zpos m1 < 2 ^ 53 -> 2 ^ 52 <= Zpos m2 < 2 ^ 53 ->
    - 60 <= e1 <= 60 -> - 60 <= e2 <= 60 ->
    exists (k : Z) (mf : positive) (ef : Z),
      0 <= k <= 1
      /\ 2 ^ 52 <= (Zpos m1 * 2 ^ 53) / (Zpos m2 * 2 ^ k) < 2 ^ 53
      /\ float64.div (S754_finite false m1 e1) (S754_finite false m2 e2)
         = S754_finite false mf ef
      /\ - 180 <= ef <= 180
      /\ Zpos mf * 2 ^ (ef + 200)
         = nearest_even (Zpos m1 * 2 ^ 53) (Zpos m2 * 2 ^ k)
           * 2 ^ (e1 - e2 - 53 + k + 200).
Proof.
  intros m1 m2 e1 e2 Hm1 Hm2 He1 He2.
  unfold float64.div, SFdiv, SFdiv_core_binary, float64.prec, float64.emax.
  cbn [Zdigits2 xorb].
  rewrite (digits2_pos_unique m1 53) by (change (53 - 1) with 52; lia).
  rewrite (digits2_pos_unique m2 53) by (change (53 - 1) with 52; lia).
  rewrite fexp_normal by lia.
  replace (Z.min (53 + e1 - (53 + e2) - 53) (e1 - e2)) with (e1 - e2 - 53) by lia.
  replace (e1 - e2 - (e1 - e2 - 53)) with 53 by lia.
  rewrite Z.shiftl_mul_pow2 by lia.
  set (N := Zpos m1 * 2 ^ 53).
  pose proof (Z_div_mod N (Zpos m2) ltac:(lia)) as Hdm.
  unfold Z.div_eucl at 1 in Hdm. fold (Z.div_eucl N (Zpos m2)) in Hdm.
  destruct (Z.div_eucl N (Zpos m2)) as [Q R] eqn:HQR.
  destruct Hdm as [HN HR].
  assert (HQ : 2 ^ 52 <= Q < 2 ^ 54).
  { assert (HNlo : 2 ^ 52 * 2 ^ 53 <= N) by (unfold N; nia).
    assert (HNhi : N < 2 ^ 53 * 2 ^ 53) by (unfold N; nia).
    split; nia. }
  destruct Q as [ | Qp | Qp ]; [ lia | | lia ].
  assert (HQdiv : N / Zpos m2 = Zpos Qp).
  { symmetry. apply Z.div_unique with (r := R); lia. }
  destruct (Z.ltb_spec (Zpos Qp) (2 ^ 53)) as [Hlt | Hge].
  - (* no digit dropped *)
    assert (Hd : Zpos (digits2_pos Qp) = 53 + 0).
    { apply digits2_pos_unique. change (53 + 0 - 1) with 52. change (53 + 0) with 53. lia. }
    destruct (binary_round_aux_pos Qp (e1 - e2 - 53) (new_location (Zpos m2) R) 0 Hd)
      as [_ Heq]; try lia.
    rewrite Heq. cbn [shr_by]. rewrite shr_m_record_of, loc_of_record_of.
    rewrite round_unshifted by lia.
    replace (Zpos Qp * Zpos m2 + R) with N by lia.
    exists 0. change (2 ^ 0) with 1. rewrite !Z.mul_1_r.
    pose proof (round_nearest_even_range (Zpos Qp) (new_location (Zpos m2) R)) as Hrng.
    rewrite round_unshifted in Hrng by lia.
    replace (Zpos Qp * Zpos m2 + R) with N in Hrng by lia.
    set (m' := nearest_even N (Zpos m2)) in *.
    destruct (Z.ltb_spec m' (2 ^ 53)) as [Hm' | Hm'].
    + exists (Z.to_pos m'), (e1 - e2 - 53 + 0).
      split; [ lia | ]. split; [ lia | ]. split; [ reflexivity | ].
      split; [ lia | ]. rewrite Z2Pos.id by lia. reflexivity.
    + exists (2 ^ 52)%positive, (e1 - e2 - 53 + 0 + 1).
      split; [ lia | ]. split; [ lia | ]. split; [ reflexivity | ].
      split; [ lia | ].
      assert (Hm'eq : m' = 2 ^ 53) by lia. rewrite Hm'eq.
      replace (e1 - e2 - 53 + 0 + 1 + 200) with (1 + (e1 - e2 - 53 + 0 + 200)) by lia.
      rewrite (Z.pow_add_r 2 1) by lia.
      change (Zpos (2 ^ 52)%positive) with (2 ^ 52). change (2 ^ 1) with 2. lia.
  - (* one digit dropped *)
    assert (Hd : Zpos (digits2_pos Qp) = 53 + 1).
    { apply digits2_pos_unique. change (53 + 1 - 1) with 53. change (53 + 1) with 54. lia. }
    destruct (binary_round_aux_pos Qp (e1 - e2 - 53) (new_location (Zpos m2) R) 1 Hd)
      as [Hsh Heq]; try lia.
    rewrite Heq.
    change (shr_by 1 (shr_record_of_loc (Zpos Qp) (new_location (Zpos m2) R)))
      with (shr_1 (shr_record_of_loc (Zpos Qp) (new_location (Zpos m2) R))) in *.
    pose proof (round_shifted (Zpos Qp) (Zpos m2) R ltac:(lia) HR ltac:(lia)) as Hrs.
    cbv zeta in Hrs. rewrite Hrs.
    pose proof (round_nearest_even_range
                  (shr_m (shr_1 (shr_record_of_loc (Zpos Qp) (new_location (Zpos m2) R))))
                  (loc_of_shr_record
                     (shr_1 (shr_record_of_loc (Zpos Qp) (new_location (Zpos m2) R)))))
      as Hrng.
    rewrite Hrs in Hrng.
    replace (Zpos Qp * Zpos m2 + R) with N in * by lia.
    exists 1. change (2 ^ 1) with 2.
    replace (Zpos m2 * 2) with (2 * Zpos m2) by lia.
    assert (Hq2 : N / (2 * Zpos m2) = Zpos Qp / 2).
    { rewrite (Z.mul_comm 2 (Zpos m2)), <- Z.div_div by lia. now rewrite HQdiv. }
    assert (Hshm : shr_m (shr_1 (shr_record_of_loc (Zpos Qp) (new_location (Zpos m2) R)))
                   = Zpos Qp / 2).
    { rewrite shr_1_m; rewrite shr_m_record_of; [ reflexivity | lia ]. }
    rewrite Hshm in Hsh, Hrng.
    set (m' := nearest_even N (2 * Zpos m2)) in *.
    destruct (Z.ltb_spec m' (2 ^ 53)) as [Hm' | Hm'].
    + exists (Z.to_pos m'), (e1 - e2 - 53 + 1).
      split; [ lia | ]. split; [ lia | ]. split; [ reflexivity | ].
      split; [ lia | ]. rewrite Z2Pos.id by lia. reflexivity.
    + exists (2 ^ 52)%positive, (e1 - e2 - 53 + 1 + 1).
      split; [ lia | ]. split; [ lia | ]. split; [ reflexivity | ].
      split; [ lia | ].
      assert (Hm'eq : m' = 2 ^ 53) by lia. rewrite Hm'eq.
      replace (e1 - e2 - 53 + 1 + 1 + 200) with (1 + (e1 - e2 - 53 + 1 + 200)) by lia.
      rewrite (Z.pow_add_r 2 1) by lia.
      change (Zpos (2 ^ 52)%positive) with (2 ^ 52). change (2 ^ 1) with 2. lia.
Qed.

Lemma nearest_even_cases :
  forall n d : Z,
    0 < d ->
    (n mod d = 0 /\ nearest_even n d = n / d)
    \/ (0 < n mod d /\ 2 * (n mod d) <= d /\ n / d <= nearest_even n d <= n / d + 1)
    \/ (d < 2 * (n mod d) /\ nearest_even n d = n / d + 1).
Proof.
  intros n d Hd. unfold nearest_even. cbv zeta.
  pose proof (Z.mod_pos_bound n d Hd) as Hm.
  destruct (Z.eqb_spec (n mod d) 0) as [H0 | H0]; [ left; split; [ exact H0 | reflexivity ] | ].
  right.
  destruct (Z.compare_spec (2 * (n mod d)) d) as [He | Hl | Hg].
  - left. split; [ lia | ]. split; [ lia | ]. destruct (Z.even (n / d)); lia.
  - left. split; [ lia | ]. split; [ lia | ]. lia.
  - right. split; [ lia | reflexivity ].
Qed.

(** The rounded quotient does not pass an integer multiple of [g] that
    bounds the exact quotient from above. *)
Lemma nearest_even_upper :
  forall n d g c : Z,
    0 < d -> 0 < g -> n <= c * d * g -> nearest_even n d <= c * g.
Proof.
  intros n d g c Hd Hg Hn.
  pose proof (Z.div_mod n d ltac:(lia)) as Hdm.
  pose proof (Z.mod_pos_bound n d Hd) as Hm.
  pose proof (nearest_even_cases n d Hd) as Hcases.
  remember (n / d) as q eqn:Eq. remember (n mod d) as r eqn:Er.
  assert (Hq : r = 0 -> q <= c * g).
  { intro Hr. assert (d * q <= d * (c * g)) by lia.
    apply Z.mul_le_mono_pos_l in H; assumption. }
  assert (Hq1 : 0 < r -> q + 1 <= c * g).
  { intro Hr. assert (d * q < d * (c * g)) by lia.
    apply Z.mul_lt_mono_pos_l in H; [ lia | assumption ]. }
  destruct Hcases as [[H0 ->] | [[H1 [_ H2]] | [H1 ->]]]; lia.
Qed.

(** The rounded quotient of a scaled fraction t/p stays above every integer
    multiple of the scale that the fraction exceeds, as long as the
    numerator fits 53 bits. *)
Lemma nearest_even_lower :
  forall n d g t p c : Z,
    0 < d -> 0 < g -> 0 < p -> 0 <= c ->
    c * p < t -> t <= 2 ^ 53 ->
    n * p = t * d * g ->
    2 ^ 52 <= n / d ->
    c * g < nearest_even n d.
Proof.
  intros n d g t p c Hd Hg Hp Hc Hct Ht Hid Hq52.
  pose proof (Z.div_mod n d ltac:(lia)) as Hdm.
  pose proof (Z.mod_pos_bound n d Hd) as Hm.
  pose proof (nearest_even_cases n d Hd) as Hcases.
  remember (n / d) as q eqn:Eq. remember (n mod d) as r eqn:Er.
  assert (Hnd : c * g * d < n).
  { assert (H : (c * g * d) * p < n * p).
    { rewrite Hid. replace (c * g * d * p) with ((c * p) * (d * g)) by ring.
      replace (t * d * g) with (t * (d * g)) by ring.
      apply Z.mul_lt_mono_pos_r; [ nia | exact Hct ]. }
    apply Z.mul_lt_mono_pos_r in H; assumption. }
  assert (Hqc : c * g <= q).
  { assert (H : d * (c * g) < d * (q + 1)) by lia.
    apply Z.mul_lt_mono_pos_l in H; [ lia | assumption ]. }
  destruct (Z.eq_dec q (c * g)) as [Heq | Hne].
  - (* the quotient starts at the multiple: the remainder is above one half *)
    assert (Hrp : d * g <= r * p).
    { assert (H : r * p = (t - c * p) * (d * g)).
      { replace (r * p) with (n * p - d * q * p) by lia. rewrite Hid, Heq. ring. }
      rewrite H. assert (1 <= t - c * p) by lia. nia. }
    assert (Hc1 : 1 <= c) by nia.
    assert (Hp2g : p < 2 * g).
    { assert (H : c * p < c * (2 * g)) by nia.
      apply Z.mul_lt_mono_pos_l in H; [ exact H | lia ]. }
    assert (Hhalf : d < 2 * r).
    { assert (H : p * d < p * (2 * r)) by nia.
      apply Z.mul_lt_mono_pos_l in H; assumption. }
    destruct Hcases as [[H0 _] | [[_ [H1 _]] | [_ ->]]]; lia.
  - destruct Hcases as [[_ ->] | [[_ [_ H2]] | [_ ->]]]; lia.
Qed.

Lemma to_int_of_int :
  forall c : Z, 0 < c <= 2 ^ 53 -> float64.to_int (float64.of_int c) = Some c.
Proof.
  intros c Hc.
  destruct (Z.eq_dec c (2 ^ 53)) as [-> | Hne]; [ vm_compute; reflexivity | ].
  destruct (of_int_small c ltac:(lia)) as [m [e [-> [He [Hm Hr]]]]].
  unfold float64.to_int.
  assert (Hpow : 0 < 2 ^ (- e)) by (apply Z.pow_pos_nonneg; lia).
  assert (Hval : (if 0 <=? e then Zpos m * 2 ^ e else Zpos m / 2 ^ (- e)) = c).
  { destruct (Z.leb_spec 0 e) as [H0 | H0].
    - assert (e = 0) by lia. subst e. cbn in Hm. change (2 ^ 0) with 1. lia.
    - rewrite Hm. apply Z.div_mul. lia. }
  cbv zeta. rewrite Hval.
  replace ((- 2 ^ 63 <=? c) && (c <? 2 ^ 63)) with true; [ reflexivity | ].
  symmetry. apply andb_true_intro. split; [ apply Z.leb_le | apply Z.ltb_lt ]; lia.
Qed.

(** [int(math.Ceil(x))] for a positive float whose value, scaled by 2^200,
    lies in ((c - 1) 2^200, c 2^200]. *)
Lemma to_int_Ceil :
  forall (m : positive) (e c : Z),
    - 180 <= e <= 180 -> 0 < c <= 2 ^ 53 ->
    (c - 1) * 2 ^ 200 < Zpos m * 2 ^ (e + 200) <= c * 2 ^ 200 ->
    float64.to_int (float64.Ceil (S754_finite false m e)) = Some c.
Proof.
  intros m e c He Hc Hv.
  unfold float64.Ceil.
  destruct (Z.leb_spec 0 e) as [H0 | H0].
  - unfold float64.to_int.
    replace (0 <=? e) with true by (symmetry; apply Z.leb_le; lia).
    rewrite Z.pow_add_r in Hv by lia.
    assert (Hpos : 0 < 2 ^ 200) by (apply Z.pow_pos_nonneg; lia).
    assert (Heq : Zpos m * 2 ^ e = c) by nia.
    cbv zeta. rewrite Heq.
    replace ((- 2 ^ 63 <=? c) && (c <? 2 ^ 63)) with true; [ reflexivity | ].
    symmetry. apply andb_true_intro. split; [ apply Z.leb_le | apply Z.ltb_lt ]; lia.
  - assert (Hsplit : 2 ^ 200 = 2 ^ (- e) * 2 ^ (e + 200))
      by (rewrite <- Z.pow_add_r by lia; f_equal; lia).
    assert (Hp1 : 0 < 2 ^ (- e)) by (apply Z.pow_pos_nonneg; lia).
    assert (Hp2 : 0 < 2 ^ (e + 200)) by (apply Z.pow_pos_nonneg; lia).
    rewrite Hsplit in Hv.
    assert (Hlo : (c - 1) * 2 ^ (- e) < Zpos m) by nia.
    assert (Hhi : Zpos m <= c * 2 ^ (- e)) by nia.
    assert (Hn : - (- Zpos m / 2 ^ (- e)) = c).
    { assert (H : - Zpos m / 2 ^ (- e) = - c).
      { symmetry. apply Z.div_unique with (r := c * 2 ^ (- e) - Zpos m); lia. }
      lia. }
    cbv zeta. rewrite Hn. apply to_int_of_int. exact Hc.
Qed.


Lemma exact_ceiling_spec :
  forall t p : Z, 0 < p ->
    (exact_ceiling t p - 1) * p < t <= exact_ceiling t p * p.
Proof.
  intros t p Hp. unfold exact_ceiling.
  pose proof (Z.div_mod (- t) p ltac:(lia)) as Hdm.
  pose proof (Z.mod_pos_bound (- t) p Hp) as Hm.
  nia.
Qed.

Lemma exact_ceiling_unique :
  forall t p c : Z, 0 < p -> (c - 1) * p < t <= c * p -> exact_ceiling t p = c.
Proof.
  intros t p c Hp Hc. pose proof (exact_ceiling_spec t p Hp) as Hs.
  assert (exact_ceiling t p - 1 < c) by nia.
  assert (c - 1 < exact_ceiling t p) by nia.
  lia.
Qed.

Lemma nearest_even_ge :
  forall n d : Z, 0 < d -> n / d <= nearest_even n d.
Proof.
  intros n d Hd.
  destruct (nearest_even_cases n d Hd) as [[_ ->] | [[_ [_ H]] | [_ ->]]]; lia.
Qed.

(** [float64(t)] for 0 < t <= 2^53 is exact. *)
Lemma of_int_exact :
  forall t : Z,
    0 < t <= 2 ^ 53 ->
    exists (m : positive) (e : Z),
      float64.of_int t = S754_finite false m e
      /\ - 52 <= e <= 1
      /\ Zpos m * 2 ^ (e + 52) = t * 2 ^ 52
      /\ 2 ^ 52 <= Zpos m < 2 ^ 53.
Proof.
  intros t Ht.
  destruct (Z.eq_dec t (2 ^ 53)) as [-> | Hne].
  - exists (2 ^ 52)%positive, 1. repeat split; try reflexivity; try lia; discriminate.
  - destruct (of_int_small t ltac:(lia)) as [m [e [Heq [He [Hm Hr]]]]].
    exists m, e. split; [ exact Heq | ]. split; [ lia | ]. split; [ | exact Hr ].
    rewrite Hm. rewrite <- Z.mul_assoc, <- Z.pow_add_r by lia.
    f_equal. f_equal. lia.
Qed.

(** C9, as the code has it. For every total from 0 to 2^53 and every
    [perPage] of the range of [int], with a [perPage] of at most 0 taken as
    10, [CalculatePagination] returns the exact integer ceiling of the
    total divided by [perPage]. *)
Theorem CalculatePagination_exact_up_to_2_53 :
  forall total page perPage : Z,
    0 <= total <= 2 ^ 53 -> - 2 ^ 63 <= perPage < 2 ^ 63 ->
    user.CalculatePagination total page perPage
    = Some (exact_ceiling total (if perPage <=? 0 then 10 else perPage)).
Proof.
  intros t page perPage Ht Hpp.
  unfold user.CalculatePagination. cbv zeta.
  set (p := if perPage <=? 0 then 10 else perPage).
  assert (Hp : 0 < p < 2 ^ 63).
  { unfold p. destruct (Z.leb_spec perPage 0); lia. }
  clearbody p. clear perPage Hpp page.
  (* the divisor as a float *)
  assert (Hfp : exists (m2 : positive) (e2 : Z),
             float64.of_int p = S754_finite false m2 e2
             /\ 2 ^ 52 <= Zpos m2 < 2 ^ 53
             /\ ((p < 2 ^ 53 /\ - 52 <= e2 <= 0 /\ Zpos m2 * 2 ^ (e2 + 52) = p * 2 ^ 52)
                 \/ (2 ^ 53 <= p /\ 1 <= e2 <= 11))).
  { destruct (Z.ltb_spec p (2 ^ 53)) as [Hs | Hl].
    - destruct (of_int_exact p ltac:(lia)) as [m [e [Heq [He [Hm Hr]]]]].
      exists m, e. split; [ exact Heq | ]. split; [ exact Hr | ]. left.
      split; [ exact Hs | ]. split; [ | exact Hm ].
      split; [ lia | ].
      destruct (Z.leb_spec e 0) as [ | He1]; [ assumption | exfalso ].
      assert (e = 1) by lia. subst e. change (2 ^ (1 + 52)) with (2 * 2 ^ 52) in Hm. lia.
    - destruct (of_int_large p ltac:(lia)) as [m [e [Heq [He Hr]]]].
      exists m, e. split; [ exact Heq | ]. split; [ exact Hr | ]. right. lia. }
  destruct Hfp as [m2 [e2 [Hp_eq [Hm2 Hp_val]]]].
  destruct (Z.eq_dec t 0) as [-> | Ht0].
  - (* nothing to page *)
    rewrite Hp_eq. unfold exact_ceiling. cbn [Z.opp]. rewrite Z.div_0_l by lia.
    reflexivity.
  - destruct (of_int_exact t ltac:(lia)) as [m1 [e1 [Ht_eq [He1 [Ht_val Hm1]]]]].
    rewrite Ht_eq, Hp_eq.
    destruct (div_normal m1 m2 e1 e2 Hm1 Hm2 ltac:(lia) ltac:(lia))
      as [k [mf [ef [Hk [HQ [Hdiv [Hef Hval]]]]]]].
    rewrite Hdiv.
    pose proof (exact_ceiling_spec t p ltac:(lia)) as Hceil.
    set (c := exact_ceiling t p) in *.
    assert (Hc : 0 < c <= 2 ^ 53) by nia.
    set (N := Zpos m1 * 2 ^ 53) in *.
    set (D := Zpos m2 * 2 ^ k) in *.
    assert (HD : 0 < D).
    { unfold D. assert (0 < 2 ^ k) by (apply Z.pow_pos_nonneg; lia). nia. }
    destruct (Z.eq_dec (e1 - e2 - 53 + k) 1) as [Hg1 | Hg1].
    + (* 2^53 items on pages of one *)
      assert (e1 = 1 /\ e2 = - 52 /\ k = 1) as [-> [-> ->]] by lia.
      destruct Hp_val as [[_ [_ Hpv]] | [_ Hbad]]; [ | lia ].
      change (2 ^ (-52 + 52)) with 1 in Hpv.
      change (2 ^ (1 + 52)) with (2 * 2 ^ 52) in Ht_val.
      assert (p = 1) by lia. assert (t = 2 ^ 53) by lia. subst p t.
      rewrite <- Hdiv, <- Ht_eq, <- Hp_eq. vm_compute. reflexivity.
    + assert (Hg : e1 - e2 - 53 + k <= 0) by lia.
      set (g := e1 - e2 - 53 + k) in *.
      set (G := 2 ^ (- g)).
      assert (HG : 0 < G) by (apply Z.pow_pos_nonneg; lia).
      assert (Hscale : 2 ^ 200 = G * 2 ^ (g + 200))
        by (unfold G; rewrite <- Z.pow_add_r by lia; f_equal; lia).
      assert (HS : 0 < 2 ^ (g + 200)) by (apply Z.pow_pos_nonneg; lia).
      assert (Hbounds : (c - 1) * G < nearest_even N D <= c * G).
      { destruct Hp_val as [[Hps [He2 Hpv]] | [Hpl He2]].
        - (* an exact divisor *)
          assert (Hid : N * p = t * D * G).
          { assert (Hpow : 2 ^ 53 * 2 ^ (e2 + 52) = 2 ^ (e1 + 52) * 2 ^ k * G).
            { unfold G, g. rewrite <- !Z.pow_add_r by lia. f_equal. lia. }
            assert (H : N * p * 2 ^ 52 = t * D * G * 2 ^ 52).
            { unfold N, D.
              replace (Zpos m1 * 2 ^ 53 * p * 2 ^ 52)
                with (Zpos m1 * 2 ^ 53 * (p * 2 ^ 52)) by ring.
              rewrite <- Hpv.
              replace (t * (Zpos m2 * 2 ^ k) * G * 2 ^ 52)
                with (t * 2 ^ 52 * (Zpos m2 * 2 ^ k * G)) by ring.
              rewrite <- Ht_val.
              replace (Zpos m1 * 2 ^ 53 * (Zpos m2 * 2 ^ (e2 + 52)))
                with (Zpos m1 * Zpos m2 * (2 ^ 53 * 2 ^ (e2 + 52))) by ring.
              rewrite Hpow. ring. }
            apply Z.mul_reg_r in H; [ exact H | lia ]. }
          split.
          + apply nearest_even_lower with (t := t) (p := p); try lia.
          + apply nearest_even_upper; try lia.
            assert (H : N * p <= c * D * G * p).
            { rewrite Hid. replace (c * D * G * p) with (c * p * (D * G)) by ring.
              replace (t * D * G) with (t * (D * G)) by ring.
              apply Z.mul_le_mono_nonneg_r; nia. }
            apply Z.mul_le_mono_pos_r in H; lia.
        - (* a divisor beyond every total *)
          assert (Hc1 : c = 1).
          { apply exact_ceiling_unique; lia. }
          rewrite Hc1. split.
          + pose proof (nearest_even_ge N D HD). lia.
          + apply nearest_even_upper; try lia.
            replace (1 * D * G) with (D * G) by ring.
            unfold N, D, G, g.
            replace (Zpos m2 * 2 ^ k * 2 ^ (- (e1 - e2 - 53 + k)))
              with (Zpos m2 * 2 ^ (53 + (e2 - e1))).
            2:{ rewrite <- Z.mul_assoc, <- Z.pow_add_r by lia. f_equal. f_equal. lia. }
            rewrite Z.pow_add_r by lia.
            destruct (Z.eq_dec e1 1) as [-> | Hne].
            * change (2 ^ (1 + 52)) with (2 * 2 ^ 52) in Ht_val.
              assert (Zpos m1 = 2 ^ 52) by lia.
              assert (0 < 2 ^ (e2 - 1)) by (apply Z.pow_pos_nonneg; lia).
              nia.
            * assert (2 ^ 1 <= 2 ^ (e2 - e1)) by (apply Z.pow_le_mono_r; lia).
              change (2 ^ 1) with 2 in *. nia. }
      apply to_int_Ceil; [ lia | exact Hc | ].
      rewrite Hval. fold N D g. rewrite Hscale.
      split; nia.
Qed.

Lemma CalculatePagination_exact_up_to_2_53_witness :
  0 <= 25 <= 2 ^ 53
  /\ - 2 ^ 63 <= 10 < 2 ^ 63
  /\ user.CalculatePagination 25 1 10
     = Some (exact_ceiling 25 (if 10 <=? 0 then 10 else 10)).
Proof.
  assert (H1 : 0 <= 25 <= 2 ^ 53) by (split; discriminate).
  assert (H2 : - 2 ^ 63 <= 10 < 2 ^ 63) by (split; [ discriminate | reflexivity ]).
  split; [ exact H1 | ]. split; [ exact H2 | ].
  exact (CalculatePagination_exact_up_to_2_53 25 1 10 H1 H2).
Defined.

(** The two page counts the specification names, and a non-positive page
    size. *)
Example CalculatePagination_named_cases :
  user.CalculatePagination 0 1 10 = Some 0
  /\ user.CalculatePagination 25 1 10 = Some 3
  /\ user.CalculatePagination 25 1 0 = Some 3.
Proof. vm_compute. repeat split; reflexivity. Qed.

(** C9, as it is stated, fails beyond 2^53: for a total of 2^53 + 1 and a
    page size of 1 the conversion to [float64] rounds the total to 2^53,
    and the page count is one short of the exact ceiling. *)
Lemma CalculatePagination_inexact_beyond_2_53 :
  user.CalculatePagination (2 ^ 53 + 1) 1 1 = Some (2 ^ 53)
  /\ exact_ceiling (2 ^ 53 + 1) 1 = 2 ^ 53 + 1
  /\ user.CalculatePagination (2 ^ 53 + 1) 1 1
     <> Some (exact_ceiling (2 ^ 53 + 1) (if 1 <=? 0 then 10 else 1)).
Proof.
  split; [ vm_compute; reflexivity | ].
  split; [ vm_compute; reflexivity | ].
  vm_compute. discriminate.
Qed.

(** * Further properties of the code *)

(** ** The listing of the repository *)

Lemma plan_name_ilike :
  forall (rt : Runtime) (s : string),
    gorm.plan ("name" ++ " ILIKE ?", gorm.AText s) = Ok (gorm.NameILike s).
Proof. reflexivity. Qed.

Lemma plan_email_ilike :
  forall (rt : Runtime) (s : string),
    gorm.plan ("email" ++ " ILIKE ?", gorm.AText s) = Ok (gorm.EmailILike s).
Proof. reflexivity. Qed.

Lemma plan_all_app :
  forall (rt : Runtime) (cs : list (string * gorm.Arg)) (c : string * gorm.Arg)
         (ps : list gorm.Pred) (p : gorm.Pred),
    gorm.plan_all cs = Ok ps ->
    gorm.plan c = Ok p ->
    gorm.plan_all (cs ++ [c])%list = Ok (ps ++ [p])%list.
Proof.
  intros rt cs. induction cs as [ | a cs IH ]; intros c ps p Hcs Hc.
  - cbn in Hcs. injection Hcs as <-. cbn [app gorm.plan_all]. now rewrite Hc.
  - cbn [app gorm.plan_all] in *.
    destruct (gorm.plan a) as [q | ]; [ | discriminate ].
    destruct (gorm.plan_all cs) as [qs | ] eqn:Hqs; [ | discriminate ].
    injection Hcs as <-.
    now rewrite (IH c qs p eq_refl Hc).
Qed.

(** The statement of a list query is one the database can run; it selects
    the rows that satisfy the conditions of the query. *)
Lemma GetUsers_statement_plan :
  forall (rt : Runtime) (query : ListUsersQuery),
    gorm.unscoped (user.userRepository_GetUsers_statement query) = ShowDeleted query
    /\ gorm.plan_all (gorm.clauses (user.userRepository_GetUsers_statement query))
       = Ok (conditions_of query).
Proof.
  intros rt query.
  unfold user.userRepository_GetUsers_statement, conditions_of.
  set (s0 := if ShowDeleted query
             then gorm.Unscoped (gorm.Model gorm.OfUserModel gorm.Session)
             else gorm.Model gorm.OfUserModel gorm.Session).
  assert (H0 : gorm.unscoped s0 = ShowDeleted query
               /\ gorm.plan_all (gorm.clauses s0) = Ok []).
  { subst s0. destruct (ShowDeleted query); split; reflexivity. }
  set (c1 := (if negb (Search query =? "")%string && negb (SearchBy query =? "")%string then
      if (SearchBy query =? "name")%string
      then [gorm.NameILike ("%" ++ Search query ++ "%")]
      else if (SearchBy query =? "email")%string
      then [gorm.EmailILike ("%" ++ Search query ++ "%")]
      else []
    else [])).
  set (s1 := if negb (Search query =? "")%string && negb (SearchBy query =? "")%string
             then _ else s0).
  assert (H1 : gorm.unscoped s1 = ShowDeleted query
               /\ gorm.plan_all (gorm.clauses s1) = Ok c1).
  { subst s1 c1. destruct H0 as [Hu Hp].
    destruct (negb (Search query =? "")%string && negb (SearchBy query =? "")%string);
      [ | now split ].
    unfold user.AllowedSearchFields.
    destruct (SearchBy query =? "name")%string eqn:Hn.
    - apply String.eqb_eq in Hn. rewrite Hn. cbn [orb]. split; [ exact Hu | ].
      cbn [gorm.Where gorm.clauses].
      apply (plan_all_app rt _ _ [] _ Hp). apply plan_name_ilike.
    - destruct (SearchBy query =? "email")%string eqn:He.
      + apply String.eqb_eq in He. rewrite He. cbn [orb]. split; [ exact Hu | ].
        cbn [gorm.Where gorm.clauses].
        apply (plan_all_app rt _ _ [] _ Hp). apply plan_email_ilike.
      + cbn [orb]. now split. }
  clearbody s1 c1. clear H0 s0.
  set (c2 := if negb (q_Role query =? "")%string then [gorm.RoleEq (q_Role query)] else []).
  set (s2 := if negb (q_Role query =? "")%string then _ else s1).
  assert (H2 : gorm.unscoped s2 = ShowDeleted query
               /\ gorm.plan_all (gorm.clauses s2) = Ok (c1 ++ c2)%list).
  { subst s2 c2. destruct H1 as [Hu Hp].
    destruct (negb (q_Role query =? "")%string).
    - split; [ exact Hu | ]. cbn [gorm.Where gorm.clauses].
      apply (plan_all_app rt _ _ _ _ Hp). apply plan_role.
    - rewrite app_nil_r. now split. }
  clearbody s2 c2. clear H1 s1.
  set (c3 := if negb (q_Provider query =? "")%string
             then [gorm.ProviderEq (q_Provider query)] else []).
  set (s3 := if negb (q_Provider query =? "")%string then _ else s2).
  assert (H3 : gorm.unscoped s3 = ShowDeleted query
               /\ gorm.plan_all (gorm.clauses s3) = Ok (c1 ++ c2 ++ c3)%list).
  { subst s3 c3. destruct H2 as [Hu Hp].
    destruct (negb (q_Provider query =? "")%string).
    - split; [ exact Hu | ]. cbn [gorm.Where gorm.clauses].
      rewrite app_assoc.
      apply (plan_all_app rt _ _ _ _ Hp). apply plan_provider.
    - rewrite app_nil_r. now split. }
  clearbody s3 c3. clear H2 s2.
  destruct H3 as [Hu Hp].
  destruct (q_Verified query) as [v | ].
  - split; [ exact Hu | ]. cbn [gorm.Where gorm.clauses].
    rewrite !app_assoc. rewrite <- (app_assoc c1 c2 c3).
    apply (plan_all_app rt _ _ _ _ Hp). apply plan_verified.
  - rewrite !app_nil_r. now split.
Qed.

Lemma statement_set_Page :
  forall (rt : Runtime) (p : Z) (query : ListUsersQuery),
    user.userRepository_GetUsers_statement (set_Page p query)
    = user.userRepository_GetUsers_statement query.
Proof. reflexivity. Qed.

(** What [GetUsers] of the repository computes on a relation. *)
Lemma userRepository_GetUsers_run :
  forall (rt : Runtime) (query : ListUsersQuery) (db : gorm.DB),
    user.userRepository_GetUsers query db
    = (map user.scan_listed
         (gorm.page_of
            (wrap64 (((if Page query <=? 0 then 1 else Page query) - 1)
                     * (if PerPage query <=? 0 then 10 else PerPage query)))
            (if PerPage query <=? 0 then 10 else PerPage query)
            (gorm.order_created_at_desc
               (wrap64 (((if Page query <=? 0 then 1 else Page query) - 1)
                        * (if PerPage query <=? 0 then 10 else PerPage query)))
               (if PerPage query <=? 0 then 10 else PerPage query)
               (filter (gorm.selected (conditions_of query)) db))),
       Z.of_nat (List.length (filter (gorm.selected (conditions_of query)) db)),
       None, db).
Proof.
  intros rt query db.
  rewrite userRepository_GetUsers_unfold.
  destruct (GetUsers_statement_plan rt query) as [Hu Hp].
  cbv zeta. unfold bind, gorm.Count, gorm.Find, ret.
  rewrite !(GetUsers_statement_addressed rt), Hp.
  rewrite (map_ext _ user.scan_listed); [ reflexivity | ].
  intros row. apply toDomain_id.
Qed.

(** The order of the rows of a page, whatever the database does with
    rows created at the same time. *)
Lemma insert_desc_length :
  forall (before : UUID -> UUID -> bool) (u : User) (l : list User),
    List.length (gorm.insert_desc before u l) = S (List.length l).
Proof.
  intros before u l. induction l as [ | v l IH ]; [ reflexivity | ].
  cbn [gorm.insert_desc].
  destruct ((CreatedAt v <? CreatedAt u)
            || ((CreatedAt v =? CreatedAt u) && before (ID u) (ID v)));
    cbn [List.length]; congruence.
Qed.

Lemma order_created_at_desc_length :
  forall (rt : Runtime) (offset limit : Z) (l : list User),
    List.length (gorm.order_created_at_desc offset limit l) = List.length l.
Proof.
  intros rt offset limit. induction l as [ | u l IH ]; [ reflexivity | ].
  cbn [gorm.order_created_at_desc fold_right].
  fold (gorm.order_created_at_desc offset limit l).
  rewrite insert_desc_length. cbn [List.length]. congruence.
Qed.

Lemma insert_desc_In :
  forall (before : UUID -> UUID -> bool) (u x : User) (l : list User),
    In x (gorm.insert_desc before u l) <-> x = u \/ In x l.
Proof.
  intros before u x l. induction l as [ | v l IH ].
  - cbn. intuition.
  - cbn [gorm.insert_desc].
    destruct ((CreatedAt v <? CreatedAt u)
              || ((CreatedAt v =? CreatedAt u) && before (ID u) (ID v))).
    + cbn [In]. intuition.
    + cbn [In]. rewrite IH. intuition.
Qed.

Lemma order_created_at_desc_In :
  forall (rt : Runtime) (offset limit : Z) (x : User) (l : list User),
    In x (gorm.order_created_at_desc offset limit l) <-> In x l.
Proof.
  intros rt offset limit x l. induction l as [ | u l IH ]; [ reflexivity | ].
  cbn [gorm.order_created_at_desc fold_right].
  fold (gorm.order_created_at_desc offset limit l).
  rewrite insert_desc_In, IH. cbn [In]. intuition.
Qed.

Lemma In_firstn_list :
  forall (A : Type) (n : nat) (l : list A) (x : A), In x (firstn n l) -> In x l.
Proof.
  intros A n l x H. rewrite <- (firstn_skipn n l). apply in_or_app. now left.
Qed.



Lemma page_of_length :
  forall (offset limit : Z) (rows : list User),
    (List.length (gorm.page_of offset limit rows) <= List.length rows)%nat
    /\ (0 <= limit -> Z.of_nat (List.length (gorm.page_of offset limit rows)) <= limit).
Proof.
  intros offset limit rows. unfold gorm.page_of.
  assert (Hs : (List.length (if (0 <? offset)%Z then skipn (Z.to_nat offset) rows else rows)
                <= List.length rows)%nat).
  { destruct (0 <? offset); [ rewrite length_skipn | ]; lia. }
  set (rows' := if 0 <? offset then skipn (Z.to_nat offset) rows else rows) in *.
  split.
  - destruct (0 <=? limit); [ rewrite length_firstn | ]; lia.
  - intros Hl. apply Z.leb_le in Hl. rewrite Hl. rewrite length_firstn. lia.
Qed.

(** X1. A page of the listing holds at most the page size of accounts and
    at most as many as the query matches; the total returned with it is
    the same for every page and page size. *)
Theorem GetUsers_page_size_and_total :
  forall (rt : Runtime) (query : ListUsersQuery) (db : gorm.DB),
    let '(users, total, _, _) := user.userRepository_GetUsers query db in
    Z.of_nat (List.length users) <= (if PerPage query <=? 0 then 10 else PerPage query)
    /\ Z.of_nat (List.length users) <= total
    /\ forall page perPage : Z,
         snd (fst (fst (user.userRepository_GetUsers
                          (set_Page page (set_PerPage perPage query)) db))) = total.
Proof.
  intros rt query db.
  rewrite userRepository_GetUsers_run.
  set (rows := filter _ db).
  set (limit := if PerPage query <=? 0 then 10 else PerPage query).
  assert (Hlimit : 0 <= limit).
  { subst limit. destruct (PerPage query <=? 0) eqn:H; [ lia | ].
    apply Z.leb_gt in H. lia. }
  destruct (page_of_length
              (wrap64 (((if Page query <=? 0 then 1 else Page query) - 1) * limit))
              limit
              (gorm.order_created_at_desc
                 (wrap64 (((if Page query <=? 0 then 1 else Page query) - 1) * limit))
                 limit rows)) as [H1 H2].
  rewrite order_created_at_desc_length in H1.
  rewrite length_map.
  repeat split.
  - now apply H2.
  - lia.
  - intros page perPage. rewrite userRepository_GetUsers_run. reflexivity.
Qed.

Lemma insert_desc_sorted :
  forall (before : UUID -> UUID -> bool) (u : User) (l : list User),
    StronglySorted (fun a b => CreatedAt b <= CreatedAt a) l ->
    StronglySorted (fun a b => CreatedAt b <= CreatedAt a)
      (gorm.insert_desc before u l).
Proof.
  intros before u l H. induction H as [ | v l Hl IH Hv ].
  - cbn. constructor; constructor.
  - cbn [gorm.insert_desc].
    destruct ((CreatedAt v <? CreatedAt u)
              || ((CreatedAt v =? CreatedAt u) && before (ID u) (ID v))) eqn:Hc.
    + assert (Hle : CreatedAt v <= CreatedAt u).
      { apply orb_prop in Hc. destruct Hc as [Hc | Hc].
        - apply Z.ltb_lt in Hc. lia.
        - apply andb_prop in Hc. destruct Hc as [Hc _]. apply Z.eqb_eq in Hc. lia. }
      constructor.
      * now constructor.
      * constructor; [ lia | ].
        rewrite Forall_forall in *. intros x Hx. specialize (Hv x Hx). lia.
    + apply orb_false_elim in Hc. destruct Hc as [Hc _].
      apply Z.ltb_ge in Hc. constructor; [ exact IH | ].
      rewrite Forall_forall in *. intros x Hx.
      apply insert_desc_In in Hx. destruct Hx as [-> | Hx]; [ lia | now apply Hv ].
Qed.

Lemma order_created_at_desc_sorted :
  forall (rt : Runtime) (offset limit : Z) (l : list User),
    StronglySorted (fun a b => CreatedAt b <= CreatedAt a)
      (gorm.order_created_at_desc offset limit l).
Proof.
  intros rt offset limit. induction l as [ | u l IH ]; [ constructor | ].
  cbn [gorm.order_created_at_desc fold_right].
  fold (gorm.order_created_at_desc offset limit l).
  now apply insert_desc_sorted.
Qed.

Lemma StronglySorted_skipn :
  forall (A : Type) (R : A -> A -> Prop) (n : nat) (l : list A),
    StronglySorted R l -> StronglySorted R (skipn n l).
Proof.
  intros A R n. induction n as [ | n IH ]; intros l H; [ exact H | ].
  destruct l as [ | a l ]; [ constructor | ].
  cbn [skipn]. apply IH. now inversion H.
Qed.

Lemma StronglySorted_firstn :
  forall (A : Type) (R : A -> A -> Prop) (n : nat) (l : list A),
    StronglySorted R l -> StronglySorted R (firstn n l).
Proof.
  intros A R n. induction n as [ | n IH ]; intros l H; [ constructor | ].
  destruct l as [ | a l ]; [ constructor | ].
  cbn [firstn]. inversion H as [ | ? ? Hl Ha ]; subst.
  constructor; [ now apply IH | ].
  rewrite Forall_forall in *. intros x Hx. apply Ha. now apply In_firstn_list in Hx.
Qed.

Lemma StronglySorted_map :
  forall (A B : Type) (R : A -> A -> Prop) (Q : B -> B -> Prop) (f : A -> B) (l : list A),
    (forall a b, R a b -> Q (f a) (f b)) ->
    StronglySorted R l -> StronglySorted Q (map f l).
Proof.
  intros A B R Q f l HRQ H. induction H as [ | a l Hl IH Ha ]; [ constructor | ].
  cbn [map]. constructor; [ exact IH | ].
  rewrite Forall_forall in *. intros y Hy.
  apply in_map_iff in Hy. destruct Hy as [x [<- Hx]]. now apply HRQ, Ha.
Qed.

(** X2. The accounts of a page come newest first: no account of the page
    was created later than one listed before it. *)
Theorem GetUsers_newest_first :
  forall (rt : Runtime) (query : ListUsersQuery) (db : gorm.DB),
    StronglySorted (fun a b => r_CreatedAt b <= r_CreatedAt a)
      (fst (fst (fst (user.userRepository_GetUsers query db)))).
Proof.
  intros rt query db.
  rewrite userRepository_GetUsers_run. cbn [fst].
  apply (StronglySorted_map _ _ (fun a b => CreatedAt b <= CreatedAt a)).
  - intros a b H. exact H.
  - unfold gorm.page_of.
    set (sorted := gorm.order_created_at_desc _ _ _).
    assert (Hs : StronglySorted (fun a b => CreatedAt b <= CreatedAt a) sorted)
      by apply order_created_at_desc_sorted.
    destruct (0 <? _), (0 <=? _);
      auto using StronglySorted_skipn, StronglySorted_firstn.
Qed.



(** Bob's row carries a deletion time, and the query for the
    administrators lists it without asking for deleted rows. *)
Example GetUsers_lists_a_row_with_a_deletion_time :
  DeletedAt sample.bob_account = Some 200
  /\ ShowDeleted sample.admins = false
  /\ map r_Name
       (fst (fst (fst (user.userRepository_GetUsers (rt := reference.runtime)
                         sample.admins sample.two_accounts))))
     = ["Bob"].
Proof. vm_compute. repeat split; reflexivity. Qed.

(** ** The life cycle of a row *)

Lemma selected_by_email :
  forall (rt : Runtime) (e : string) (u : User),
    gorm.selected [gorm.EmailEq e] u = (Email u =? e)%string.
Proof.
  intros rt e u. unfold gorm.selected. cbn [forallb gorm.holds].
  now rewrite andb_true_r.
Qed.

(** The lookups of the auth repository scan into a [User], whose table is
    [users]. *)
Lemma authRepository_GetUserByEmail_run :
  forall (rt : Runtime) (email : string) (db : gorm.DB),
    auth.authRepository_GetUserByEmail email db
    = (match gorm.least_id (filter (gorm.selected [gorm.EmailEq email]) db) with
       | Some row => Ok row
       | None => Err ErrRecordNotFound
       end, db).
Proof.
  intros rt email db.
  unfold auth.authRepository_GetUserByEmail, gorm.First.
  run_statement. cbn [String.eqb Ascii.eqb Bool.eqb]. rewrite plan_email.
  destruct (gorm.least_id _); reflexivity.
Qed.

Lemma userRepository_HardDeleteUser_run :
  forall (rt : Runtime) (id : string) (i : UUID) (db : gorm.DB),
    uuid_Parse id = Some i ->
    user.userRepository_HardDeleteUser id db
    = (if Z.of_nat (List.length (filter (fun u => ID u =? i) db)) =? 0
       then Some ErrRecordNotFound else None,
       filter (fun u => negb (ID u =? i)) db).
Proof.
  intros rt id i db H.
  unfold user.userRepository_HardDeleteUser, bind, gorm.Delete.
  run_statement. cbn [String.eqb Ascii.eqb Bool.eqb]. rewrite (plan_id rt id i H).
  rewrite (filter_ext (gorm.selected [gorm.IdEq i]) (fun u => ID u =? i))
    by (intro u; now rewrite selected_by_id).
  rewrite (filter_ext (fun u => negb (gorm.selected [gorm.IdEq i] u))
             (fun u => negb (ID u =? i)))
    by (intro u; now rewrite selected_by_id).
  destruct (Z.of_nat _ =? 0); reflexivity.
Qed.

(** X4. Over the program's repository, every operation of the user service
    that looks an account up ends at that lookup.  For an id that parses,
    [GetUserByID], [DeleteUser] and [RestoreUser], [UpdateUser] for a
    request with a name and an email, and [CreateUser] for data that pass
    its validation, return the database's error for the relation
    [user_responses], which the lookups of the repository address, and
    leave the relation [users] as it is. *)
Theorem user_service_stops_at_the_lookup :
  forall (rt : Runtime) (fresh : UUID) (clock : Time) (id : string) (i : UUID)
         (db : gorm.DB),
    uuid_Parse id = Some i ->
    user.GetUserByID (user.userRepository fresh clock) id db
    = (Err (gorm.no_such_table "user_responses"), db)
    /\ user.DeleteUser (user.userRepository fresh clock) id db
       = (Some (gorm.no_such_table "user_responses"), db)
    /\ user.RestoreUser (user.userRepository fresh clock) id db
       = (Err (gorm.no_such_table "user_responses"), db)
    /\ (forall (now : Time) (data : UpdateUserData),
          ud_Name data <> "" -> ud_Email data <> "" ->
          user.UpdateUser (user.userRepository fresh clock) now id data db
          = (Some (gorm.no_such_table "user_responses"), db))
    /\ (forall (key : UUID) (now1 now2 : Time) (data : CreateUserData),
          cd_Name data <> "" -> cd_Email data <> "" ->
          8 <= Z.of_nat (String.length (cd_Password data)) ->
          user.CreateUser (user.userRepository fresh clock) key now1 now2 data db
          = (Some (gorm.no_such_table "user_responses"), db)).
Proof.
  intros rt fresh clock id i db Hid.
  split; [ | split; [ | split; [ | split ] ] ].
  - unfold user.GetUserByID. rewrite Hid.
    cbn [user.userRepository user.repo_GetUserByID]. unfold bind.
    rewrite userRepository_GetUserByID_run. reflexivity.
  - unfold user.DeleteUser. rewrite Hid.
    cbn [user.userRepository user.repo_GetUserByID]. unfold bind.
    rewrite userRepository_GetUserByID_run. reflexivity.
  - unfold user.RestoreUser. rewrite Hid.
    cbn [user.userRepository user.repo_GetUserByID]. unfold bind.
    rewrite userRepository_GetUserByID_run. reflexivity.
  - intros now data Hn He. unfold user.UpdateUser. rewrite Hid.
    apply String.eqb_neq in Hn, He. rewrite Hn, He.
    cbn [user.userRepository user.repo_GetUserByID]. unfold bind.
    rewrite userRepository_GetUserByID_run. reflexivity.
  - intros key now1 now2 data Hn He Hp. unfold user.CreateUser.
    apply String.eqb_neq in Hn, He. rewrite Hn, He.
    destruct (cd_Password data) as [ | c rest] eqn:Hpw; [ cbn in Hp; lia | ].
    replace (String c rest =? "")%string with false by reflexivity.
    replace (Z.of_nat (String.length (String c rest)) <? 8) with false
      by (symmetry; apply Z.ltb_ge; lia).
    cbn [user.userRepository user.repo_GetUserByEmail]. unfold bind.
    rewrite userRepository_GetUserByEmail_run. reflexivity.
Qed.

Lemma user_service_stops_at_the_lookup_witness :
  reference.Parse reference.id1 = Some reference.uuid1
  /\ (user.GetUserByID (rt := reference.runtime) reference.userRepo reference.id1
        reference.ann_registered
      = (Err (gorm.no_such_table "user_responses"), reference.ann_registered)
      /\ user.DeleteUser (rt := reference.runtime) reference.userRepo reference.id1
           reference.ann_registered
         = (Some (gorm.no_such_table "user_responses"), reference.ann_registered)
      /\ user.RestoreUser (rt := reference.runtime) reference.userRepo reference.id1
           reference.ann_registered
         = (Err (gorm.no_such_table "user_responses"), reference.ann_registered)
      /\ (forall (now : Time) (data : UpdateUserData),
            ud_Name data <> "" -> ud_Email data <> "" ->
            user.UpdateUser (rt := reference.runtime) reference.userRepo now
              reference.id1 data reference.ann_registered
            = (Some (gorm.no_such_table "user_responses"), reference.ann_registered))
      /\ (forall (key : UUID) (now1 now2 : Time) (data : CreateUserData),
            cd_Name data <> "" -> cd_Email data <> "" ->
            8 <= Z.of_nat (String.length (cd_Password data)) ->
            user.CreateUser reference.userRepo key now1 now2 data
              reference.ann_registered
            = (Some (gorm.no_such_table "user_responses"), reference.ann_registered))).
Proof.
  split.
  - reflexivity.
  - apply (user_service_stops_at_the_lookup reference.runtime 77 50 reference.id1
             reference.uuid1 reference.ann_registered).
    reflexivity.
Defined.

(** The administrative creation of an account for Carl, on the relation
    that holds Ann's row: nothing is stored. *)
Example CreateUser_of_carl :
  user.CreateUser reference.userRepo reference.uuid2 200 201
    {| cd_Name := "Carl"; cd_Email := "carl@example.com"; cd_Password := "longpass3";
       cd_Role := ""; cd_Provider := ""; cd_Photo := ""; cd_Verified := false |}
    reference.ann_registered
  = (Some (gorm.no_such_table "user_responses"), [reference.ann_account]).
Proof. vm_compute. reflexivity. Qed.

(** X6. A hard delete removes every row of the id, the rows that carry a
    deletion time included, and no other row.  When the relation has no
    row of the id it fails with the not-found error and changes nothing.
    [DeleteUser] of the repository does the same to the relation and
    gives the same answer. *)
Theorem HardDeleteUser_removes_the_row :
  forall (rt : Runtime) (id : string) (i : UUID) (db : gorm.DB),
    uuid_Parse id = Some i ->
    let (err, db') := user.userRepository_HardDeleteUser id db in
    db' = filter (fun u => negb (ID u =? i)) db
    /\ (err = None <-> exists row, In row db /\ ID row = i)
    /\ (err <> None -> err = Some ErrRecordNotFound /\ db' = db)
    /\ user.userRepository_DeleteUser id db = (err, db').
Proof.
  intros rt id i db Hid.
  rewrite (userRepository_DeleteUser_run rt id i db Hid).
  rewrite (userRepository_HardDeleteUser_run rt id i db Hid).
  split; [ reflexivity | ].
  assert (Hcount : (Z.of_nat (List.length (filter (fun u => ID u =? i) db)) =? 0) = true
                   <-> forall x, In x db -> (ID x =? i) = false).
  { rewrite <- filter_nil_iff. rewrite Z.eqb_eq.
    destruct (filter (fun u => ID u =? i) db); cbn [List.length]; split;
      intros; (reflexivity || discriminate || lia). }
  split; [ | split ].
  - destruct (Z.of_nat _ =? 0) eqn:Hc.
    + split; [ discriminate | ]. intros [row [Hin Hk]].
      pose proof (proj1 Hcount eq_refl row Hin) as Hne.
      apply Z.eqb_neq in Hne. contradiction.
    + split; [ | reflexivity ]. intros _.
      destruct (filter (fun u => ID u =? i) db) as [ | row rest ] eqn:Hf;
        [ discriminate | ].
      assert (Hrow : In row (filter (fun u => ID u =? i) db)) by (rewrite Hf; now left).
      apply filter_In in Hrow. destruct Hrow as [Hin Hk]. apply Z.eqb_eq in Hk.
      now exists row.
  - destruct (Z.of_nat _ =? 0) eqn:Hc; [ | congruence ].
    intros _. split; [ reflexivity | ].
    pose proof (proj1 Hcount eq_refl) as Hall.
    rewrite <- (filter_ext_in (fun _ => true)).
    + clear. induction db as [ | a l IH ]; [ reflexivity | ]. cbn. now rewrite IH.
    + intros a Ha. now rewrite (Hall a Ha).
  - reflexivity.
Qed.

Lemma HardDeleteUser_removes_the_row_witness :
  reference.Parse reference.id2 = Some reference.uuid2
  /\ let (err, db') :=
       user.userRepository_HardDeleteUser (rt := reference.runtime) reference.id2
         sample.two_accounts in
     db' = filter (fun u => negb (ID u =? reference.uuid2)) sample.two_accounts
     /\ (err = None <-> exists row, In row sample.two_accounts /\ ID row = reference.uuid2)
     /\ (err <> None -> err = Some ErrRecordNotFound /\ db' = sample.two_accounts)
     /\ user.userRepository_DeleteUser (rt := reference.runtime) reference.id2
          sample.two_accounts
        = (err, db').
Proof.
  assert (H1 : reference.Parse reference.id2 = Some reference.uuid2)
    by (vm_compute; reflexivity).
  split; [ exact H1 | ].
  exact (HardDeleteUser_removes_the_row reference.runtime reference.id2 reference.uuid2
           sample.two_accounts H1).
Defined.

(** ** Registration followed by a lookup *)

(** What a successful [SignUp] has done to the relation. *)
Lemma SignUp_success :
  forall (rt : Runtime) (clock : Time) (salt : string) (now : Time) (id : UUID)
         (data : SignUpData) (db db' : gorm.DB) (user : User),
    auth.SignUp (auth.authRepository clock) salt now id data db
    = ((Some user, None), db') ->
    db' = (db ++ [user])%list
    /\ (forall u, In u db -> Email u <> Email user)
    /\ Email user = strings_ToLower (strings_TrimSpace (su_Email data))
    /\ bcrypt_GenerateFromPassword salt (su_Password data) hashing.DefaultCost
       = Ok (Password user)
    /\ DeletedAt user = None.
Proof.
  intros rt clock salt now id data db db' user H.
  unfold auth.SignUp in H.
  destruct (auth.validateSignUpData data); [ discriminate | ].
  destruct (negb (su_Password data =? su_PasswordConfirm data)%string); [ discriminate | ].
  unfold hashing.HashPassword in H.
  destruct (bcrypt_GenerateFromPassword salt (su_Password data) hashing.DefaultCost)
    as [hashed | e] eqn:Hh; [ | discriminate ].
  cbn [auth.authRepository auth.repo_CreateUser] in H.
  unfold bind, auth.authRepository_CreateUser, gorm.Create, bind, gorm.insert in H.
  cbn [ID Email CreatedAt UpdatedAt] in H.
  destruct (existsb _ db) eqn:Hex in H; cbn in H; [ discriminate | ].
  injection H as <- <-. cbn [Email Password DeletedAt].
  repeat split; try reflexivity.
  intros u Hu Heq.
  assert (Hfalse : existsb (fun u0 => (ID u0 =? id)
                     || (Email u0 =? strings_ToLower (strings_TrimSpace (su_Email data)))%string)
                     db = true).
  { apply existsb_exists. exists u. split; [ exact Hu | ].
    rewrite Heq, String.eqb_refl. apply orb_true_r. }
  congruence.
Qed.

(** X7. An account that has just signed up can sign in: when the digest
    library accepts the password against the digest it made of it,
    [SignIn] with the email and the password of the registration returns
    the stored account and a token, and leaves the relation as it is. *)
Theorem SignUp_then_SignIn :
  forall (rt : Runtime) (clock : Time) (salt : string) (now : Time) (id : UUID)
         (data : SignUpData) (db db' : gorm.DB) (user : User),
    (forall hashed : string,
        bcrypt_GenerateFromPassword salt (su_Password data) hashing.DefaultCost
        = Ok hashed ->
        bcrypt_CompareHashAndPassword hashed (su_Password data) = None) ->
    auth.SignUp (auth.authRepository clock) salt now id data db
    = ((Some user, None), db') ->
    forall (clock' : Time) (random : string),
      auth.SignIn (auth.authRepository clock') (Ok random)
        (su_Email data) (su_Password data) db'
      = ((base64_URLEncoding_EncodeToString random, Some user, None), db').
Proof.
  intros rt clock salt now id data db db' user Hbcrypt H clock' random.
  destruct (SignUp_success rt clock salt now id data db db' user H)
    as [Hdb [Hfresh [Hemail [Hhash Hd]]]].
  unfold auth.SignIn.
  cbn [auth.authRepository auth.repo_GetUserByEmail]. unfold bind.
  rewrite authRepository_GetUserByEmail_run.
  assert (Hrows : filter (gorm.selected
                            [gorm.EmailEq (strings_ToLower (strings_TrimSpace (su_Email data)))])
                    db' = [user]).
  { subst db'. rewrite filter_app.
    replace (filter _ db) with (@nil User).
    - cbn [filter app]. now rewrite selected_by_email, Hemail, String.eqb_refl.
    - symmetry. apply filter_nil_iff. intros x Hx.
      rewrite selected_by_email.
      apply String.eqb_neq. rewrite <- Hemail. now apply Hfresh. }
  rewrite Hrows. cbn [gorm.least_id].
  unfold hashing.VerifyPassword. rewrite (Hbcrypt _ Hhash).
  reflexivity.
Qed.

Lemma SignUp_then_SignIn_witness :
  (forall hashed : string,
      reference.GenerateFromPassword "salt" (su_Password reference.ann) hashing.DefaultCost
      = Ok hashed ->
      reference.CompareHashAndPassword hashed (su_Password reference.ann) = None)
  /\ auth.SignUp (rt := reference.runtime) reference.authRepo "salt" 100
       reference.uuid1 reference.ann []
     = ((Some reference.ann_account, None), reference.ann_registered)
  /\ forall (clock' : Time) (random : string),
       auth.SignIn (rt := reference.runtime)
         (auth.authRepository (rt := reference.runtime) clock') (Ok random)
         (su_Email reference.ann) (su_Password reference.ann) reference.ann_registered
       = ((random, Some reference.ann_account, None), reference.ann_registered).
Proof.
  assert (H1 : forall hashed : string,
             reference.GenerateFromPassword "salt" (su_Password reference.ann)
               hashing.DefaultCost = Ok hashed ->
             reference.CompareHashAndPassword hashed (su_Password reference.ann) = None).
  { intros hashed Hh. vm_compute in Hh. injection Hh as <-. vm_compute. reflexivity. }
  assert (H2 : auth.SignUp (rt := reference.runtime) reference.authRepo "salt" 100
                 reference.uuid1 reference.ann []
               = ((Some reference.ann_account, None), reference.ann_registered)).
  { vm_compute. reflexivity. }
  split; [ exact H1 | ]. split; [ exact H2 | ].
  exact (SignUp_then_SignIn reference.runtime 50 "salt" 100 reference.uuid1 reference.ann
           [] reference.ann_registered reference.ann_account H1 H2).
Defined.

(** ** Errors at the HTTP boundary *)

Ltac by_message m text :=
  let E := fresh "E" in
  destruct (String.eqb_spec m text) as [E | E]; cbn [orb].

(** The cases of [handleServiceError] of the user handler. *)
Lemma user_handleServiceError_cases :
  forall (c : fiber.Ctx) (err : error),
    (In (Error err)
        ["user with that email already exists"; "email is already taken by another user"]
     /\ UserHandler.handleServiceError c err = response.Conflict c (Error err))
    \/ (In (Error err)
          ["name is required"; "email is required"; "password is required";
           "password must be at least 8 characters"; "invalid user ID format";
           "user is not deleted"]
        /\ UserHandler.handleServiceError c err = response.BadRequest c (Error err))
    \/ (Error err = "user not found"
        /\ UserHandler.handleServiceError c err = response.NotFound c (Error err))
    \/ (~ In (Error err)
          ["user with that email already exists"; "email is already taken by another user";
           "name is required"; "email is required"; "password is required";
           "password must be at least 8 characters"; "invalid user ID format";
           "user not found"; "user is not deleted"]
        /\ UserHandler.handleServiceError c err
           = response.InternalError c "Internal server error").
Proof.
  intros c err. unfold UserHandler.handleServiceError. cbv zeta.
  set (m := Error err).
  by_message m "user with that email already exists";
    [ left; split; [ rewrite E; cbn [In]; auto | reflexivity ] | ].
  by_message m "email is already taken by another user";
    [ left; split; [ rewrite E0; cbn [In]; auto | reflexivity ] | ].
  by_message m "name is required";
    [ right; left; split; [ rewrite E1; cbn [In]; auto | reflexivity ] | ].
  by_message m "email is required";
    [ right; left; split; [ rewrite E2; cbn [In]; auto | reflexivity ] | ].
  by_message m "password is required";
    [ right; left; split; [ rewrite E3; cbn [In]; auto | reflexivity ] | ].
  by_message m "password must be at least 8 characters";
    [ right; left; split; [ rewrite E4; cbn [In]; auto 7 | reflexivity ] | ].
  by_message m "invalid user ID format";
    [ right; left; split; [ rewrite E5; cbn [In]; auto 7 | reflexivity ] | ].
  by_message m "user not found";
    [ right; right; left; split; [ exact E6 | reflexivity ] | ].
  by_message m "user is not deleted";
    [ right; left; split; [ rewrite E7; cbn [In]; auto 8 | reflexivity ] | ].
  right; right; right. split; [ | reflexivity ].
  cbn [In]. intuition congruence.
Qed.

(** X10. The user handler never passes an unexpected error on to the
    client: a service error is answered with one response, which carries
    either one of the nine messages of the service, under the status 400,
    404 or 409, or the fixed text "Internal server error" under the status
    500; it never carries data. *)
Theorem user_handleServiceError_hides_unknown_errors :
  forall (c : fiber.Ctx) (err : error),
    exists (code : Z) (b : APIResponse),
      UserHandler.handleServiceError c err
      = (fiber.JSON c code b, [{| fiber.code := code; fiber.body := b |}])
      /\ Data b = None /\ Errors b = None
      /\ ((In code [400; 404; 409] /\ Status b = "fail" /\ Message b = Error err
           /\ In (Error err)
                ["user with that email already exists";
                 "email is already taken by another user";
                 "name is required"; "email is required"; "password is required";
                 "password must be at least 8 characters"; "invalid user ID format";
                 "user not found"; "user is not deleted"])
          \/ (code = 500 /\ Status b = "error" /\ Message b = "Internal server error"
              /\ ~ In (Error err)
                   ["user with that email already exists";
                    "email is already taken by another user";
                    "name is required"; "email is required"; "password is required";
                    "password must be at least 8 characters"; "invalid user ID format";
                    "user not found"; "user is not deleted"])).
Proof.
  intros c err.
  destruct (user_handleServiceError_cases c err)
    as [[Hm ->] | [[Hm ->] | [[Hm ->] | [Hm ->]]]].
  - eexists. eexists. split; [ reflexivity | ]. cbn [Data Errors Status Message].
    repeat (split; [ reflexivity | ]). left.
    split; [ cbn [In]; unfold fiber.StatusConflict; auto | ].
    repeat (split; [ reflexivity | ]).
    cbn [In] in *. intuition.
  - eexists. eexists. split; [ reflexivity | ]. cbn [Data Errors Status Message].
    repeat (split; [ reflexivity | ]). left.
    split; [ cbn [In]; unfold fiber.StatusBadRequest; auto | ].
    repeat (split; [ reflexivity | ]).
    cbn [In] in *. intuition.
  - unfold response.NotFound. rewrite Hm.
    eexists. eexists. split; [ reflexivity | ]. cbn [Data Errors Status Message].
    repeat (split; [ reflexivity | ]). left.
    split; [ cbn [In]; unfold fiber.StatusNotFound; auto | ].
    repeat (split; [ reflexivity | ]).
    cbn [In]. auto 10.
  - eexists. eexists. split; [ reflexivity | ]. cbn [Data Errors Status Message].
    repeat (split; [ reflexivity | ]). right.
    repeat (split; [ reflexivity | ]). exact Hm.
Qed.

(** The cases of [handleServiceError] of the auth handler. *)
Lemma auth_handleServiceError_cases :
  forall (c : fiber.Ctx) (err : error),
    (Error err = "user with that email already exists"
     /\ AuthHandler.handleServiceError c err = response.Conflict c (Error err))
    \/ (In (Error err)
          ["passwords do not match"; "name is required"; "email is required";
           "password is required"; "password must be at least 8 characters";
           "invalid email or password"]
        /\ AuthHandler.handleServiceError c err = response.BadRequest c (Error err))
    \/ (Error err = "user not found"
        /\ AuthHandler.handleServiceError c err = response.NotFound c (Error err))
    \/ (~ In (Error err)
          ["user with that email already exists"; "passwords do not match";
           "name is required"; "email is required"; "password is required";
           "password must be at least 8 characters"; "invalid email or password";
           "user not found"]
        /\ AuthHandler.handleServiceError c err
           = response.Error c fiber.StatusBadGateway (Error err)).
Proof.
  intros c err. unfold AuthHandler.handleServiceError. cbv zeta.
  set (m := Error err).
  by_message m "user with that email already exists";
    [ left; split; [ exact E | reflexivity ] | ].
  by_message m "passwords do not match";
    [ right; left; split; [ rewrite E0; cbn [In]; auto | reflexivity ] | ].
  by_message m "name is required";
    [ right; left; split; [ rewrite E1; cbn [In]; auto | reflexivity ] | ].
  by_message m "email is required";
    [ right; left; split; [ rewrite E2; cbn [In]; auto | reflexivity ] | ].
  by_message m "password is required";
    [ right; left; split; [ rewrite E3; cbn [In]; auto 7 | reflexivity ] | ].
  by_message m "password must be at least 8 characters";
    [ right; left; split; [ rewrite E4; cbn [In]; auto 7 | reflexivity ] | ].
  by_message m "invalid email or password";
    [ right; left; split; [ rewrite E5; cbn [In]; auto 8 | reflexivity ] | ].
  by_message m "user not found";
    [ right; right; left; split; [ exact E6 | reflexivity ] | ].
  right; right; right. split; [ | reflexivity ].
  cbn [In]. intuition congruence.
Qed.

(** X11. The auth handler answers every service error with one response
    of status "fail" that carries the text of the error as it is; an error
    it does not know, such as a failure of the store, goes out under the
    status 502 with its own text. *)
Theorem auth_handleServiceError_passes_the_text_on :
  forall (c : fiber.Ctx) (err : error),
    exists (code : Z) (b : APIResponse),
      AuthHandler.handleServiceError c err
      = (fiber.JSON c code b, [{| fiber.code := code; fiber.body := b |}])
      /\ Status b = "fail" /\ Message b = Error err
      /\ Data b = None /\ Errors b = None
      /\ In code [400; 404; 409; 502]
      /\ (code = 502 <->
          ~ In (Error err)
              ["user with that email already exists"; "passwords do not match";
               "name is required"; "email is required"; "password is required";
               "password must be at least 8 characters"; "invalid email or password";
               "user not found"]).
Proof.
  intros c err.
  destruct (auth_handleServiceError_cases c err)
    as [[Hm ->] | [[Hm ->] | [[Hm ->] | [Hm ->]]]].
  - eexists. eexists. split; [ reflexivity | ]. cbn [Data Errors Status Message].
    repeat (split; [ reflexivity | ]).
    split; [ cbn [In]; unfold fiber.StatusConflict; auto | ].
    unfold fiber.StatusConflict. split; [ discriminate | ].
    intros Hn. exfalso. apply Hn. rewrite Hm. cbn [In]. auto.
  - eexists. eexists. split; [ reflexivity | ]. cbn [Data Errors Status Message].
    repeat (split; [ reflexivity | ]).
    split; [ cbn [In]; unfold fiber.StatusBadRequest; auto | ].
    unfold fiber.StatusBadRequest. split; [ discriminate | ].
    intros Hn. exfalso. apply Hn. cbn [In] in *. intuition.
  - unfold response.NotFound. rewrite Hm.
    eexists. eexists. split; [ reflexivity | ]. cbn [Data Errors Status Message].
    repeat (split; [ reflexivity | ]).
    split; [ cbn [In]; unfold fiber.StatusNotFound; auto | ].
    unfold fiber.StatusNotFound. split; [ discriminate | ].
    intros Hn. exfalso. apply Hn. cbn [In]. auto 10.
  - eexists. eexists. split; [ reflexivity | ]. cbn [Data Errors Status Message].
    repeat (split; [ reflexivity | ]).
    split; [ cbn [In]; unfold fiber.StatusBadGateway; auto 6 | ].
    split; [ intros _; exact Hm | reflexivity ].
Qed.

Lemma authRepository_GetUserByID_run :
  forall (rt : Runtime) (id : string) (i : UUID) (db : gorm.DB),
    uuid_Parse id = Some i ->
    auth.authRepository_GetUserByID id db
    = (match gorm.least_id (filter (gorm.selected [gorm.IdEq i]) db) with
       | Some row => Ok row
       | None => Err ErrRecordNotFound
       end, db).
Proof.
  intros rt id i db H.
  unfold auth.authRepository_GetUserByID, gorm.First.
  run_statement. cbn [String.eqb Ascii.eqb Bool.eqb]. rewrite (plan_id rt id i H).
  destruct (gorm.least_id _); reflexivity.
Qed.

(** X12. [GetMe] for a caller whose id has no row in the relation is
    answered with the status 502 and the text of the mapper's error,
    "record not found": the auth service passes the repository's error on
    as it is, and the handler does not know it. *)
Theorem GetMe_of_unknown_user :
  forall (rt : Runtime) (clock : Time) (c : fiber.Ctx) (db : gorm.DB)
         (id : string) (i : UUID),
    fiber.Locals c "userId" = Some id ->
    uuid_Parse id = Some i ->
    (forall row, In row db -> ID row <> i) ->
    AuthHandler.GetMe (auth.authRepository clock) c db
    = (response.Error c 502 "record not found", db).
Proof.
  intros rt clock c db id i Hc Hid Hnone.
  unfold AuthHandler.GetMe. rewrite Hc.
  unfold bind, auth.GetUserByID.
  cbn [auth.authRepository auth.repo_GetUserByID].
  rewrite (authRepository_GetUserByID_run rt id i db Hid).
  replace (filter (gorm.selected [gorm.IdEq i]) db) with (@nil User);
    [ reflexivity | ].
  symmetry. apply filter_nil_iff. intros x Hx. rewrite selected_by_id.
  apply Z.eqb_neq. now apply Hnone.
Qed.

Lemma GetMe_of_unknown_user_witness :
  fiber.Locals (sample.request "" [] (Some reference.id2)) "userId" = Some reference.id2
  /\ reference.Parse reference.id2 = Some reference.uuid2
  /\ (forall row, In row reference.ann_registered -> ID row <> reference.uuid2)
  /\ AuthHandler.GetMe (auth.authRepository (rt := reference.runtime) 50)
       (sample.request "" [] (Some reference.id2)) reference.ann_registered
     = (response.Error (sample.request "" [] (Some reference.id2)) 502 "record not found",
        reference.ann_registered).
Proof.
  assert (H1 : fiber.Locals (sample.request "" [] (Some reference.id2)) "userId"
               = Some reference.id2) by reflexivity.
  assert (H2 : reference.Parse reference.id2 = Some reference.uuid2)
    by (vm_compute; reflexivity).
  assert (H3 : forall row, In row reference.ann_registered -> ID row <> reference.uuid2).
  { intros row [<- | []]. vm_compute. discriminate. }
  split; [ exact H1 | ]. split; [ exact H2 | ]. split; [ exact H3 | ].
  exact (GetMe_of_unknown_user reference.runtime 50 _ reference.ann_registered
           reference.id2 reference.uuid2 H1 H2 H3).
Defined.

(** Bob's row carries a deletion time; [GetMe] for Bob finds it and
    answers 200 with his account. *)
Example GetMe_of_bob :
  DeletedAt sample.bob_account = Some 200
  /\ AuthHandler.GetMe (auth.authRepository (rt := reference.runtime) 50)
       (sample.request "" [] (Some reference.id2)) sample.two_accounts
     = (response.OK (sample.request "" [] (Some reference.id2))
          (Some (AuthUserData (AuthHandler.userToResponse sample.bob_account))),
        sample.two_accounts).
Proof. vm_compute. split; reflexivity. Qed.

(** ** The list endpoint *)

Lemma ListUsers_query_range :
  forall (sc : Strconv) (c : fiber.Ctx),
    1 <= Page (UserHandler.ListUsers_query c)
    /\ 1 <= PerPage (UserHandler.ListUsers_query c) <= 100
    /\ SearchBy (UserHandler.ListUsers_query c) = ""
    /\ q_Role (UserHandler.ListUsers_query c) = ""
    /\ q_Provider (UserHandler.ListUsers_query c) = ""
    /\ q_Verified (UserHandler.ListUsers_query c) = None.
Proof.
  intros sc c. unfold UserHandler.ListUsers_query.
  cbn [Page PerPage SearchBy q_Role q_Provider q_Verified].
  repeat split.
  - destruct (negb _); [ | lia ].
    destruct (strconv_Atoi _) as [page | ]; [ | lia ].
    destruct (0 <? page) eqn:H; [ apply Z.ltb_lt in H | ]; lia.
  - destruct (negb _); [ | lia ].
    destruct (strconv_Atoi _) as [perPage | ]; [ | lia ].
    destruct ((0 <? perPage) && (perPage <=? 100)) eqn:H; [ | lia ].
    apply andb_prop in H. destruct H as [H _]. apply Z.ltb_lt in H. lia.
  - destruct (negb _); [ | lia ].
    destruct (strconv_Atoi _) as [perPage | ]; [ | lia ].
    destruct ((0 <? perPage) && (perPage <=? 100)) eqn:H; [ | lia ].
    apply andb_prop in H. destruct H as [_ H]. apply Z.leb_le in H. lia.
Qed.

(** The service does not change a query whose page and page size are in
    range. *)
Lemma GetUsers_in_range :
  forall (S : Type) (repo : user.Repository S) (query : ListUsersQuery),
    1 <= Page query -> 1 <= PerPage query <= 100 ->
    user.GetUsers repo query = user.repo_GetUsers repo query.
Proof.
  intros S repo query Hp Hpp. unfold user.GetUsers.
  replace (Page query <=? 0) with false by (symmetry; apply Z.leb_gt; lia).
  replace (PerPage query <=? 0) with false by (symmetry; apply Z.leb_gt; lia).
  replace (100 <? PerPage query) with false by (symmetry; apply Z.ltb_ge; lia).
  reflexivity.
Qed.

(** X13. Whatever the query string holds, the list endpoint asks for a
    page of number at least 1 and of size between 1 and 100, so that the
    service has nothing to correct; a list it answers with carries these
    two numbers, each the default (1 and 10) or the number read off the
    request. *)
Theorem ListUsers_page_and_size_in_range :
  forall (sc : Strconv) (S : Type) (repo : user.Repository S) (c : fiber.Ctx) (s : S),
    exists query : ListUsersQuery,
      1 <= Page query
      /\ 1 <= PerPage query <= 100
      /\ (Page query = 1 \/ strconv_Atoi (fiber.Query c "page") = Ok (Page query))
      /\ (PerPage query = 10 \/ strconv_Atoi (fiber.Query c "per_page") = Ok (PerPage query))
      /\ snd (UserHandler.ListUsers repo c s) = snd (user.repo_GetUsers repo query s)
      /\ forall sent l,
           In sent (snd (fst (UserHandler.ListUsers repo c s))) ->
           Data (fiber.body sent) = Some (UserListData l) ->
           l_Page l = Page query /\ l_PerPage l = PerPage query.
Proof.
  intros sc S repo c s.
  exists (UserHandler.ListUsers_query c).
  destruct (ListUsers_query_range sc c) as [Hp [Hpp _]].
  split; [ exact Hp | ]. split; [ exact Hpp | ].
  split; [ | split ].
  - unfold UserHandler.ListUsers_query. cbn [Page].
    destruct (negb _); [ | now left ].
    destruct (strconv_Atoi _) as [page | ]; [ | now left ].
    destruct (0 <? page); [ now right | now left ].
  - unfold UserHandler.ListUsers_query. cbn [PerPage].
    destruct (negb _); [ | now left ].
    destruct (strconv_Atoi _) as [perPage | ]; [ | now left ].
    destruct ((0 <? perPage) && (perPage <=? 100)); [ now right | now left ].
  - unfold UserHandler.ListUsers. cbv zeta.
    rewrite (GetUsers_in_range S repo _ Hp Hpp).
    unfold bind.
    destruct (user.repo_GetUsers repo (UserHandler.ListUsers_query c) s)
      as [[[users total] err] s'].
    split; [ destruct err; reflexivity | ].
    intros sent l Hin Hdata.
    destruct err as [e | ].
    + exfalso. cbn [ret fst snd] in Hin.
      destruct (user_handleServiceError_cases c e)
        as [[_ Hr] | [[_ Hr] | [[_ Hr] | [_ Hr]]]];
        rewrite Hr in Hin; destruct Hin as [<- | []]; discriminate Hdata.
    + cbn [ret fst snd response.OK response.write] in Hin.
      destruct Hin as [<- | []]. cbn [fiber.body Data] in Hdata.
      injection Hdata as <-. split; reflexivity.
Qed.

(** X14. The search term of a request has no effect on the list the
    endpoint answers with: the handler never sets the field to search, and
    the repository searches only when both are set. *)
Theorem ListUsers_ignores_the_search_term :
  forall (rt : Runtime) (sc : Strconv) (fresh : UUID) (clock : Time)
         (c c' : fiber.Ctx) (db : gorm.DB),
    (forall key : string, key <> "search" -> fiber.Query c key = fiber.Query c' key) ->
    (forall code b, fiber.JSON c code b = fiber.JSON c' code b) ->
    UserHandler.ListUsers (user.userRepository fresh clock) c db
    = UserHandler.ListUsers (user.userRepository fresh clock) c' db.
Proof.
  intros rt sc fresh clock c c' db Hq Hj.
  unfold UserHandler.ListUsers. cbv zeta.
  destruct (ListUsers_query_range sc c) as [Hp [Hpp [Hby [Hr [Hpr Hv]]]]].
  destruct (ListUsers_query_range sc c') as [Hp' [Hpp' [Hby' [Hr' [Hpr' Hv']]]]].
  rewrite (GetUsers_in_range _ _ _ Hp Hpp), (GetUsers_in_range _ _ _ Hp' Hpp').
  cbn [user.userRepository user.repo_GetUsers]. unfold bind.
  rewrite !userRepository_GetUsers_run.
  assert (Hpage : Page (UserHandler.ListUsers_query c') = Page (UserHandler.ListUsers_query c)).
  { unfold UserHandler.ListUsers_query. cbn [Page].
    now rewrite (Hq "page") by discriminate. }
  assert (Hsize : PerPage (UserHandler.ListUsers_query c')
                  = PerPage (UserHandler.ListUsers_query c)).
  { unfold UserHandler.ListUsers_query. cbn [PerPage].
    now rewrite (Hq "per_page") by discriminate. }
  assert (Hcond : forall d, conditions_of (UserHandler.ListUsers_query d) = []).
  { intro d. unfold conditions_of.
    destruct (ListUsers_query_range sc d) as [_ [_ [H1 [H2 [H3 H4]]]]].
    rewrite H1, H2, H3, H4. cbn [String.eqb negb andb app].
    rewrite andb_false_r. reflexivity. }
  rewrite !Hcond, Hpage, Hsize.
  cbn [ret]. unfold response.OK, response.write. now rewrite Hj.
Qed.

Lemma ListUsers_ignores_the_search_term_witness :
  (forall key : string, key <> "search" ->
     fiber.Query (sample.request "" [("search", "ann"); ("page", "1")] None) key
     = fiber.Query (sample.request "" [("search", "bob"); ("page", "1")] None) key)
  /\ (forall code b,
        fiber.JSON (sample.request "" [("search", "ann"); ("page", "1")] None) code b
        = fiber.JSON (sample.request "" [("search", "bob"); ("page", "1")] None) code b)
  /\ UserHandler.ListUsers (sc := sample.strconv) reference.userRepo
       (sample.request "" [("search", "ann"); ("page", "1")] None) sample.two_accounts
     = UserHandler.ListUsers (sc := sample.strconv) reference.userRepo
       (sample.request "" [("search", "bob"); ("page", "1")] None) sample.two_accounts.
Proof.
  assert (H1 : forall key : string, key <> "search" ->
     fiber.Query (sample.request "" [("search", "ann"); ("page", "1")] None) key
     = fiber.Query (sample.request "" [("search", "bob"); ("page", "1")] None) key).
  { intros key Hk. cbn [sample.request fiber.Query find fst snd].
    destruct (String.eqb_spec "search" key) as [E | E]; [ now subst key | reflexivity ]. }
  assert (H2 : forall code b,
        fiber.JSON (sample.request "" [("search", "ann"); ("page", "1")] None) code b
        = fiber.JSON (sample.request "" [("search", "bob"); ("page", "1")] None) code b)
    by reflexivity.
  split; [ exact H1 | ]. split; [ exact H2 | ].
  exact (ListUsers_ignores_the_search_term reference.runtime sample.strconv 77 50
           _ _ sample.two_accounts H1 H2).
Defined.

(** ** Requests that fail to parse or to validate *)

(** X15. [ParseAndValidate] reports a request that does not parse or does
    not validate to the client and not to its caller: it writes one
    response of status 400 and returns what writing it returns, which is
    no error when the response could be written.  For a request that
    parses and validates it writes nothing and returns no error. *)
Theorem ParseAndValidate_returns_the_outcome_of_writing :
  forall (Req : Type) (c : fiber.Ctx) (req : Req) (parsed : option error)
         (ValidateStruct : Req -> option Any),
    (parsed = None /\ ValidateStruct req = None ->
     handler.ParseAndValidate c (req, parsed) ValidateStruct = (None, []))
    /\ (parsed <> None \/ ValidateStruct req <> None ->
        exists b : APIResponse,
          handler.ParseAndValidate c (req, parsed) ValidateStruct
          = (fiber.JSON c 400 b, [{| fiber.code := 400; fiber.body := b |}])
          /\ Status b = "fail"
          /\ (forall e, parsed = Some e -> Message b = Error e /\ Errors b = None)
          /\ (parsed = None -> Errors b = ValidateStruct req)).
Proof.
  intros Req c req parsed ValidateStruct. split.
  - intros [-> Hv]. cbn. now rewrite Hv.
  - intros H. unfold handler.ParseAndValidate.
    destruct parsed as [e | ].
    + eexists. split; [ reflexivity | ]. cbn [Status Message Errors].
      split; [ reflexivity | ]. split; [ | discriminate ].
      intros e' He. injection He as <-. now split.
    + destruct (ValidateStruct req) as [errors | ]; [ | destruct H; contradiction ].
      eexists. split; [ reflexivity | ]. cbn [Status Message Errors].
      split; [ reflexivity | ]. split; [ discriminate | reflexivity ].
Qed.

Lemma ParseAndValidate_refusal :
  forall (Req : Type) (c : fiber.Ctx) (req : Req) (parsed : option error)
         (ValidateStruct : Req -> option Any),
    parsed <> None \/ ValidateStruct req <> None ->
    exists b : APIResponse,
      handler.ParseAndValidate c (req, parsed) ValidateStruct
      = (fiber.JSON c 400 b, [{| fiber.code := 400; fiber.body := b |}]).
Proof.
  intros Req c req parsed ValidateStruct H. unfold handler.ParseAndValidate.
  destruct parsed as [e | ]; [ eexists; reflexivity | ].
  destruct (ValidateStruct req) as [errors | ]; [ eexists; reflexivity | ].
  destruct H; contradiction.
Qed.

(** X16. The user handler's [CreateUser] goes on after a request that did
    not parse or validate: when the responses can be written, it runs the
    service on whatever the parser left, and the answer of the service,
    201 for an account stored, is written after the 400 of the
    validation. *)
Theorem CreateUser_handler_runs_the_service_on_an_invalid_request :
  forall (S : Type) (repo : user.Repository S) (id : UUID) (now1 now2 : Time)
         (c : fiber.Ctx) (req : CreateUserRequest) (parsed : option error)
         (ValidateStruct : CreateUserRequest -> option Any) (s : S),
    (forall code b, fiber.JSON c code b = None) ->
    parsed <> None \/ ValidateStruct req <> None ->
    let data :=
      {| cd_Name := cr_Name req; cd_Email := cr_Email req;
         cd_Password := cr_Password req; cd_Role := cr_Role req;
         cd_Provider := cr_Provider req; cd_Photo := cr_Photo req;
         cd_Verified := cr_Verified req |} in
    exists refusal : fiber.Sent,
      fiber.code refusal = 400
      /\ UserHandler.CreateUser repo id now1 now2 c (req, parsed) ValidateStruct s
         = (let (err, s') := user.CreateUser repo id now1 now2 data s in
            (None,
             refusal :: snd (match err with
                             | Some e => UserHandler.handleServiceError c e
                             | None => response.Created c None
                             end),
             s')).
Proof.
  intros S repo id now1 now2 c req parsed ValidateStruct s Hj Hbad data.
  destruct (ParseAndValidate_refusal CreateUserRequest c req parsed ValidateStruct Hbad)
    as [b Hrun].
  exists {| fiber.code := 400; fiber.body := b |}. split; [ reflexivity | ].
  unfold UserHandler.CreateUser. rewrite Hrun, Hj. cbn [fst].
  unfold bind. fold data.
  destruct (user.CreateUser repo id now1 now2 data s) as [err s'].
  destruct err as [e | ].
  - destruct (user_handleServiceError_cases c e)
      as [[_ ->] | [[_ ->] | [[_ ->] | [_ ->]]]];
      unfold response.Conflict, response.BadRequest, response.NotFound,
        response.InternalError, response.write; rewrite Hj; reflexivity.
  - unfold response.Created, response.write. rewrite Hj. reflexivity.
Qed.

Lemma CreateUser_handler_runs_the_service_on_an_invalid_request_witness :
  (forall code b, fiber.JSON (sample.request "" [] None) code b = None)
  /\ (@None error <> None \/ sample.reject_all sample.create_carl <> None)
  /\ exists refusal : fiber.Sent,
       fiber.code refusal = 400
       /\ UserHandler.CreateUser reference.userRepo reference.uuid2 100 100
            (sample.request "" [] None) (sample.create_carl, None) sample.reject_all
            reference.ann_registered
          = (let (err, s') :=
               user.CreateUser reference.userRepo reference.uuid2 100 100
                 {| cd_Name := "Carl"; cd_Email := "not-an-address";
                    cd_Password := "longpass3"; cd_Role := ""; cd_Provider := "";
                    cd_Photo := ""; cd_Verified := false |} reference.ann_registered in
             (None,
              refusal :: snd (match err with
                              | Some e =>
                                  UserHandler.handleServiceError (sample.request "" [] None) e
                              | None => response.Created (sample.request "" [] None) None
                              end),
              s')).
Proof.
  assert (H1 : forall code b, fiber.JSON (sample.request "" [] None) code b = None)
    by reflexivity.
  assert (H2 : @None error <> None \/ sample.reject_all sample.create_carl <> None)
    by (right; discriminate).
  split; [ exact H1 | ]. split; [ exact H2 | ].
  exact (CreateUser_handler_runs_the_service_on_an_invalid_request
           gorm.DB reference.userRepo reference.uuid2 100 100 (sample.request "" [] None)
           sample.create_carl None sample.reject_all reference.ann_registered H1 H2).
Defined.

(** The rejected request of the sample is carried out.  Over a repository
    kept in memory the account is stored and the last response is 201;
    over the program's repository the service is run as well, and its
    lookup ends the request with a second response, of status 500. *)
Example CreateUser_handler_stores_a_rejected_request :
  UserHandler.CreateUser (reference.memoryRepo 50) reference.uuid2 100 100
    (sample.request "" [] None) (sample.create_carl, None) sample.reject_all
    [reference.ann_account]
  = (None,
     [{| fiber.code := 400;
         fiber.body := {| Status := "fail"; Message := ""; Data := None;
                          Errors := Some (Foreign "email must be a valid email address") |} |};
      {| fiber.code := 201;
         fiber.body := {| Status := "success"; Message := ""; Data := None;
                          Errors := None |} |}],
     [reference.ann_account;
      {| ID := reference.uuid2; Name := "Carl"; Email := "not-an-address";
         Password := "longpass3"; Role := "user"; Provider := "local";
         Photo := "default.png"; Verified := false; CreatedAt := 100;
         UpdatedAt := 100; DeletedAt := None |}])
  /\ (let '(_, sent, db) :=
        UserHandler.CreateUser reference.userRepo reference.uuid2 100 100
          (sample.request "" [] None) (sample.create_carl, None) sample.reject_all
          reference.ann_registered in
      map fiber.code sent = [400; 500] /\ db = reference.ann_registered).
Proof. vm_compute. repeat split; reflexivity. Qed.

(** X17. [SignUpUser] stops at a request that does not parse, validate or
    map: it writes one response, of status 400 or 500, returns no error,
    and neither calls the service nor touches the store. *)
Theorem SignUpUser_stops_at_an_invalid_request :
  forall (rt : Runtime) (S : Type) (repo : auth.Repository S) (salt : string)
         (now : Time) (id : UUID) (c : fiber.Ctx) (req : SignUpRequest)
         (parsed : option error) (ValidateStruct : SignUpRequest -> option Any)
         (AutoMap : SignUpRequest -> Result SignUpData) (s : S),
    parsed <> None \/ ValidateStruct req <> None \/ (exists e, AutoMap req = Err e) ->
    exists (code : Z) (b : APIResponse),
      AuthHandler.SignUpUser repo salt now id c (req, parsed) ValidateStruct AutoMap s
      = (None, [{| fiber.code := code; fiber.body := b |}], s)
      /\ ((code = 400 /\ Status b = "fail")
          \/ (code = 500 /\ Status b = "error" /\ parsed = None /\ ValidateStruct req = None)).
Proof.
  intros rt S repo salt now id c req parsed ValidateStruct AutoMap s H.
  unfold AuthHandler.SignUpUser, handler.ParseValidateAndMap.
  destruct parsed as [e | ].
  - eexists. eexists. split; [ reflexivity | ]. left. now split.
  - destruct (ValidateStruct req) as [errors | ].
    + eexists. eexists. split; [ reflexivity | ]. left. now split.
    + destruct H as [H | [H | [e H]]]; try contradiction.
      rewrite H. eexists. eexists. split; [ reflexivity | ]. right. now repeat split.
Qed.

Lemma SignUpUser_stops_at_an_invalid_request_witness :
  (@None error <> None \/ sample.reject_all sample.sign_up_nobody <> None
   \/ (exists e, sample.AutoMap sample.sign_up_nobody = Err e))
  /\ exists (code : Z) (b : APIResponse),
       AuthHandler.SignUpUser (rt := reference.runtime) reference.authRepo "salt" 100
         reference.uuid2 (sample.request "" [] None) (sample.sign_up_nobody, None)
         sample.reject_all sample.AutoMap reference.ann_registered
       = (None, [{| fiber.code := code; fiber.body := b |}], reference.ann_registered)
       /\ ((code = 400 /\ Status b = "fail")
           \/ (code = 500 /\ Status b = "error" /\ @None error = None
               /\ sample.reject_all sample.sign_up_nobody = None)).
Proof.
  assert (H : @None error <> None \/ sample.reject_all sample.sign_up_nobody <> None
              \/ (exists e, sample.AutoMap sample.sign_up_nobody = Err e))
    by (right; left; discriminate).
  split; [ exact H | ].
  exact (SignUpUser_stops_at_an_invalid_request reference.runtime gorm.DB reference.authRepo
           "salt" 100 reference.uuid2 (sample.request "" [] None) sample.sign_up_nobody
           None sample.reject_all sample.AutoMap reference.ann_registered H).
Defined.

(** ** The endpoints that take an id *)

(** X18. An id that is not a UUID is refused before the store is
    consulted: the endpoints that look up, delete and restore an account
    answer it with the status 400 and the message "invalid user ID
    format", whatever the repository, and leave the store as it is. *)
Theorem malformed_id_is_a_bad_request :
  forall (rt : Runtime) (S : Type) (repo : user.Repository S) (c : fiber.Ctx) (s : S),
    fiber.Params c "id" <> "" ->
    uuid_Parse (fiber.Params c "id") = None ->
    UserHandler.GetUserByID repo c s
    = (response.BadRequest c "invalid user ID format", s)
    /\ UserHandler.DeleteUser repo c s
       = (response.BadRequest c "invalid user ID format", s)
    /\ UserHandler.RestoreUser repo c s
       = (response.BadRequest c "invalid user ID format", s)
    /\ forall now req ValidateStruct,
         ValidateStruct req = None ->
         UserHandler.UpdateUser repo now c (req, None) ValidateStruct s
         = (response.BadRequest c "invalid user ID format", s).
Proof.
  intros rt S repo c s Hne Hid.
  apply String.eqb_neq in Hne.
  repeat split.
  - unfold UserHandler.GetUserByID. rewrite Hne.
    unfold bind, user.GetUserByID. rewrite Hid. reflexivity.
  - unfold UserHandler.DeleteUser. rewrite Hne.
    unfold bind, user.DeleteUser. rewrite Hid. reflexivity.
  - unfold UserHandler.RestoreUser. rewrite Hne.
    unfold bind, user.RestoreUser. rewrite Hid. reflexivity.
  - intros now req ValidateStruct Hv.
    unfold UserHandler.UpdateUser. rewrite Hne.
    unfold handler.ParseAndValidate. rewrite Hv.
    unfold bind, user.UpdateUser. rewrite Hid. reflexivity.
Qed.

Lemma malformed_id_is_a_bad_request_witness :
  fiber.Params (sample.request "42" [] None) "id" <> ""
  /\ reference.Parse (fiber.Params (sample.request "42" [] None) "id") = None
  /\ UserHandler.GetUserByID (rt := reference.runtime) reference.userRepo
       (sample.request "42" [] None) sample.two_accounts
     = (response.BadRequest (sample.request "42" [] None) "invalid user ID format",
        sample.two_accounts)
  /\ UserHandler.DeleteUser (rt := reference.runtime) reference.userRepo
       (sample.request "42" [] None) sample.two_accounts
     = (response.BadRequest (sample.request "42" [] None) "invalid user ID format",
        sample.two_accounts)
  /\ UserHandler.RestoreUser (rt := reference.runtime) reference.userRepo
       (sample.request "42" [] None) sample.two_accounts
     = (response.BadRequest (sample.request "42" [] None) "invalid user ID format",
        sample.two_accounts)
  /\ forall now req ValidateStruct,
       ValidateStruct req = None ->
       UserHandler.UpdateUser (rt := reference.runtime) reference.userRepo now
         (sample.request "42" [] None) (req, None) ValidateStruct sample.two_accounts
       = (response.BadRequest (sample.request "42" [] None) "invalid user ID format",
          sample.two_accounts).
Proof.
  assert (H1 : fiber.Params (sample.request "42" [] None) "id" <> "")
    by (cbn; discriminate).
  assert (H2 : reference.Parse (fiber.Params (sample.request "42" [] None) "id") = None)
    by (vm_compute; reflexivity).
  split; [ exact H1 | ]. split; [ exact H2 | ].
  exact (malformed_id_is_a_bad_request reference.runtime gorm.DB reference.userRepo
           (sample.request "42" [] None) sample.two_accounts H1 H2).
Defined.

(** X19. Over the program's repository the endpoints that look up,
    delete and restore an account answer an id that parses with the
    status 500 and the message "Internal server error", and leave the
    relation as it is: the service returns the error of the repository's
    lookup, which is none of the errors the handler knows. *)
Theorem id_endpoints_answer_with_500 :
  forall (rt : Runtime) (fresh : UUID) (clock : Time) (c : fiber.Ctx) (i : UUID)
         (db : gorm.DB),
    fiber.Params c "id" <> "" ->
    uuid_Parse (fiber.Params c "id") = Some i ->
    UserHandler.GetUserByID (user.userRepository fresh clock) c db
    = (response.InternalError c "Internal server error", db)
    /\ UserHandler.DeleteUser (user.userRepository fresh clock) c db
       = (response.InternalError c "Internal server error", db)
    /\ UserHandler.RestoreUser (user.userRepository fresh clock) c db
       = (response.InternalError c "Internal server error", db).
Proof.
  intros rt fresh clock c i db Hne Hid.
  apply String.eqb_neq in Hne.
  split; [ | split ].
  - unfold UserHandler.GetUserByID. rewrite Hne.
    unfold bind, user.GetUserByID. rewrite Hid.
    cbn [user.userRepository user.repo_GetUserByID]. unfold bind.
    rewrite userRepository_GetUserByID_run. reflexivity.
  - unfold UserHandler.DeleteUser. rewrite Hne.
    unfold bind, user.DeleteUser. rewrite Hid.
    cbn [user.userRepository user.repo_GetUserByID]. unfold bind.
    rewrite userRepository_GetUserByID_run. reflexivity.
  - unfold UserHandler.RestoreUser. rewrite Hne.
    unfold bind, user.RestoreUser. rewrite Hid.
    cbn [user.userRepository user.repo_GetUserByID]. unfold bind.
    rewrite userRepository_GetUserByID_run. reflexivity.
Qed.

Lemma id_endpoints_answer_with_500_witness :
  fiber.Params (sample.request reference.id1 [] None) "id" <> ""
  /\ reference.Parse (fiber.Params (sample.request reference.id1 [] None) "id")
     = Some reference.uuid1
  /\ UserHandler.GetUserByID (rt := reference.runtime) reference.userRepo
       (sample.request reference.id1 [] None) sample.two_accounts
     = (response.InternalError (sample.request reference.id1 [] None)
          "Internal server error", sample.two_accounts)
  /\ UserHandler.DeleteUser (rt := reference.runtime) reference.userRepo
       (sample.request reference.id1 [] None) sample.two_accounts
     = (response.InternalError (sample.request reference.id1 [] None)
          "Internal server error", sample.two_accounts)
  /\ UserHandler.RestoreUser (rt := reference.runtime) reference.userRepo
       (sample.request reference.id1 [] None) sample.two_accounts
     = (response.InternalError (sample.request reference.id1 [] None)
          "Internal server error", sample.two_accounts).
Proof.
  assert (H1 : fiber.Params (sample.request reference.id1 [] None) "id" <> "")
    by (cbn; discriminate).
  assert (H2 : reference.Parse (fiber.Params (sample.request reference.id1 [] None) "id")
               = Some reference.uuid1)
    by (vm_compute; reflexivity).
  split; [ exact H1 | ]. split; [ exact H2 | ].
  exact (id_endpoints_answer_with_500 reference.runtime 77 50
           (sample.request reference.id1 [] None) reference.uuid1 sample.two_accounts
           H1 H2).
Defined.

(** ** Statistics *)

Lemma wrap64_small :
  forall z : Z, - 2 ^ 63 <= z < 2 ^ 63 -> wrap64 z = z.
Proof.
  intros z H. unfold wrap64. rewrite Z.mod_small; lia.
Qed.

Lemma filter_length_le :
  forall (A : Type) (f g : A -> bool) (l : list A),
    (forall x, f x = true -> g x = true) ->
    (List.length (filter f l) <= List.length (filter g l))%nat.
Proof.
  intros A f g l H. induction l as [ | a l IH ]; [ reflexivity | ].
  cbn [filter]. destruct (f a) eqn:Hf.
  - rewrite (H a Hf). cbn [List.length]. lia.
  - destruct (g a); cbn [List.length]; lia.
Qed.

Lemma filter_length_bound :
  forall (A : Type) (f : A -> bool) (l : list A),
    (List.length (filter f l) <= List.length l)%nat.
Proof.
  intros A f l. induction l as [ | a l IH ]; [ reflexivity | ].
  cbn [filter]. destruct (f a); cbn [List.length]; lia.
Qed.

(** What the service's [GetUsers] counts for the queries of the
    statistics. *)
Lemma GetUsers_count_query :
  forall (rt : Runtime) (fresh : UUID) (clock : Time) (verified : option bool)
         (role : string) (db : gorm.DB),
    exists users,
      user.GetUsers (user.userRepository fresh clock)
        (UserHandler.count_query verified role) db
      = (users,
         Z.of_nat (List.length
                     (filter (gorm.selected
                                (conditions_of (UserHandler.count_query verified role))) db)),
         None, db).
Proof.
  intros rt fresh clock verified role db.
  rewrite GetUsers_in_range by (cbn; lia).
  cbn [user.userRepository user.repo_GetUsers].
  rewrite userRepository_GetUsers_run. eexists. reflexivity.
Qed.

(** X20. The statistics are consistent: on a relation of fewer than 2^63
    rows the endpoint answers 200 with counts in which the total is the
    number of the rows of the relation, those that carry a deletion time
    included, the administrators and the regular accounts add up to the
    total, as do the verified and the unverified ones, and no count is
    negative. *)
Theorem GetUserStats_adds_up :
  forall (rt : Runtime) (fresh : UUID) (clock : Time) (c : fiber.Ctx) (db : gorm.DB),
    Z.of_nat (List.length db) < 2 ^ 63 ->
    exists stats : Stats,
      UserHandler.GetUserStats (user.userRepository fresh clock) c db
      = (response.OK c (Some (StatsData stats)), db)
      /\ total_users stats = Z.of_nat (List.length db)
      /\ admin_users stats + regular_users stats = total_users stats
      /\ verified_users stats + unverified_users stats = total_users stats
      /\ 0 <= admin_users stats /\ 0 <= regular_users stats
      /\ 0 <= verified_users stats /\ 0 <= unverified_users stats.
Proof.
  intros rt fresh clock c db Hsize.
  unfold UserHandler.GetUserStats, bind.
  destruct (GetUsers_count_query rt fresh clock None "" db) as [u1 ->].
  destruct (GetUsers_count_query rt fresh clock (Some true) "" db) as [u2 ->].
  destruct (GetUsers_count_query rt fresh clock None "admin" db) as [u3 ->].
  change (conditions_of (UserHandler.count_query None "")) with (@nil gorm.Pred).
  change (conditions_of (UserHandler.count_query (Some true) ""))
    with [gorm.VerifiedEq true].
  change (conditions_of (UserHandler.count_query None "admin"))
    with [gorm.RoleEq "admin"].
  assert (Hall : filter (gorm.selected []) db = db).
  { clear. induction db as [ | a l IH ]; [ reflexivity | ]. cbn. now rewrite IH. }
  rewrite Hall.
  set (verified := filter (gorm.selected [gorm.VerifiedEq true]) db).
  set (admins := filter (gorm.selected [gorm.RoleEq "admin"]) db).
  assert (Hv : (List.length verified <= List.length db)%nat)
    by apply filter_length_bound.
  assert (Ha : (List.length admins <= List.length db)%nat)
    by apply filter_length_bound.
  eexists. split; [ reflexivity | ].
  cbn [total_users admin_users regular_users verified_users unverified_users].
  rewrite !wrap64_small by lia.
  split; [ reflexivity | ].
  lia.
Qed.

Lemma GetUserStats_adds_up_witness :
  Z.of_nat (List.length sample.two_accounts) < 2 ^ 63
  /\ exists stats : Stats,
       UserHandler.GetUserStats reference.userRepo (sample.request "" [] None)
         sample.two_accounts
       = (response.OK (sample.request "" [] None) (Some (StatsData stats)),
          sample.two_accounts)
       /\ total_users stats = Z.of_nat (List.length sample.two_accounts)
       /\ admin_users stats + regular_users stats = total_users stats
       /\ verified_users stats + unverified_users stats = total_users stats
       /\ 0 <= admin_users stats /\ 0 <= regular_users stats
       /\ 0 <= verified_users stats /\ 0 <= unverified_users stats.
Proof.
  assert (H : Z.of_nat (List.length sample.two_accounts) < 2 ^ 63)
    by (vm_compute; reflexivity).
  split; [ exact H | ].
  exact (GetUserStats_adds_up reference.runtime 77 50 (sample.request "" [] None)
           sample.two_accounts H).
Defined.

(** On the relation that holds Ann's row and Bob's, whose row carries a
    deletion time, the statistics count two accounts, one of them an
    administrator and verified. *)
Example GetUserStats_of_two_accounts :
  UserHandler.GetUserStats reference.userRepo (sample.request "" [] None)
    sample.two_accounts
  = (response.OK (sample.request "" [] None)
       (Some (StatsData {| total_users := 2; verified_users := 1; admin_users := 1;
                           regular_users := 1; unverified_users := 1 |})),
     sample.two_accounts).
Proof. vm_compute. reflexivity. Qed.

(** ** Input the services refuse *)

(** X21. The user service refuses a creation without a name, without an
    email or with a password of fewer than 8 bytes before it consults the
    repository: the store is untouched, and the create endpoint answers a
    request that passed the validator with the status 400 and the message
    of the service. *)
Theorem CreateUser_refuses_invalid_input :
  forall (S : Type) (repo : user.Repository S) (id : UUID) (now1 now2 : Time)
         (c : fiber.Ctx) (req : CreateUserRequest)
         (ValidateStruct : CreateUserRequest -> option Any) (s : S),
    cr_Name req = "" \/ cr_Email req = ""
    \/ Z.of_nat (String.length (cr_Password req)) < 8 ->
    exists msg : string,
      In msg ["name is required"; "email is required"; "password is required";
              "password must be at least 8 characters"]
      /\ user.CreateUser repo id now1 now2
           {| cd_Name := cr_Name req; cd_Email := cr_Email req;
              cd_Password := cr_Password req; cd_Role := cr_Role req;
              cd_Provider := cr_Provider req; cd_Photo := cr_Photo req;
              cd_Verified := cr_Verified req |} s
         = (Some (New msg), s)
      /\ (ValidateStruct req = None ->
          UserHandler.CreateUser repo id now1 now2 c (req, None) ValidateStruct s
          = (response.BadRequest c msg, s)).
Proof.
  intros S repo id now1 now2 c req ValidateStruct s H.
  unfold UserHandler.CreateUser, handler.ParseAndValidate, user.CreateUser.
  cbn [fst cd_Name cd_Email cd_Password]. unfold bind.
  destruct (String.eqb_spec (cr_Name req) "") as [Hn | Hn].
  { exists "name is required". split; [ cbn [In]; auto | ].
    split; [ reflexivity | ]. intros ->. reflexivity. }
  destruct (String.eqb_spec (cr_Email req) "") as [He | He].
  { exists "email is required". split; [ cbn [In]; auto | ].
    split; [ reflexivity | ]. intros ->. reflexivity. }
  destruct (String.eqb_spec (cr_Password req) "") as [Hp | Hp].
  { exists "password is required". split; [ cbn [In]; auto | ].
    split; [ reflexivity | ]. intros ->. reflexivity. }
  destruct (Z.of_nat (String.length (cr_Password req)) <? 8) eqn:Hl.
  { exists "password must be at least 8 characters". split; [ cbn [In]; auto 6 | ].
    split; [ reflexivity | ]. intros ->. reflexivity. }
  apply Z.ltb_ge in Hl. destruct H as [H | [H | H]]; [ contradiction | contradiction | lia ].
Qed.

Lemma CreateUser_refuses_invalid_input_witness :
  (cr_Name sample.create_short = "" \/ cr_Email sample.create_short = ""
   \/ Z.of_nat (String.length (cr_Password sample.create_short)) < 8)
  /\ exists msg : string,
       In msg ["name is required"; "email is required"; "password is required";
               "password must be at least 8 characters"]
       /\ user.CreateUser reference.userRepo reference.uuid2 100 100
            {| cd_Name := cr_Name sample.create_short;
               cd_Email := cr_Email sample.create_short;
               cd_Password := cr_Password sample.create_short;
               cd_Role := cr_Role sample.create_short;
               cd_Provider := cr_Provider sample.create_short;
               cd_Photo := cr_Photo sample.create_short;
               cd_Verified := cr_Verified sample.create_short |} sample.two_accounts
          = (Some (New msg), sample.two_accounts)
       /\ (sample.accept_all sample.create_short = None ->
           UserHandler.CreateUser reference.userRepo reference.uuid2 100 100
             (sample.request "" [] None) (sample.create_short, None) sample.accept_all
             sample.two_accounts
           = (response.BadRequest (sample.request "" [] None) msg, sample.two_accounts)).
Proof.
  assert (H : cr_Name sample.create_short = "" \/ cr_Email sample.create_short = ""
              \/ Z.of_nat (String.length (cr_Password sample.create_short)) < 8)
    by (right; right; vm_compute; reflexivity).
  split; [ exact H | ].
  exact (CreateUser_refuses_invalid_input gorm.DB reference.userRepo reference.uuid2 100 100
           (sample.request "" [] None) sample.create_short sample.accept_all
           sample.two_accounts H).
Defined.

(** X22. [SignUp] refuses data without a name, without an email, with a
    password of fewer than 8 bytes or with a confirmation that differs,
    before it hashes or stores anything: it returns no account, the store
    is untouched, and the handler answers the error with the status 400
    and the message of the service. *)
Theorem SignUp_refuses_invalid_input :
  forall (rt : Runtime) (S : Type) (repo : auth.Repository S) (salt : string)
         (now : Time) (id : UUID) (c : fiber.Ctx) (data : SignUpData) (s : S),
    su_Name data = "" \/ su_Email data = ""
    \/ Z.of_nat (String.length (su_Password data)) < 8
    \/ su_Password data <> su_PasswordConfirm data ->
    exists msg : string,
      In msg ["name is required"; "email is required"; "password is required";
              "password must be at least 8 characters"; "passwords do not match"]
      /\ auth.SignUp repo salt now id data s = (None, Some (New msg), s)
      /\ AuthHandler.handleServiceError c (New msg) = response.BadRequest c msg.
Proof.
  intros rt S repo salt now id c data s H.
  unfold auth.SignUp, auth.validateSignUpData.
  destruct (String.eqb_spec (su_Name data) "") as [Hn | Hn].
  { exists "name is required". split; [ cbn [In]; auto | ]. split; reflexivity. }
  destruct (String.eqb_spec (su_Email data) "") as [He | He].
  { exists "email is required". split; [ cbn [In]; auto | ]. split; reflexivity. }
  destruct (String.eqb_spec (su_Password data) "") as [Hp | Hp].
  { exists "password is required". split; [ cbn [In]; auto | ]. split; reflexivity. }
  destruct (Z.of_nat (String.length (su_Password data)) <? 8) eqn:Hl.
  { exists "password must be at least 8 characters". split; [ cbn [In]; auto 6 | ].
    split; reflexivity. }
  destruct (String.eqb_spec (su_Password data) (su_PasswordConfirm data)) as [Hc | Hc].
  { apply Z.ltb_ge in Hl.
    destruct H as [H | [H | [H | H]]]; [ contradiction | contradiction | lia | contradiction ]. }
  exists "passwords do not match". split; [ cbn [In]; auto 7 | ]. split; reflexivity.
Qed.

Lemma SignUp_refuses_invalid_input_witness :
  (su_Name sample.mismatched = "" \/ su_Email sample.mismatched = ""
   \/ Z.of_nat (String.length (su_Password sample.mismatched)) < 8
   \/ su_Password sample.mismatched <> su_PasswordConfirm sample.mismatched)
  /\ exists msg : string,
       In msg ["name is required"; "email is required"; "password is required";
               "password must be at least 8 characters"; "passwords do not match"]
       /\ auth.SignUp (rt := reference.runtime) reference.authRepo "salt" 100
            reference.uuid2 sample.mismatched sample.two_accounts
          = (None, Some (New msg), sample.two_accounts)
       /\ AuthHandler.handleServiceError (sample.request "" [] None) (New msg)
          = response.BadRequest (sample.request "" [] None) msg.
Proof.
  assert (H : su_Name sample.mismatched = "" \/ su_Email sample.mismatched = ""
              \/ Z.of_nat (String.length (su_Password sample.mismatched)) < 8
              \/ su_Password sample.mismatched <> su_PasswordConfirm sample.mismatched)
    by (right; right; right; discriminate).
  split; [ exact H | ].
  exact (SignUp_refuses_invalid_input reference.runtime gorm.DB reference.authRepo
           "salt" 100 reference.uuid2 (sample.request "" [] None) sample.mismatched
           sample.two_accounts H).
Defined.

(** ** An update that asks for a taken email *)

(** X23. An update that names the email of another account is refused
    with "email is already taken by another user", whatever the
    repository: when the lookup by id finds the account under another
    email and the lookup by the requested email finds an account of
    another id, the service returns that error after the two lookups and
    makes no further call of the repository. *)
Theorem UpdateUser_refuses_a_taken_email :
  forall (rt : Runtime) (S : Type) (repo : user.Repository S) (now : Time)
         (id : string) (i : UUID) (data : UpdateUserData) (s s1 s2 : S)
         (existing other : UserResponse),
    uuid_Parse id = Some i ->
    ud_Name data <> "" -> ud_Email data <> "" ->
    user.repo_GetUserByID repo id false s = (Ok existing, s1) ->
    r_Email existing <> ud_Email data ->
    user.repo_GetUserByEmail repo (ud_Email data) s1 = (Ok other, s2) ->
    r_ID other <> r_ID existing ->
    user.UpdateUser repo now id data s
    = (Some (New "email is already taken by another user"), s2).
Proof.
  intros rt S repo now id i data s s1 s2 existing other Hid Hname Hemail Hfound Hne
         Hother Hkey.
  unfold user.UpdateUser. rewrite Hid.
  apply String.eqb_neq in Hname, Hemail. rewrite Hname, Hemail.
  unfold bind. rewrite Hfound.
  replace (ud_Email data =? r_Email existing)%string with false
    by (symmetry; apply String.eqb_neq; congruence).
  cbn [negb]. rewrite Hother.
  replace (r_ID other =? r_ID existing) with false
    by (symmetry; now apply Z.eqb_neq).
  reflexivity.
Qed.

Lemma UpdateUser_refuses_a_taken_email_witness :
  reference.Parse reference.id1 = Some reference.uuid1
  /\ ud_Name sample.take_carls_email <> ""
  /\ ud_Email sample.take_carls_email <> ""
  /\ user.repo_GetUserByID (reference.memoryRepo 50) reference.id1 false
       sample.ann_and_carl
     = (Ok (user.scan reference.ann_account), sample.ann_and_carl)
  /\ r_Email (user.scan reference.ann_account) <> ud_Email sample.take_carls_email
  /\ user.repo_GetUserByEmail (reference.memoryRepo 50)
       (ud_Email sample.take_carls_email) sample.ann_and_carl
     = (Ok (user.scan sample.carl_account), sample.ann_and_carl)
  /\ r_ID (user.scan sample.carl_account) <> r_ID (user.scan reference.ann_account)
  /\ user.UpdateUser (rt := reference.runtime) (reference.memoryRepo 50) 299
       reference.id1 sample.take_carls_email sample.ann_and_carl
     = (Some (New "email is already taken by another user"), sample.ann_and_carl).
Proof.
  assert (H1 : reference.Parse reference.id1 = Some reference.uuid1)
    by (vm_compute; reflexivity).
  assert (H2 : ud_Name sample.take_carls_email <> "") by discriminate.
  assert (H3 : ud_Email sample.take_carls_email <> "") by discriminate.
  assert (H4 : user.repo_GetUserByID (reference.memoryRepo 50) reference.id1 false
                 sample.ann_and_carl
               = (Ok (user.scan reference.ann_account), sample.ann_and_carl))
    by (vm_compute; reflexivity).
  assert (H5 : r_Email (user.scan reference.ann_account)
               <> ud_Email sample.take_carls_email) by discriminate.
  assert (H6 : user.repo_GetUserByEmail (reference.memoryRepo 50)
                 (ud_Email sample.take_carls_email) sample.ann_and_carl
               = (Ok (user.scan sample.carl_account), sample.ann_and_carl))
    by (vm_compute; reflexivity).
  assert (H7 : r_ID (user.scan sample.carl_account)
               <> r_ID (user.scan reference.ann_account))
    by (vm_compute; discriminate).
  split; [ exact H1 | ]. split; [ exact H2 | ]. split; [ exact H3 | ].
  split; [ exact H4 | ]. split; [ exact H5 | ]. split; [ exact H6 | ].
  split; [ exact H7 | ].
  exact (UpdateUser_refuses_a_taken_email reference.runtime (list User)
           (reference.memoryRepo 50) 299 reference.id1 reference.uuid1
           sample.take_carls_email sample.ann_and_carl sample.ann_and_carl
           sample.ann_and_carl (user.scan reference.ann_account)
           (user.scan sample.carl_account) H1 H2 H3 H4 H5 H6 H7).
Defined.

(** ** Registering a taken address *)

(** X24. A registration whose email has the normal form of an address
    that has signed up before is answered with the status 409 and the
    message "user with that email already exists", and stores nothing. *)
Theorem SignUpUser_answers_a_taken_email_with_409 :
  forall (rt : Runtime) (clock1 clock2 : Time) (salt1 salt2 : string)
         (now1 now2 : Time) (id1 id2 : UUID) (first second : SignUpData)
         (c : fiber.Ctx) (req : SignUpRequest)
         (ValidateStruct : SignUpRequest -> option Any)
         (AutoMap : SignUpRequest -> Result SignUpData)
         (db db1 : gorm.DB) (u : User) (hashed : string),
    auth.SignUp (auth.authRepository clock1) salt1 now1 id1 first db
    = ((Some u, None), db1) ->
    ValidateStruct req = None ->
    AutoMap req = Ok second ->
    strings_ToLower (strings_TrimSpace (su_Email second))
    = strings_ToLower (strings_TrimSpace (su_Email first)) ->
    auth.validateSignUpData second = None ->
    su_Password second = su_PasswordConfirm second ->
    hashing.HashPassword salt2 (su_Password second) = (hashed, None) ->
    AuthHandler.SignUpUser (auth.authRepository clock2) salt2 now2 id2 c (req, None)
      ValidateStruct AutoMap db1
    = (response.Conflict c "user with that email already exists", db1).
Proof.
  intros rt clock1 clock2 salt1 salt2 now1 now2 id1 id2 first second c req
         ValidateStruct AutoMap db db1 u hashed Hfirst Hv Hmap Hsame Hvalid Hconfirm Hhash.
  unfold AuthHandler.SignUpUser, handler.ParseValidateAndMap.
  rewrite Hv, Hmap. unfold bind.
  rewrite (SignUp_twice_conflict rt clock1 clock2 salt1 salt2 now1 now2 id1 id2
             first second db db1 u hashed Hfirst Hsame Hvalid Hconfirm Hhash).
  reflexivity.
Qed.

Lemma SignUpUser_answers_a_taken_email_with_409_witness :
  auth.SignUp (rt := reference.runtime) reference.authRepo "salt" 100 reference.uuid1
    reference.ann []
  = ((Some reference.ann_account, None), reference.ann_registered)
  /\ sample.accept_all sample.sign_up_ann_again = None
  /\ sample.AutoMap sample.sign_up_ann_again = Ok sample.ann_again
  /\ reference.ToLower (reference.TrimSpace (su_Email sample.ann_again))
     = reference.ToLower (reference.TrimSpace (su_Email reference.ann))
  /\ auth.validateSignUpData sample.ann_again = None
  /\ su_Password sample.ann_again = su_PasswordConfirm sample.ann_again
  /\ hashing.HashPassword (rt := reference.runtime) "pepper" (su_Password sample.ann_again)
     = ("$2a$10$pepperlongpass2", None)
  /\ AuthHandler.SignUpUser (rt := reference.runtime) reference.authRepo "pepper" 200
       reference.uuid2 (sample.request "" [] None) (sample.sign_up_ann_again, None)
       sample.accept_all sample.AutoMap reference.ann_registered
     = (response.Conflict (sample.request "" [] None) "user with that email already exists",
        reference.ann_registered).
Proof.
  assert (H1 : auth.SignUp (rt := reference.runtime) reference.authRepo "salt" 100
                 reference.uuid1 reference.ann []
               = ((Some reference.ann_account, None), reference.ann_registered))
    by (vm_compute; reflexivity).
  assert (H2 : sample.accept_all sample.sign_up_ann_again = None) by reflexivity.
  assert (H3 : sample.AutoMap sample.sign_up_ann_again = Ok sample.ann_again)
    by reflexivity.
  assert (H4 : reference.ToLower (reference.TrimSpace (su_Email sample.ann_again))
               = reference.ToLower (reference.TrimSpace (su_Email reference.ann)))
    by (vm_compute; reflexivity).
  assert (H5 : auth.validateSignUpData sample.ann_again = None)
    by (vm_compute; reflexivity).
  assert (H6 : su_Password sample.ann_again = su_PasswordConfirm sample.ann_again)
    by reflexivity.
  assert (H7 : hashing.HashPassword (rt := reference.runtime) "pepper"
                 (su_Password sample.ann_again)
               = ("$2a$10$pepperlongpass2", None))
    by (vm_compute; reflexivity).
  repeat (split; [ first [ exact H1 | exact H2 | exact H3 | exact H4 | exact H5
                         | exact H6 | exact H7 ] | ]).
  exact (SignUpUser_answers_a_taken_email_with_409 reference.runtime 50 50 "salt" "pepper"
           100 200 reference.uuid1 reference.uuid2 reference.ann sample.ann_again
           (sample.request "" [] None) sample.sign_up_ann_again sample.accept_all
           sample.AutoMap [] reference.ann_registered reference.ann_account
           "$2a$10$pepperlongpass2" H1 H2 H3 H4 H5 H6 H7).
Defined.

(** ** Deletion and sign-in *)

(** X25. [SignIn] does not look at the deletion time of an account: an
    account whose row carries a deletion time signs in like any other.
    When the row stored under the normalised email is the only one of
    that email and the digest library accepts the password against its
    digest, [SignIn] returns a token and the account, and leaves the
    relation as it is. *)
Theorem SignIn_ignores_the_deletion_time :
  forall (rt : Runtime) (clock : Time) (random : string) (email password : string)
         (db : gorm.DB) (user : User) (deleted : Time),
    In user db ->
    DeletedAt user = Some deleted ->
    Email user = strings_ToLower (strings_TrimSpace email) ->
    (forall row, In row db -> Email row = Email user -> row = user) ->
    bcrypt_CompareHashAndPassword (Password user) password = None ->
    auth.SignIn (auth.authRepository clock) (Ok random) email password db
    = ((base64_URLEncoding_EncodeToString random, Some user, None), db).
Proof.
  intros rt clock random email password db user deleted Hin Hd Hemail Hone Hpw.
  unfold auth.SignIn.
  cbn [auth.authRepository auth.repo_GetUserByEmail]. unfold bind.
  rewrite authRepository_GetUserByEmail_run.
  assert (Hsel : In user (filter (gorm.selected
                                    [gorm.EmailEq (strings_ToLower (strings_TrimSpace email))])
                            db)).
  { apply filter_In. split; [ exact Hin | ].
    now rewrite selected_by_email, Hemail, String.eqb_refl. }
  destruct (gorm.least_id _) as [found | ] eqn:Hf;
    [ | apply least_id_None in Hf; rewrite Hf in Hsel; destruct Hsel ].
  apply least_id_In, filter_In in Hf. destruct Hf as [Hfin Hfsel].
  rewrite selected_by_email in Hfsel. apply String.eqb_eq in Hfsel.
  assert (Hsame : found = user) by (apply Hone; [ exact Hfin | congruence ]).
  subst found.
  unfold hashing.VerifyPassword. rewrite Hpw. reflexivity.
Qed.

Lemma SignIn_ignores_the_deletion_time_witness :
  In sample.bob_account sample.two_accounts
  /\ DeletedAt sample.bob_account = Some 200
  /\ Email sample.bob_account = reference.ToLower (reference.TrimSpace " Bob@Example.com")
  /\ (forall row, In row sample.two_accounts ->
        Email row = Email sample.bob_account -> row = sample.bob_account)
  /\ reference.CompareHashAndPassword (Password sample.bob_account) "bobspassword" = None
  /\ auth.SignIn (rt := reference.runtime) reference.authRepo (Ok "token")
       " Bob@Example.com" "bobspassword" sample.two_accounts
     = (("token", Some sample.bob_account, None), sample.two_accounts).
Proof.
  assert (H1 : In sample.bob_account sample.two_accounts) by (right; left; reflexivity).
  assert (H2 : DeletedAt sample.bob_account = Some 200) by reflexivity.
  assert (H3 : Email sample.bob_account
               = reference.ToLower (reference.TrimSpace " Bob@Example.com"))
    by (vm_compute; reflexivity).
  assert (H4 : forall row, In row sample.two_accounts ->
                 Email row = Email sample.bob_account -> row = sample.bob_account).
  { intros row [<- | [<- | []]] He; [ discriminate He | reflexivity ]. }
  assert (H5 : reference.CompareHashAndPassword (Password sample.bob_account)
                 "bobspassword" = None)
    by (vm_compute; reflexivity).
  split; [ exact H1 | ]. split; [ exact H2 | ]. split; [ exact H3 | ].
  split; [ exact H4 | ]. split; [ exact H5 | ].
  exact (SignIn_ignores_the_deletion_time reference.runtime 50 "token"
           " Bob@Example.com" "bobspassword" sample.two_accounts sample.bob_account 200
           H1 H2 H3 H4 H5).
Defined.

(** ** Pages as slices of the listing *)

Lemma NoDup_map_filter :
  forall (A B : Type) (f : A -> B) (p : A -> bool) (l : list A),
    NoDup (map f l) -> NoDup (map f (filter p l)).
Proof.
  intros A B f p l. induction l as [ | a l IH ]; intros H; [ constructor | ].
  cbn [map] in H. inversion H as [ | ? ? Hnotin Hnd ]; subst.
  cbn [filter]. destruct (p a); [ | now apply IH ].
  cbn [map]. constructor; [ | now apply IH ].
  intro Hin. apply Hnotin. apply in_map_iff in Hin. destruct Hin as [x [Hx Hin]].
  apply filter_In in Hin. rewrite <- Hx. apply in_map. apply Hin.
Qed.

(** Among rows created at different times the database has no choice. *)
Lemma insert_desc_without_ties :
  forall (before before' : UUID -> UUID -> bool) (u : User) (l : list User),
    (forall v, In v l -> CreatedAt v <> CreatedAt u) ->
    gorm.insert_desc before u l = gorm.insert_desc before' u l.
Proof.
  intros before before' u l. induction l as [ | v l IH ]; intros H; [ reflexivity | ].
  cbn [gorm.insert_desc].
  replace (CreatedAt v =? CreatedAt u) with false
    by (symmetry; apply Z.eqb_neq; apply H; now left).
  cbn [andb]. rewrite IH; [ reflexivity | ].
  intros w Hw. apply H. now right.
Qed.

Lemma order_created_at_desc_without_ties :
  forall (rt : Runtime) (offset limit offset' limit' : Z) (rows : list User),
    NoDup (map CreatedAt rows) ->
    gorm.order_created_at_desc offset limit rows
    = gorm.order_created_at_desc offset' limit' rows.
Proof.
  intros rt offset limit offset' limit' rows.
  induction rows as [ | u rows IH ]; intros H; [ reflexivity | ].
  cbn [map] in H. inversion H as [ | ? ? Hnotin Hnd ]; subst.
  cbn [gorm.order_created_at_desc fold_right].
  fold (gorm.order_created_at_desc offset limit rows).
  fold (gorm.order_created_at_desc offset' limit' rows).
  rewrite (IH Hnd).
  apply insert_desc_without_ties.
  intros v Hv Heq. apply order_created_at_desc_In in Hv.
  apply Hnotin. rewrite <- Heq. now apply in_map.
Qed.

(** X26. On a relation whose rows were created at different times, the
    pages of a listing are the consecutive slices of one ordered listing:
    the list obtained with page 1 and a page size of at least the total
    has as many accounts as the total, and page [p] of size [n] is made
    of its accounts from position [(p - 1) * n] on, at most [n] of them,
    provided that product does not overflow.  The order of rows created
    at the same time is the database's, query by query. *)
Theorem GetUsers_pages_are_slices :
  forall (rt : Runtime) (query : ListUsersQuery) (db : gorm.DB),
    NoDup (map CreatedAt db) ->
    1 <= Page query -> 1 <= PerPage query ->
    (Page query - 1) * PerPage query < 2 ^ 63 ->
    let '(users, total, _, _) := user.userRepository_GetUsers query db in
    let '(all, _, _, _) :=
      user.userRepository_GetUsers (set_Page 1 (set_PerPage (Z.max 1 total) query)) db in
    Z.of_nat (List.length all) = total
    /\ users = firstn (Z.to_nat (PerPage query))
                 (skipn (Z.to_nat ((Page query - 1) * PerPage query)) all).
Proof.
  intros rt query db Hnd Hp Hn Hoff.
  rewrite !userRepository_GetUsers_run.
  change (conditions_of (set_Page 1 (set_PerPage _ query))) with (conditions_of query).
  cbn [set_Page set_PerPage Page PerPage ShowDeleted].
  set (rows := filter (gorm.selected (conditions_of query)) db).
  assert (Hrows : NoDup (map CreatedAt rows)) by now apply NoDup_map_filter.
  replace (Page query <=? 0) with false by (symmetry; apply Z.leb_gt; lia).
  replace (PerPage query <=? 0) with false by (symmetry; apply Z.leb_gt; lia).
  replace (Z.max 1 (Z.of_nat (List.length rows)) <=? 0) with false
    by (symmetry; apply Z.leb_gt; lia).
  change (if 1 <=? 0 then 1 else 1) with 1.
  rewrite (order_created_at_desc_without_ties rt
             (wrap64 ((1 - 1) * Z.max 1 (Z.of_nat (List.length rows))))
             (Z.max 1 (Z.of_nat (List.length rows)))
             (wrap64 ((Page query - 1) * PerPage query)) (PerPage query) rows Hrows).
  set (sorted := gorm.order_created_at_desc _ _ rows).
  assert (Hlen : List.length sorted = List.length rows)
    by apply order_created_at_desc_length.
  assert (Hall : gorm.page_of (wrap64 ((1 - 1) * Z.max 1 (Z.of_nat (List.length rows))))
                   (Z.max 1 (Z.of_nat (List.length rows))) sorted = sorted).
  { change ((1 - 1) * Z.max 1 (Z.of_nat (List.length rows))) with 0.
    change (wrap64 0) with 0. unfold gorm.page_of. cbn [Z.ltb Z.compare].
    replace (0 <=? Z.max 1 (Z.of_nat (List.length rows))) with true
      by (symmetry; apply Z.leb_le; lia).
    apply firstn_all2. lia. }
  rewrite Hall. rewrite length_map, Hlen.
  split; [ reflexivity | ].
  rewrite skipn_map, firstn_map. f_equal.
  rewrite wrap64_small by nia.
  unfold gorm.page_of.
  replace (0 <=? PerPage query) with true by (symmetry; apply Z.leb_le; lia).
  destruct (0 <? (Page query - 1) * PerPage query) eqn:Hpos; [ reflexivity | ].
  apply Z.ltb_ge in Hpos.
  replace ((Page query - 1) * PerPage query) with 0 by nia.
  reflexivity.
Qed.

Lemma GetUsers_pages_are_slices_witness :
  NoDup (map CreatedAt sample.two_accounts)
  /\ 1 <= Page sample.second_of_one /\ 1 <= PerPage sample.second_of_one
  /\ (Page sample.second_of_one - 1) * PerPage sample.second_of_one < 2 ^ 63
  /\ let '(users, total, _, _) :=
       user.userRepository_GetUsers (rt := reference.runtime) sample.second_of_one
         sample.two_accounts in
     let '(all, _, _, _) :=
       user.userRepository_GetUsers (rt := reference.runtime)
         (set_Page 1 (set_PerPage (Z.max 1 total) sample.second_of_one))
         sample.two_accounts in
     Z.of_nat (List.length all) = total
     /\ users = firstn (Z.to_nat (PerPage sample.second_of_one))
                  (skipn (Z.to_nat ((Page sample.second_of_one - 1)
                                    * PerPage sample.second_of_one)) all).
Proof.
  assert (H0 : NoDup (map CreatedAt sample.two_accounts)).
  { vm_compute. constructor; [ intros [H | []]; discriminate H | ].
    constructor; [ intros [] | constructor ]. }
  assert (H1 : 1 <= Page sample.second_of_one) by (vm_compute; discriminate).
  assert (H2 : 1 <= PerPage sample.second_of_one) by (vm_compute; discriminate).
  assert (H3 : (Page sample.second_of_one - 1) * PerPage sample.second_of_one < 2 ^ 63)
    by (vm_compute; reflexivity).
  split; [ exact H0 | ]. split; [ exact H1 | ]. split; [ exact H2 | ].
  split; [ exact H3 | ].
  exact (GetUsers_pages_are_slices reference.runtime sample.second_of_one
           sample.two_accounts H0 H1 H2 H3).
Defined.

(** X27. The listing leaves out no row that meets the query: for a query
    without a search, every row that is visible to it and has the role,
    the provider and the verification state it names is counted in the
    total and appears in the listing of page 1 with a page size of the
    total. *)
Theorem GetUsers_lists_every_matching_row :
  forall (rt : Runtime) (query : ListUsersQuery) (db : gorm.DB) (row : User),
    In row db ->
    Search query = "" \/ SearchBy query = "" ->
    ShowDeleted query = true \/ DeletedAt row = None ->
    q_Role query = "" \/ Role row = q_Role query ->
    q_Provider query = "" \/ Provider row = q_Provider query ->
    (forall v : bool, q_Verified query = Some v -> Verified row = v) ->
    let total := snd (fst (fst (user.userRepository_GetUsers query db))) in
    1 <= total
    /\ In (user.scan_listed row)
         (fst (fst (fst (user.userRepository_GetUsers
                           (set_Page 1 (set_PerPage total query)) db)))).
Proof.
  intros rt query db row Hin Hsearch Hvis Hrole Hprov Hver.
  cbv zeta. rewrite (userRepository_GetUsers_run rt query db). cbn [fst snd].
  rewrite userRepository_GetUsers_run.
  change (conditions_of (set_Page 1 (set_PerPage _ query))) with (conditions_of query).
  cbn [set_Page set_PerPage Page PerPage ShowDeleted fst snd].
  set (rows := filter (gorm.selected (conditions_of query)) db).
  assert (Hrow : In row rows).
  { apply filter_In. split; [ exact Hin | ].
    unfold gorm.selected.
    - apply forallb_forall. intros p Hp. unfold conditions_of in Hp.
      assert (Hnone : (negb (Search query =? "")%string
                       && negb (SearchBy query =? "")%string) = false).
      { destruct Hsearch as [-> | ->]; cbn; [ reflexivity | apply andb_false_r ]. }
      rewrite Hnone in Hp. cbn [app] in Hp.
      apply in_app_or in Hp. destruct Hp as [Hp | Hp].
      + destruct (String.eqb_spec (q_Role query) "") as [E | E]; cbn [negb] in Hp;
          [ destruct Hp | ].
        destruct Hp as [<- | []]. cbn [gorm.holds].
        destruct Hrole as [Hr | Hr]; [ contradiction | ]. now apply String.eqb_eq.
      + apply in_app_or in Hp. destruct Hp as [Hp | Hp].
        * destruct (String.eqb_spec (q_Provider query) "") as [E | E]; cbn [negb] in Hp;
            [ destruct Hp | ].
          destruct Hp as [<- | []]. cbn [gorm.holds].
          destruct Hprov as [Hr | Hr]; [ contradiction | ]. now apply String.eqb_eq.
        * destruct (q_Verified query) as [v | ]; [ | destruct Hp ].
          destruct Hp as [<- | []]. cbn [gorm.holds].
          rewrite (Hver v eq_refl). apply Bool.eqb_reflx. }
  assert (Hpos : 1 <= Z.of_nat (List.length rows)).
  { destruct rows; [ destruct Hrow | cbn [List.length]; lia ]. }
  split; [ exact Hpos | ].
  replace (Z.of_nat (List.length rows) <=? 0) with false
    by (symmetry; apply Z.leb_gt; lia).
  change (if 1 <=? 0 then 1 else 1) with 1.
  change ((1 - 1) * Z.of_nat (List.length rows)) with 0.
  change (wrap64 0) with 0. unfold gorm.page_of. cbn [Z.ltb Z.compare].
  replace (0 <=? Z.of_nat (List.length rows)) with true
    by (symmetry; apply Z.leb_le; lia).
  rewrite firstn_all2 by (rewrite order_created_at_desc_length; lia).
  apply in_map. now apply order_created_at_desc_In.
Qed.

Lemma GetUsers_lists_every_matching_row_witness :
  In sample.bob_account sample.two_accounts
  /\ (Search sample.deleted_admins = "" \/ SearchBy sample.deleted_admins = "")
  /\ (ShowDeleted sample.deleted_admins = true \/ DeletedAt sample.bob_account = None)
  /\ (q_Role sample.deleted_admins = ""
      \/ Role sample.bob_account = q_Role sample.deleted_admins)
  /\ (q_Provider sample.deleted_admins = ""
      \/ Provider sample.bob_account = q_Provider sample.deleted_admins)
  /\ (forall v : bool, q_Verified sample.deleted_admins = Some v ->
        Verified sample.bob_account = v)
  /\ let total :=
       snd (fst (fst (user.userRepository_GetUsers (rt := reference.runtime)
                        sample.deleted_admins sample.two_accounts))) in
     1 <= total
     /\ In (user.scan_listed sample.bob_account)
          (fst (fst (fst (user.userRepository_GetUsers (rt := reference.runtime)
                            (set_Page 1 (set_PerPage total sample.deleted_admins))
                            sample.two_accounts)))).
Proof.
  assert (H1 : In sample.bob_account sample.two_accounts) by (right; left; reflexivity).
  assert (H2 : Search sample.deleted_admins = "" \/ SearchBy sample.deleted_admins = "")
    by (left; reflexivity).
  assert (H3 : ShowDeleted sample.deleted_admins = true
               \/ DeletedAt sample.bob_account = None) by (left; reflexivity).
  assert (H4 : q_Role sample.deleted_admins = ""
               \/ Role sample.bob_account = q_Role sample.deleted_admins)
    by (right; reflexivity).
  assert (H5 : q_Provider sample.deleted_admins = ""
               \/ Provider sample.bob_account = q_Provider sample.deleted_admins)
    by (right; reflexivity).
  assert (H6 : forall v : bool, q_Verified sample.deleted_admins = Some v ->
                 Verified sample.bob_account = v).
  { intros v Hv. injection Hv as <-. reflexivity. }
  repeat (split; [ first [ exact H1 | exact H2 | exact H3 | exact H4 | exact H5
                         | exact H6 ] | ]).
  exact (GetUsers_lists_every_matching_row reference.runtime sample.deleted_admins
           sample.two_accounts sample.bob_account H1 H2 H3 H4 H5 H6).
Defined.
